(** * Detection engine (panther-mock): field access, schema validation,
      rule loading and rule execution.

    A shallow embedding of [lib/panther-mock/helpers.py],
    [lib/panther-mock/schemas.py] and [lib/panther-mock/engine.py].

    Python values are a tagged union, dictionaries are association lists in
    insertion order, and a Python call that may raise returns a [res]:
    either a value or the exception object.  Exception classes are told
    apart by name: a handler [except (T1, T2)] catches the classes it
    names, and a handler [except Exception] catches every class but
    [BaseException] and the three built-in classes that derive from it
    directly, which it lets through. *)

From Stdlib Require Import List String Ascii ZArith Bool Lia.
Import ListNotations.
Local Open Scope string_scope.
Local Open Scope Z_scope.
Local Open Scope list_scope.

Set Warnings "-register-all,-notation-for-abbreviation".

(** ** Python values *)

Inductive pyval : Type :=
| VNone
| VBool (b : bool)
| VInt (n : Z)
| VFloat (bits : Z)   (* an IEEE binary64, by its bit pattern *)
| VStr (s : string)
| VList (items : list pyval)
| VDict (entries : list (string * pyval)).

(** [x is None] *)
Definition is_None (v : pyval) : bool :=
  match v with VNone => true | _ => false end.

(** [isinstance(x, dict)], [isinstance(x, list)] *)
Definition is_dict (v : pyval) : bool :=
  match v with VDict _ => true | _ => false end.

Definition is_list (v : pyval) : bool :=
  match v with VList _ => true | _ => false end.

(** [bool(x)]: Python truthiness. Bit patterns 0 and 2^63 are the floats
    +0.0 and -0.0. *)
Definition truthy (v : pyval) : bool :=
  match v with
  | VNone => false
  | VBool b => b
  | VInt n => negb (n =? 0)
  | VFloat bits => negb ((bits =? 0) || (bits =? 2 ^ 63))
  | VStr s => negb (String.eqb s EmptyString)
  | VList items => match items with [] => false | _ => true end
  | VDict entries => match entries with [] => false | _ => true end
  end.

(** [type(x).__name__] *)
Definition type_name (v : pyval) : string :=
  match v with
  | VNone => "NoneType"
  | VBool _ => "bool"
  | VInt _ => "int"
  | VFloat _ => "float"
  | VStr _ => "str"
  | VList _ => "list"
  | VDict _ => "dict"
  end.

(** ** Exceptions and fallible results *)

Record pyexn : Type := mk_exn {
  exc_type : string;       (* type(e).__name__ *)
  exc_msg : string;        (* str(e) *)
  exc_traceback : string   (* traceback.format_exc() at the handler *)
}.

Inductive res (A : Type) : Type :=
| Ok (a : A)
| Raise (e : pyexn).

Arguments Ok {A} a.
Arguments Raise {A} e.

Definition res_bind {A B : Type} (r : res A) (k : A -> res B) : res B :=
  match r with
  | Ok a => k a
  | Raise e => Raise e
  end.

(** [except (T1, T2, ...)]: does the handler's class tuple name the
    exception's class? *)
Definition exn_is_one_of (classes : list string) (e : pyexn) : bool :=
  existsb (String.eqb (exc_type e)) classes.

(** [isinstance(e, Exception)]: false for [BaseException] itself and for
    [SystemExit], [KeyboardInterrupt] and [GeneratorExit]. *)
Definition is_Exception (e : pyexn) : bool :=
  negb (exn_is_one_of
          ["BaseException"; "SystemExit"; "KeyboardInterrupt"; "GeneratorExit"]
          e).

(** ** Dictionaries as insertion-ordered association lists *)

Section Dict.
Context {V : Type}.

(** the entry bound to [key], if any *)
Fixpoint dict_find (entries : list (string * V)) (key : string) : option V :=
  match entries with
  | [] => None
  | (k, v) :: rest => if String.eqb k key then Some v else dict_find rest key
  end.

(** [key in d] *)
Definition dict_contains (entries : list (string * V)) (key : string) : bool :=
  match dict_find entries key with Some _ => true | None => false end.

(** [d[key] = v]: an existing key keeps its position, a new key goes last *)
Fixpoint dict_set (entries : list (string * V)) (key : string) (v : V)
  : list (string * V) :=
  match entries with
  | [] => [(key, v)]
  | (k, old) :: rest =>
      if String.eqb k key then (k, v) :: rest
      else (k, old) :: dict_set rest key v
  end.

(** [list(d.keys())], [list(d.values())] *)
Definition dict_keys (entries : list (string * V)) : list string :=
  map fst entries.

Definition dict_values (entries : list (string * V)) : list V :=
  map snd entries.

End Dict.

(** ** helpers.py *)

Module Helpers.

(** A path key: [deep_get] accepts strings and, for sequences, integers. *)
Inductive pykey : Type :=
| KStr (s : string)
| KInt (i : Z).

(** [d.get(key)] on an event mapping (string keys): [None] when absent. *)
Definition dict_get (entries : list (string * pyval)) (key : pykey) : pyval :=
  match key with
  | KStr s => match dict_find entries s with Some v => v | None => VNone end
  | KInt _ => VNone
  end.

(** [key in d] for a path key *)
Definition dict_has (entries : list (string * pyval)) (key : pykey) : bool :=
  match key with
  | KStr s => dict_contains entries s
  | KInt _ => false
  end.

Definition IndexError : pyexn :=
  mk_exn "IndexError" "list index out of range" EmptyString.

(** [items[i]]: negative indices count from the end, anything outside
    [-len, len) raises IndexError. *)
Definition list_getitem (items : list pyval) (i : Z) : res pyval :=
  let len := Z.of_nat (List.length items) in
  if (0 <=? i) && (i <? len) then Ok (nth (Z.to_nat i) items VNone)
  else if (- len <=? i) && (i <? 0) then Ok (nth (Z.to_nat (len + i)) items VNone)
  else Raise IndexError.

(** Control flow of one pass through the body of a [for] loop: fall
    through to the next iteration with the updated [result], or leave the
    function with [return v]. *)
Inductive flow : Type :=
| Next (result : pyval)
| Return (v : pyval).

(** [deep_get], lines 30-40: the loop body for one [key]. *)
Definition deep_get_body (result : pyval) (key : pykey) (default : pyval)
  : res flow :=
  let stepped :=
    match result with
    | VDict entries => Ok (Next (dict_get entries key))
    | VList items =>
        match key with
        | KInt i =>
            match list_getitem items i with
            | Ok v => Ok (Next v)
            | Raise e =>
                if exn_is_one_of ["IndexError"; "TypeError"] e
                then Ok (Return default)
                else Raise e
            end
        | KStr _ => Ok (Return default)
        end
    | _ => Ok (Return default)
    end in
  match stepped with
  | Ok (Next r) => if is_None r then Ok (Return default) else Ok (Next r)
  | other => other
  end.

(** [for key in keys: ...] starting from [result] *)
Fixpoint deep_get_for (result : pyval) (keys : list pykey) (default : pyval)
  : res flow :=
  match keys with
  | [] => Ok (Next result)
  | key :: rest =>
      match deep_get_body result key default with
      | Ok (Next r) => deep_get_for r rest default
      | other => other
      end
  end.

(** [deep_get(event, *keys, default=default)] *)
Definition deep_get (event : pyval) (keys : list pykey) (default : pyval)
  : res pyval :=
  match deep_get_for event keys default with
  | Ok (Next result) => Ok (if is_None result then default else result)
  | Ok (Return v) => Ok v
  | Raise e => Raise e
  end.

(** A path is valid in an event when the loop runs over all of it without
    taking one of its early [return default] exits. *)
Definition valid_path (event : pyval) (keys : list pykey) : Prop :=
  exists result, deep_get_for event keys VNone = Ok (Next result).

(** [_walk] of [deep_walk], lines 66-84.  Structural on [obj]: a mapping
    recurses into the value under [key] with the rest of the path, a
    sequence recurses into every item with the same remaining path. *)
Fixpoint _walk (return_val : string) (obj : pyval) (remaining_keys : list pykey)
  {struct obj} : list pyval :=
  match remaining_keys with
  | [] =>
      if String.eqb return_val "key" then
        match obj with
        | VDict entries => map VStr (dict_keys entries)
        | _ => []
        end
      else if is_None obj then [] else [obj]
  | key :: rest =>
      match obj with
      | VDict entries =>
          match key with
          | KStr s =>
              (fix find (es : list (string * pyval)) : list pyval :=
                 match es with
                 | [] => []
                 | (k, v) :: es' =>
                     if String.eqb k s then _walk return_val v rest
                     else find es'
                 end) entries
          | KInt _ => []
          end
      | VList items =>
          (fix each (l : list pyval) : list pyval :=
             match l with
             | [] => []
             | item :: l' => _walk return_val item remaining_keys ++ each l'
             end) items
      | _ => []
      end
  end.

(** [deep_walk(event, *keys, default=default, return_val=return_val)] *)
Definition deep_walk (event : pyval) (keys : list pykey) (default : pyval)
  (return_val : string) : pyval :=
  let results := _walk return_val event keys in
  match results with
  | _ :: _ => VList results
  | [] => if is_None default then VList [] else default
  end.

End Helpers.

(** ** schemas.py *)

Module Schemas.

Inductive LogType : Type :=
| AWS_CLOUDTRAIL | AWS_GUARDDUTY | AWS_S3_SERVER_ACCESS | AWS_VPC_FLOW | AWS_ALB
| OKTA_SYSTEM_LOG | GITHUB_AUDIT | GCP_AUDIT
| SYSMON | OSQUERY | AUDITD
| CUSTOM_JSON.

Record SchemaField : Type := mk_field {
  name : string;
  type : string;
  required : bool;
  description : string;
  nested_schema : option (list (string * pyval))
}.

Record LogSchema : Type := mk_schema {
  log_type : LogType;
  schema_description : string;
  fields : list (string * SchemaField);
  (* a Python set, in the order its iteration yields the members *)
  required_fields : list string;
  timestamp_field : string
}.

(** The classes [type_map] binds to a type word; [float] is the tuple
    [(int, float)]. *)
Inductive pyclass : Type :=
| c_str | c_int | c_float | c_bool | c_dict | c_list.

Definition type_map_get (expected_type : string) : option (list pyclass) :=
  if String.eqb expected_type "string" then Some [c_str]
  else if String.eqb expected_type "int" then Some [c_int]
  else if String.eqb expected_type "float" then Some [c_int; c_float]
  else if String.eqb expected_type "bool" then Some [c_bool]
  else if String.eqb expected_type "object" then Some [c_dict]
  else if String.eqb expected_type "array" then Some [c_list]
  else if String.eqb expected_type "timestamp" then Some [c_str]
  else None.

(** [isinstance(value, cls)]; [bool] is a subclass of [int]. *)
Definition instance_of (value : pyval) (cls : pyclass) : bool :=
  match cls, value with
  | c_str, VStr _ => true
  | c_int, VInt _ => true
  | c_int, VBool _ => true
  | c_float, VFloat _ => true
  | c_bool, VBool _ => true
  | c_dict, VDict _ => true
  | c_list, VList _ => true
  | _, _ => false
  end.

(** [LogSchema._check_type] *)
Definition _check_type (value : pyval) (expected_type : string) : bool :=
  if is_None value then true
  else
    match type_map_get expected_type with
    | None => true
    | Some expected => existsb (instance_of value) expected
    end.

Definition missing_required (field_name : string) : string :=
  ("Missing required field: " ++ field_name)%string.

Definition wrong_type (field_name expected_type : string) (value : pyval)
  : string :=
  ("Field '" ++ field_name ++ "' has wrong type. " ++
   "Expected " ++ expected_type ++ ", got " ++ type_name value)%string.

(** first loop of [validate]: one pass of the body *)
Definition check_required (event : list (string * pyval))
  (errors : list string) (field_name : string) : list string :=
  if negb (dict_contains event field_name)
  then errors ++ [missing_required field_name]
  else errors.

(** second loop of [validate]: one pass of the body *)
Definition check_field (event : list (string * pyval))
  (errors : list string) (item : string * SchemaField) : list string :=
  let (field_name, field_def) := item in
  match dict_find event field_name with
  | Some value =>
      if negb (_check_type value (type field_def))
      then errors ++ [wrong_type field_name (type field_def) value]
      else errors
  | None => errors
  end.

(** [LogSchema.validate] *)
Definition validate (self : LogSchema) (event : list (string * pyval))
  : list string :=
  let errors := [] in
  let errors := fold_left (check_required event) (required_fields self) errors in
  let errors := fold_left (check_field event) (fields self) errors in
  errors.

End Schemas.

(** ** Stateful, fallible computations *)

(** A computation over a mutable state [S]: it ends with a value or with a
    raised exception, and in both cases leaves a state behind (what was
    mutated before a fault stays mutated). *)
Definition Exec (S A : Type) : Type := S -> res A * S.

Definition ret {S A : Type} (a : A) : Exec S A := fun s => (Ok a, s).

Definition raise {S A : Type} (e : pyexn) : Exec S A := fun s => (Raise e, s).

Definition bind {S A B : Type} (c : Exec S A) (k : A -> Exec S B) : Exec S B :=
  fun s =>
    match c s with
    | (Ok a, s') => k a s'
    | (Raise e, s') => (Raise e, s')
    end.

Notation "x <- c ;; k" := (bind c (fun x => k))
  (at level 61, c at next level, right associativity).
Notation "c ;;; k" := (bind c (fun _ => k))
  (at level 61, right associativity).

(** [try: body  except Exception as e: handler(e)].  An exception that is
    not an instance of [Exception] is not handled: it leaves the
    statement as it was raised. *)
Definition try_except {S A : Type} (body : Exec S A) (handler : pyexn -> Exec S A)
  : Exec S A :=
  fun s =>
    match body s with
    | (Ok a, s') => (Ok a, s')
    | (Raise e, s') => if is_Exception e then handler e s' else (Raise e, s')
    end.

(** [for x in items: acc = body(acc, x)] *)
Fixpoint for_each {S A B : Type} (body : B -> A -> Exec S B) (items : list A)
  (acc : B) : Exec S B :=
  match items with
  | [] => ret acc
  | x :: rest => acc' <- body acc x ;; for_each body rest acc'
  end.

(** ** engine.py *)

Module Engine.

(** A callable of a rule module, applied to an event. *)
Definition pyfunc : Type := pyval -> res pyval.

Record Detection : Type := mk_detection {
  rule_id : string;
  file_path : string;
  rule_func : pyfunc;
  title_func : option pyfunc;
  severity_func : option pyfunc;
  description_func : option pyfunc;
  reference_func : option pyfunc;
  runbook_func : option pyfunc;
  alert_context_func : option pyfunc;
  dedup_func : option pyfunc;
  log_types : list string;
  enabled : bool;
  tags : list string
}.

Definition default_severity (self : Detection) : string := "MEDIUM".

Module DetectionResult.

Record t : Type := mk {
  rule_id : string;
  rule_file : string;
  matched : bool;
  event : pyval;
  title : pyval;
  severity : pyval;
  description : pyval;
  reference : pyval;
  runbook : pyval;
  alert_context : pyval;
  dedup_string : pyval;
  error : option string;
  execution_time_ms : Z   (* a float, by its bit pattern *)
}.

(** the dataclass constructor with its defaults *)
Definition init (rule_id rule_file : string) (matched : bool) (event : pyval) : t :=
  mk rule_id rule_file matched event
     VNone (VStr "MEDIUM") VNone VNone VNone VNone VNone None 0.

Definition set_matched (b : bool) (r : t) : t :=
  mk (rule_id r) (rule_file r) b (event r) (title r) (severity r)
     (description r) (reference r) (runbook r) (alert_context r)
     (dedup_string r) (error r) (execution_time_ms r).

Definition set_title (v : pyval) (r : t) : t :=
  mk (rule_id r) (rule_file r) (matched r) (event r) v (severity r)
     (description r) (reference r) (runbook r) (alert_context r)
     (dedup_string r) (error r) (execution_time_ms r).

Definition set_severity (v : pyval) (r : t) : t :=
  mk (rule_id r) (rule_file r) (matched r) (event r) (title r) v
     (description r) (reference r) (runbook r) (alert_context r)
     (dedup_string r) (error r) (execution_time_ms r).

Definition set_description (v : pyval) (r : t) : t :=
  mk (rule_id r) (rule_file r) (matched r) (event r) (title r) (severity r)
     v (reference r) (runbook r) (alert_context r)
     (dedup_string r) (error r) (execution_time_ms r).

Definition set_reference (v : pyval) (r : t) : t :=
  mk (rule_id r) (rule_file r) (matched r) (event r) (title r) (severity r)
     (description r) v (runbook r) (alert_context r)
     (dedup_string r) (error r) (execution_time_ms r).

Definition set_runbook (v : pyval) (r : t) : t :=
  mk (rule_id r) (rule_file r) (matched r) (event r) (title r) (severity r)
     (description r) (reference r) v (alert_context r)
     (dedup_string r) (error r) (execution_time_ms r).

Definition set_alert_context (v : pyval) (r : t) : t :=
  mk (rule_id r) (rule_file r) (matched r) (event r) (title r) (severity r)
     (description r) (reference r) (runbook r) v
     (dedup_string r) (error r) (execution_time_ms r).

Definition set_dedup_string (v : pyval) (r : t) : t :=
  mk (rule_id r) (rule_file r) (matched r) (event r) (title r) (severity r)
     (description r) (reference r) (runbook r) (alert_context r)
     v (error r) (execution_time_ms r).

Definition set_error (msg : option string) (r : t) : t :=
  mk (rule_id r) (rule_file r) (matched r) (event r) (title r) (severity r)
     (description r) (reference r) (runbook r) (alert_context r)
     (dedup_string r) msg (execution_time_ms r).

Definition set_execution_time_ms (ms : Z) (r : t) : t :=
  mk (rule_id r) (rule_file r) (matched r) (event r) (title r) (severity r)
     (description r) (reference r) (runbook r) (alert_context r)
     (dedup_string r) (error r) ms.

Definition optional_str (o : option string) : pyval :=
  match o with Some s => VStr s | None => VNone end.

Definition to_dict (self : t) : list (string * pyval) :=
  [ ("rule_id", VStr (rule_id self));
    ("rule_file", VStr (rule_file self));
    ("matched", VBool (matched self));
    ("title", title self);
    ("severity", severity self);
    ("description", description self);
    ("reference", reference self);
    ("runbook", runbook self);
    ("alert_context", alert_context self);
    ("dedup_string", dedup_string self);
    ("error", optional_str (error self));
    ("execution_time_ms", VFloat (execution_time_ms self));
    ("event", event self) ].

End DetectionResult.

(** The metadata a detection may extract, in the order the engine asks. *)
Inductive field : Type :=
| Title | Severity | Description | Reference | Runbook | AlertContext | Dedup.

(** Which callable of a detection a call went to. *)
Inductive callable : Type :=
| RuleFunc
| Extractor (which : field).

Record call : Type := mk_call {
  call_rule : string;
  call_func : callable;
  call_arg : pyval
}.

(** What the engine reads and writes: its registry [self.detections],
    standard output, the number of clock readings taken so far, and the
    calls made into rule modules, oldest first. *)
Record State : Type := mk_state {
  detections : list (string * Detection);
  stdout : list string;
  clock : nat;
  calls : list call
}.

Definition set_detections (ds : list (string * Detection)) (s : State) : State :=
  mk_state ds (stdout s) (clock s) (calls s).

Definition print (line : string) : Exec State unit :=
  fun s => (Ok tt, mk_state (detections s) (stdout s ++ [line]) (clock s) (calls s)).

Definition log_call (c : call) (s : State) : State :=
  mk_state (detections s) (stdout s) (clock s) (calls s ++ [c]).

Definition get_detections : Exec State (list (string * Detection)) :=
  fun s => (Ok (detections s), s).

(** [self.detections[rule_id] = detection] *)
Definition register (rule_id : string) (detection : Detection) : Exec State unit :=
  fun s => (Ok tt, set_detections (dict_set (detections s) rule_id detection) s).

(** *** Loading *)

(** The namespace of an executed rule module: the attributes the loader
    looks up, [None] where the module does not define one. *)
Record RuleModule : Type := mk_module {
  attr_rule : option pyfunc;
  attr_title : option pyfunc;
  attr_severity : option pyfunc;
  attr_description : option pyfunc;
  attr_reference : option pyfunc;
  attr_runbook : option pyfunc;
  attr_alert_context : option pyfunc;
  attr_dedup : option pyfunc;
  attr_LOG_TYPES : option (list string);
  attr_ENABLED : option bool;
  attr_TAGS : option (list string)
}.

(** A path as the loader sees it through pathlib and importlib. *)
Record RuleFile : Type := mk_file {
  path : string;                  (* str(rule_path) *)
  name : string;                  (* rule_path.name *)
  stem : string;                  (* rule_path.stem *)
  file_exists : bool;             (* rule_path.exists() *)
  has_spec_loader : bool;         (* spec is not None and spec.loader is not None *)
  exec_module : res RuleModule    (* spec.loader.exec_module(module) *)
}.

Record RulesDir : Type := mk_dir {
  dir_path : string;
  dir_exists : bool;              (* rules_dir.exists() *)
  glob_py : list RuleFile         (* rules_dir.glob("*.py"), in its order *)
}.

Definition FileNotFoundError (msg : string) : pyexn := mk_exn "FileNotFoundError" msg EmptyString.
Definition ImportError (msg : string) : pyexn := mk_exn "ImportError" msg EmptyString.
Definition ValueError (msg : string) : pyexn := mk_exn "ValueError" msg EmptyString.

(** [getattr(module, attr, default)] *)
Definition getattr {A : Type} (attr : option A) (default : A) : A :=
  match attr with Some a => a | None => default end.

Definition make_detection (rule_path : RuleFile) (module : RuleModule)
  (rule : pyfunc) : Detection :=
  mk_detection (stem rule_path) (path rule_path) rule
    (attr_title module) (attr_severity module) (attr_description module)
    (attr_reference module) (attr_runbook module)
    (attr_alert_context module) (attr_dedup module)
    (getattr (attr_LOG_TYPES module) [])
    (getattr (attr_ENABLED module) true)
    (getattr (attr_TAGS module) []).

(** [DetectionEngine.load_rule].  The entry it makes in [sys.modules] is
    not part of the state. *)
Definition load_rule (rule_path : RuleFile) : Exec State Detection :=
  if negb (file_exists rule_path) then
    raise (FileNotFoundError ("Rule file not found: " ++ path rule_path)%string)
  else
    let rule_id := stem rule_path in
    if negb (has_spec_loader rule_path) then
      raise (ImportError ("Cannot load rule from " ++ path rule_path)%string)
    else
      module <- try_except
                  (fun s => (exec_module rule_path, s))
                  (fun e => raise (ImportError
                     ("Error loading rule " ++ path rule_path ++ ": "
                      ++ exc_msg e)%string)) ;;
      match attr_rule module with
      | None =>
          raise (ValueError ("Rule " ++ path rule_path
                             ++ " must define a 'rule' function")%string)
      | Some rule =>
          let detection := make_detection rule_path module rule in
          register rule_id detection ;;;
          ret detection
      end.

Definition load_warning (rule_file : RuleFile) (e : pyexn) : string :=
  ("Warning: Failed to load rule " ++ path rule_file ++ ": " ++ exc_msg e)%string.

(** body of the loop of [load_rules] *)
Definition load_rules_body (loaded : list Detection) (rule_file : RuleFile)
  : Exec State (list Detection) :=
  if String.prefix "_" (name rule_file) then ret loaded
  else
    try_except
      (detection <- load_rule rule_file ;; ret (loaded ++ [detection]))
      (fun e => print (load_warning rule_file e) ;;; ret loaded).

(** [DetectionEngine.load_rules] *)
Definition load_rules (rules_dir : RulesDir) : Exec State (list Detection) :=
  if negb (dir_exists rules_dir) then
    raise (FileNotFoundError
             ("Rules directory not found: " ++ dir_path rules_dir)%string)
  else
    for_each load_rules_body (glob_py rules_dir) [].

(** *** Execution *)

Section Clock.

(** The wall clock: [now n] is what the [n]-th call of [datetime.now()]
    reads, and [elapsed_ms t0 t1] the float
    [(t1 - t0).total_seconds() * 1000]. *)
Variable now : nat -> Z.
Variable elapsed_ms : Z -> Z -> Z.

Definition datetime_now : Exec State Z :=
  fun s => (Ok (now (clock s)),
            mk_state (detections s) (stdout s) (S (clock s)) (calls s)).

(** Inside [run_detection] the local [result] object is mutated next to
    the engine's state. *)
Definition Frame : Type := (DetectionResult.t * State)%type.

(** [f(event)] for a callable of [detection]; the call is logged. *)
Definition invoke (detection : Detection) (which : callable) (f : pyfunc)
  (event : pyval) : Exec Frame pyval :=
  fun fr =>
    (f event,
     (fst fr, log_call (mk_call (rule_id detection) which event) (snd fr))).

(** [result.field = v], as an update of the local [result] *)
Definition assign (update : DetectionResult.t -> DetectionResult.t)
  : Exec Frame unit :=
  fun fr => (Ok tt, (update (fst fr), snd fr)).

Definition read_result : Exec Frame DetectionResult.t :=
  fun fr => (Ok (fst fr), fr).

(** the statements under [try:] of [run_detection], lines 219-246 *)
Definition run_detection_try (detection : Detection) (event : pyval)
  : Exec Frame unit :=
  matched <- invoke detection RuleFunc (rule_func detection) event ;;
  assign (DetectionResult.set_matched (truthy matched)) ;;;
  result <- read_result ;;
  if DetectionResult.matched result then
    match title_func detection with
    | Some f =>
        v <- invoke detection (Extractor Title) f event ;;
        assign (DetectionResult.set_title v)
    | None => ret tt
    end ;;;
    match severity_func detection with
    | Some f =>
        v <- invoke detection (Extractor Severity) f event ;;
        assign (DetectionResult.set_severity v)
    | None =>
        assign (DetectionResult.set_severity (VStr (default_severity detection)))
    end ;;;
    match description_func detection with
    | Some f =>
        v <- invoke detection (Extractor Description) f event ;;
        assign (DetectionResult.set_description v)
    | None => ret tt
    end ;;;
    match reference_func detection with
    | Some f =>
        v <- invoke detection (Extractor Reference) f event ;;
        assign (DetectionResult.set_reference v)
    | None => ret tt
    end ;;;
    match runbook_func detection with
    | Some f =>
        v <- invoke detection (Extractor Runbook) f event ;;
        assign (DetectionResult.set_runbook v)
    | None => ret tt
    end ;;;
    match alert_context_func detection with
    | Some f =>
        v <- invoke detection (Extractor AlertContext) f event ;;
        assign (DetectionResult.set_alert_context v)
    | None => ret tt
    end ;;;
    match dedup_func detection with
    | Some f =>
        v <- invoke detection (Extractor Dedup) f event ;;
        assign (DetectionResult.set_dedup_string v)
    | None => ret tt
    end
  else ret tt.

Definition newline : string := String (ascii_of_nat 10) EmptyString.

(** [f"{type(e).__name__}: {str(e)}\n{traceback.format_exc()}"] *)
Definition format_error (e : pyexn) : string :=
  (exc_type e ++ ": " ++ exc_msg e ++ newline ++ exc_traceback e)%string.

(** Run a computation on the local [result] and hand the object back. *)
Definition with_result (result : DetectionResult.t) (c : Exec Frame unit)
  : Exec State DetectionResult.t :=
  fun s =>
    match c (result, s) with
    | (Ok _, fr) => (Ok (fst fr), snd fr)
    | (Raise e, fr) => (Raise e, snd fr)
    end.

(** [DetectionEngine.run_detection] *)
Definition run_detection (detection : Detection) (event : pyval)
  : Exec State DetectionResult.t :=
  start_time <- datetime_now ;;
  let result :=
    DetectionResult.init (rule_id detection) (file_path detection) false event in
  result <- with_result result
              (try_except
                 (run_detection_try detection event)
                 (fun e => assign (DetectionResult.set_error
                                     (Some (format_error e))))) ;;
  end_time <- datetime_now ;;
  ret (DetectionResult.set_execution_time_ms
         (elapsed_ms start_time end_time) result).

(** The [events] argument of [run]: one event or a list of them. *)
Inductive events_arg : Type :=
| OneEvent (event : pyval)
| EventList (events : list pyval).

(** [bool(rule_ids)] for an optional list *)
Definition rule_ids_truthy (rule_ids : option (list string)) : bool :=
  match rule_ids with
  | None => false
  | Some [] => false
  | Some (_ :: _) => true
  end.

(** [rule_id in rule_ids] *)
Definition rule_id_in (rule_id : string) (rule_ids : option (list string)) : bool :=
  match rule_ids with
  | None => false
  | Some ids => existsb (String.eqb rule_id) ids
  end.

(** body of the inner loop of [run], lines 278-287 *)
Definition run_body (rule_ids : option (list string)) (event : pyval)
  (results : list DetectionResult.t) (item : string * Detection)
  : Exec State (list DetectionResult.t) :=
  let (rule_id, detection) := item in
  if rule_ids_truthy rule_ids && negb (rule_id_in rule_id rule_ids)
  then ret results
  else if negb (enabled detection) then ret results
  else
    result <- run_detection detection event ;;
    ret (results ++ [result]).

(** [DetectionEngine.run] *)
Definition run (events : events_arg) (rule_ids : option (list string))
  : Exec State (list DetectionResult.t) :=
  let events :=
    match events with
    | OneEvent event => [event]
    | EventList events => events
    end in
  let results := [] in
  for_each
    (fun results event =>
       items <- get_detections ;;
       for_each (run_body rule_ids event) items results)
    events results.


End Clock.

End Engine.

(** ** engine.py: module-level functions *)

Module EngineApi.
Import Engine.

(** [engine = DetectionEngine()]: the computation runs on a registry of
    its own, empty at first, and the registry of the caller's engine is
    the same before and after. *)
Definition with_new_engine {A : Type} (c : Exec State A) : Exec State A :=
  fun s =>
    match c (set_detections [] s) with
    | (r, s') => (r, set_detections (detections s) s')
    end.

Section Clock.
Variable now : nat -> Z.
Variable elapsed_ms : Z -> Z -> Z.

(** [run_detection(rule_path, event)] *)
Definition run_detection (rule_path : RuleFile) (event : pyval)
  : Exec State DetectionResult.t :=
  with_new_engine
    (detection <- load_rule rule_path ;;
     Engine.run_detection now elapsed_ms detection event).


End Clock.

End EngineApi.

(** ** schemas.py: the schema table *)

Module SchemaRegistry.
Import Schemas.

(** The value of each [LogType] member. *)
Definition log_type_value (t : LogType) : string :=
  match t with
  | AWS_CLOUDTRAIL => "AWS.CloudTrail"
  | AWS_GUARDDUTY => "AWS.GuardDuty"
  | AWS_S3_SERVER_ACCESS => "AWS.S3ServerAccess"
  | AWS_VPC_FLOW => "AWS.VPCFlow"
  | AWS_ALB => "AWS.ALB"
  | OKTA_SYSTEM_LOG => "Okta.SystemLog"
  | GITHUB_AUDIT => "GitHub.Audit"
  | GCP_AUDIT => "GCP.AuditLog"
  | SYSMON => "Custom.Sysmon"
  | OSQUERY => "Custom.Osquery"
  | AUDITD => "Custom.Auditd"
  | CUSTOM_JSON => "Custom.JSON"
  end.

(** Members of an Enum are equal only to themselves; their values are
    pairwise different, so comparing values decides it. *)
Definition log_type_eqb (a b : LogType) : bool :=
  String.eqb (log_type_value a) (log_type_value b).

(** A key of [SCHEMAS]: [_init_schemas] files schemas under [LogType]
    members, [add_custom_schema] under a string.  A member never equals a
    string. *)
Inductive schema_key : Type :=
| ByType (t : LogType)
| ByName (name : string).

Definition schema_key_eqb (a b : schema_key) : bool :=
  match a, b with
  | ByType x, ByType y => log_type_eqb x y
  | ByName x, ByName y => String.eqb x y
  | _, _ => false
  end.

(** [SCHEMAS.get(key)] and [SCHEMAS[key] = schema] *)
Fixpoint schemas_get (table : list (schema_key * LogSchema)) (key : schema_key)
  : option LogSchema :=
  match table with
  | [] => None
  | (k, v) :: rest =>
      if schema_key_eqb k key then Some v else schemas_get rest key
  end.

Fixpoint schemas_set (table : list (schema_key * LogSchema)) (key : schema_key)
  (schema : LogSchema) : list (schema_key * LogSchema) :=
  match table with
  | [] => [(key, schema)]
  | (k, old) :: rest =>
      if schema_key_eqb k key then (k, schema) :: rest
      else (k, old) :: schemas_set rest key schema
  end.

(** [SchemaField(name, type, required)] with the other defaults, filed
    under its name *)
Definition declare (name type : string) (required : bool)
  : string * SchemaField :=
  (name, mk_field name type required EmptyString None).

Definition cloudtrail : LogSchema :=
  mk_schema AWS_CLOUDTRAIL "AWS CloudTrail audit logs"
    [ declare "eventVersion" "string" true;
      declare "eventSource" "string" true;
      declare "eventName" "string" true;
      declare "eventTime" "timestamp" true;
      declare "awsRegion" "string" false;
      declare "sourceIPAddress" "string" false;
      declare "userAgent" "string" false;
      declare "userIdentity" "object" false;
      declare "requestParameters" "object" false;
      declare "responseElements" "object" false;
      declare "errorCode" "string" false;
      declare "errorMessage" "string" false ]
    ["eventVersion"; "eventSource"; "eventName"]
    "eventTime".

Definition guardduty : LogSchema :=
  mk_schema AWS_GUARDDUTY "AWS GuardDuty security findings"
    [ declare "detail-type" "string" true;
      declare "source" "string" true;
      declare "time" "timestamp" false;
      declare "detail" "object" false;
      declare "account" "string" false;
      declare "region" "string" false ]
    ["detail-type"; "source"]
    "time".

Definition okta : LogSchema :=
  mk_schema OKTA_SYSTEM_LOG "Okta System Log events"
    [ declare "eventType" "string" true;
      declare "actor" "object" true;
      declare "published" "timestamp" false;
      declare "severity" "string" false;
      declare "displayMessage" "string" false;
      declare "outcome" "object" false;
      declare "target" "array" false;
      declare "client" "object" false;
      declare "authenticationContext" "object" false ]
    ["eventType"; "actor"]
    "published".

Definition github : LogSchema :=
  mk_schema GITHUB_AUDIT "GitHub Audit log events"
    [ declare "action" "string" true;
      declare "@timestamp" "timestamp" false;
      declare "actor" "string" false;
      declare "actor_ip" "string" false;
      declare "org" "string" false;
      declare "repo" "string" false;
      declare "user" "string" false ]
    ["action"]
    "@timestamp".

Definition sysmon : LogSchema :=
  mk_schema SYSMON "Windows Sysmon events"
    [ declare "EventID" "int" true;
      declare "UtcTime" "timestamp" false;
      declare "ProcessId" "int" false;
      declare "Image" "string" false;
      declare "CommandLine" "string" false;
      declare "CurrentDirectory" "string" false;
      declare "User" "string" false;
      declare "ParentProcessId" "int" false;
      declare "ParentImage" "string" false;
      declare "ParentCommandLine" "string" false;
      declare "TargetFilename" "string" false;
      declare "DestinationIp" "string" false;
      declare "DestinationPort" "int" false ]
    ["EventID"]
    "UtcTime".

Definition osquery : LogSchema :=
  mk_schema OSQUERY "osquery scheduled query results"
    [ declare "name" "string" true;
      declare "hostIdentifier" "string" false;
      declare "unixTime" "int" false;
      declare "calendarTime" "string" false;
      declare "columns" "object" false;
      declare "action" "string" false ]
    ["name"]
    "unixTime".

(** [_init_schemas()], on the table it finds *)
Definition _init_schemas (table : list (schema_key * LogSchema))
  : list (schema_key * LogSchema) :=
  let table := schemas_set table (ByType AWS_CLOUDTRAIL) cloudtrail in
  let table := schemas_set table (ByType AWS_GUARDDUTY) guardduty in
  let table := schemas_set table (ByType OKTA_SYSTEM_LOG) okta in
  let table := schemas_set table (ByType GITHUB_AUDIT) github in
  let table := schemas_set table (ByType SYSMON) sysmon in
  let table := schemas_set table (ByType OSQUERY) osquery in
  table.

(** [SCHEMAS] once the module is loaded *)
Definition SCHEMAS : list (schema_key * LogSchema) := _init_schemas [].

(** [get_schema(log_type)] *)
Definition get_schema (table : list (schema_key * LogSchema))
  (log_type : schema_key) : option LogSchema :=
  schemas_get table log_type.

(** [validate_event(event, log_type)] *)
Definition validate_event (table : list (schema_key * LogSchema))
  (event : list (string * pyval)) (log_type : schema_key) : list string :=
  match get_schema table log_type with
  | None => []
  | Some schema => validate schema event
  end.

(** One entry of the [fields] argument of [add_custom_schema]: a mapping
    that may give a type word, a required flag and a description, each of
    the type the dataclass declares. *)
Record field_def : Type := mk_field_def {
  def_type : option string;
  def_required : option bool;
  def_description : option string
}.

Definition or_default {A : Type} (o : option A) (default : A) : A :=
  match o with Some a => a | None => default end.

(** [set(required_fields) if required_fields else set()]: the members
    without repetition, in an order the caller cannot rely on. *)
Definition required_set (required_fields : option (list string)) : list string :=
  match required_fields with
  | None => []
  | Some l => nodup string_dec l
  end.

(** [add_custom_schema(...)]: the table afterwards and the value returned *)
Definition add_custom_schema (table : list (schema_key * LogSchema))
  (log_type_name description : string) (fields : list (string * field_def))
  (required_fields : option (list string)) (timestamp_field : string)
  : list (schema_key * LogSchema) * LogType :=
  let schema_fields :=
    fold_left
      (fun acc item =>
         dict_set acc (fst item)
           (mk_field (fst item)
              (or_default (def_type (snd item)) "string")
              (or_default (def_required (snd item)) false)
              (or_default (def_description (snd item)) EmptyString)
              None))
      fields [] in
  let schema :=
    mk_schema CUSTOM_JSON description schema_fields
      (required_set required_fields) timestamp_field in
  (schemas_set table (ByName log_type_name) schema, CUSTOM_JSON).

End SchemaRegistry.

(** ** helpers.py: the other helpers *)

Module HelpersMore.
Import Helpers.

(** [aws_guardduty_context(event)] *)
Definition aws_guardduty_context (event : pyval) : res pyval :=
  res_bind (deep_get event [KStr "detail"; KStr "type"] VNone)
    (fun finding_type =>
  res_bind (deep_get event [KStr "detail"; KStr "severity"] VNone)
    (fun severity =>
  res_bind (deep_get event [KStr "detail"; KStr "accountId"] VNone)
    (fun account_id =>
  res_bind (deep_get event [KStr "detail"; KStr "region"] VNone)
    (fun region =>
  res_bind (deep_get event [KStr "detail"; KStr "resource"; KStr "resourceType"]
              VNone)
    (fun resource_type =>
  Ok (VDict [ ("finding_type", finding_type);
              ("severity", severity);
              ("account_id", account_id);
              ("region", region);
              ("resource_type", resource_type) ])))))).

(** [s.split(sep, maxsplit)] for a one-character separator: at most
    [maxsplit] cuts, from the left. *)
Fixpoint split (sep : ascii) (s : string) (maxsplit : nat) {struct s}
  : list string :=
  match s with
  | EmptyString => [EmptyString]
  | String c rest =>
      match maxsplit with
      | O => [s]
      | S fewer =>
          if Ascii.eqb c sep then EmptyString :: split sep rest fewer
          else
            match split sep rest maxsplit with
            | head :: tail => String c head :: tail
            | [] => [String c EmptyString]
            end
      end
  end.

Definition colon : ascii := ":"%char.

Definition AttributeError (msg : string) : pyexn :=
  mk_exn "AttributeError" msg EmptyString.

(** [aws_arn_parse(arn)].  [None], the empty string and the other falsy
    values give [None]; a truthy value that is not a string has no
    [startswith]. *)
Definition aws_arn_parse (arn : pyval) : res pyval :=
  if negb (truthy arn) then Ok VNone
  else
    match arn with
    | VStr s =>
        if negb (String.prefix "arn:" s) then Ok VNone
        else
          let parts := split colon s 5 in
          if (List.length parts <? 6)%nat then Ok VNone
          else
            Ok (VDict [ ("partition", VStr (nth 1 parts EmptyString));
                        ("service", VStr (nth 2 parts EmptyString));
                        ("region", VStr (nth 3 parts EmptyString));
                        ("account", VStr (nth 4 parts EmptyString));
                        ("resource", VStr (nth 5 parts EmptyString)) ])
    | _ =>
        Raise (AttributeError
                 ("'" ++ type_name arn
                  ++ "' object has no attribute 'startswith'")%string)
    end.

Section Patterns.

(** [fnmatch.fnmatch(name, pattern)] and [str(x)], from Python's library. *)
Variable fnmatch : string -> string -> bool.
Variable py_str : pyval -> string.

(** [pattern_match(string, pattern)] *)
Definition pattern_match (value : pyval) (pattern : String.string) : bool :=
  if is_None value then false
  else fnmatch (py_str value) pattern.

(** [pattern_match_list(string, patterns)] *)
Definition pattern_match_list (value : pyval) (patterns : list String.string)
  : bool :=
  if is_None value then false
  else existsb (fun p => pattern_match value p) patterns.

End Patterns.

(** [any(f(x) for x in items)] where [f] may raise: the first [True] or
    the first exception ends it. *)
Fixpoint any_of {A : Type} (f : A -> res bool) (items : list A) : res bool :=
  match items with
  | [] => Ok false
  | x :: rest =>
      match f x with
      | Ok true => Ok true
      | Ok false => any_of f rest
      | Raise e => Raise e
      end
  end.

Section Networks.

(** Python's [ipaddress]: [ip_address(x)], [ip_network(x, strict=False)]
    and membership of an address in a network. *)
Variable address : Type.
Variable network : Type.
Variable ip_address : pyval -> res address.
Variable ip_network : string -> res network.
Variable contains : network -> address -> bool.

(** [is_ip_in_network(ip, network)] *)
Definition is_ip_in_network (ip : pyval) (net : string) : res bool :=
  let attempt :=
    res_bind (ip_address ip) (fun a =>
    res_bind (ip_network net) (fun n =>
    Ok (contains n a))) in
  match attempt with
  | Ok b => Ok b
  | Raise e =>
      if exn_is_one_of ["ValueError"] e then Ok false else Raise e
  end.

Definition dmz_ranges : list string :=
  ["10.0.0.0/8"; "172.16.0.0/12"; "192.168.0.0/16"].

(** [is_dmz_ip(ip)] *)
Definition is_dmz_ip (ip : pyval) : res bool :=
  any_of (is_ip_in_network ip) dmz_ranges.

Definition private_ranges : list string :=
  ["10.0.0.0/8"; "172.16.0.0/12"; "192.168.0.0/16"; "127.0.0.0/8"].

(** [is_internal_ip(ip)] *)
Definition is_internal_ip (ip : pyval) : res bool :=
  any_of (is_ip_in_network ip) private_ranges.

End Networks.

End HelpersMore.

(** ** detections/panther/rules *)

Module Rules.
Import Helpers Engine.

(** The exceptions the operations of the rules raise.  [tb] is the text
    [traceback.format_exc()] gives for the exception where the engine
    handles it. *)
Definition AttributeError (msg tb : string) : pyexn :=
  mk_exn "AttributeError" msg tb.
Definition TypeError (msg tb : string) : pyexn := mk_exn "TypeError" msg tb.

(** [event.get(key, default)].  Only a mapping has [get]. *)
Definition get (tb : string) (event : pyval) (key : string) (default : pyval)
  : res pyval :=
  match event with
  | VDict entries =>
      Ok (match dict_find entries key with Some v => v | None => default end)
  | _ =>
      Raise (AttributeError
               ("'" ++ type_name event ++ "' object has no attribute 'get'")%string
               tb)
  end.

(** [value == "literal"]: only that string equals it. *)
Definition equals_str (value : pyval) (literal : string) : bool :=
  match value with
  | VStr s => String.eqb s literal
  | _ => false
  end.

(** [needle in hay] for two strings *)
Fixpoint substring_of (needle hay : string) : bool :=
  String.prefix needle hay
  || match hay with
     | EmptyString => false
     | String _ rest => substring_of needle rest
     end.

Section Python.

(** Python's [str(x)], used where a rule formats a value that is not a
    string, and the test [x is y or x == y] a list applies to its elements
    when an item is looked up in it. *)
Variable py_str : pyval -> string.
Variable py_eq : pyval -> pyval -> bool.

(** [f"{value}"] *)
Definition fstr (value : pyval) : string :=
  match value with
  | VStr s => s
  | VNone => "None"
  | VBool true => "True"
  | VBool false => "False"
  | _ => py_str value
  end.

(** [item in container] *)
Definition contains (tb : string) (container item : pyval) : res bool :=
  match container with
  | VStr hay =>
      match item with
      | VStr needle => Ok (substring_of needle hay)
      | _ =>
          Raise (TypeError
                   ("'in <string>' requires string as left operand, not "
                    ++ type_name item)%string tb)
      end
  | VList items => Ok (existsb (fun element => py_eq element item) items)
  | VDict entries =>
      match item with
      | VStr key => Ok (dict_contains entries key)
      | VList _ | VDict _ =>
          Raise (TypeError ("unhashable type: '" ++ type_name item ++ "'")%string
                   tb)
      | _ => Ok false
      end
  | _ =>
      Raise (TypeError
               ("argument of type '" ++ type_name container
                ++ "' is not iterable")%string tb)
  end.

End Python.

End Rules.

(** *** aws_root_login.py *)

Module RootLogin.
Import Helpers Engine Rules.

Section Python.
Variable py_str : pyval -> string.

(** the traceback text of an exception raised in the named function *)
Variable traceback : string -> string.

Definition LOG_TYPES : list string := ["AWS.CloudTrail"].
Definition ENABLED : bool := true.
Definition TAGS : list string := ["AWS"; "Initial Access"; "T1078"].

Definition rule (event : pyval) : res pyval :=
  res_bind (get (traceback "rule") event "eventName" VNone) (fun event_name =>
  if equals_str event_name "ConsoleLogin" then
    res_bind (deep_get event [KStr "userIdentity"; KStr "type"] VNone)
      (fun identity_type => Ok (VBool (equals_str identity_type "Root")))
  else Ok (VBool false)).

Definition title (event : pyval) : res pyval :=
  res_bind (get (traceback "title") event "sourceIPAddress" (VStr "unknown"))
    (fun source_ip =>
  Ok (VStr ("AWS Root Console Login from " ++ fstr py_str source_ip)%string)).

Definition severity (event : pyval) : res pyval :=
  res_bind (deep_get event [KStr "additionalEventData"; KStr "MFAUsed"] VNone)
    (fun mfa =>
  let mfa_used := equals_str mfa "Yes" in
  Ok (VStr (if negb mfa_used then "HIGH" else "MEDIUM"))).

Definition description (event : pyval) : res pyval :=
  Ok (VStr ("The AWS root account was used to log into the AWS Console. "
            ++ "Root account usage should be minimized and reserved for emergency access only. "
            ++ "Consider using IAM users with appropriate permissions instead.")%string).

Definition reference (event : pyval) : res pyval :=
  Ok (VStr "https://docs.aws.amazon.com/IAM/latest/UserGuide/id_root-user.html").

Definition runbook (event : pyval) : res pyval :=
  Ok (VStr (newline
            ++ "1. Verify if this login was authorized" ++ newline
            ++ "2. Check what actions were performed during the session" ++ newline
            ++ "3. If unauthorized, immediately rotate root credentials" ++ newline
            ++ "4. Enable MFA if not already enabled" ++ newline
            ++ "5. Review CloudTrail for any suspicious activity" ++ newline)%string).

Definition alert_context (event : pyval) : res pyval :=
  res_bind (get (traceback "alert_context") event "sourceIPAddress" VNone)
    (fun source_ip =>
  res_bind (get (traceback "alert_context") event "userAgent" VNone)
    (fun user_agent =>
  res_bind (get (traceback "alert_context") event "awsRegion" VNone)
    (fun aws_region =>
  res_bind (deep_get event [KStr "additionalEventData"; KStr "MFAUsed"] VNone)
    (fun mfa_used =>
  res_bind (get (traceback "alert_context") event "eventTime" VNone)
    (fun event_time =>
  res_bind (deep_get event [KStr "responseElements"; KStr "ConsoleLogin"] VNone)
    (fun console_login =>
  Ok (VDict [ ("source_ip", source_ip);
              ("user_agent", user_agent);
              ("aws_region", aws_region);
              ("mfa_used", mfa_used);
              ("event_time", event_time);
              ("console_login", console_login) ]))))))).

Definition dedup (event : pyval) : res pyval :=
  res_bind (get (traceback "dedup") event "sourceIPAddress" (VStr "unknown"))
    (fun source_ip =>
  Ok (VStr ("root_login_" ++ fstr py_str source_ip)%string)).

(** the namespace of the module once executed *)
Definition module : RuleModule :=
  mk_module (Some rule) (Some title) (Some severity) (Some description)
    (Some reference) (Some runbook) (Some alert_context) (Some dedup)
    (Some LOG_TYPES) (Some ENABLED) (Some TAGS).

(** the file, where it is found and executes *)
Definition file (directory : string) : RuleFile :=
  mk_file (directory ++ "/aws_root_login.py")%string "aws_root_login.py"
    "aws_root_login" true true (Ok module).

End Python.

End RootLogin.

(** *** aws_iam_access_key_created.py *)

Module IamKey.
Import Helpers Engine Rules.

Section Python.
Variable py_str : pyval -> string.
Variable py_eq : pyval -> pyval -> bool.

(** the traceback text of an exception raised in the named function *)
Variable traceback : string -> string.

Definition LOG_TYPES : list string := ["AWS.CloudTrail"].
Definition ENABLED : bool := true.
Definition TAGS : list string :=
  ["AWS"; "Persistence"; "Credential Access"; "T1098"].

Definition rule (event : pyval) : res pyval :=
  res_bind (get (traceback "rule") event "eventName" VNone) (fun event_name =>
  if equals_str event_name "CreateAccessKey" then
    res_bind (get (traceback "rule") event "errorCode" VNone) (fun error_code =>
    Ok (VBool (is_None error_code)))
  else Ok (VBool false)).

Definition title (event : pyval) : res pyval :=
  res_bind (deep_get event [KStr "userIdentity"; KStr "arn"] (VStr "unknown"))
    (fun actor =>
  res_bind (deep_get event [KStr "requestParameters"; KStr "userName"]
              (VStr "self"))
    (fun target_user =>
  Ok (VStr ("IAM Access Key Created for " ++ fstr py_str target_user
            ++ " by " ++ fstr py_str actor)%string))).

Definition severity (event : pyval) : res pyval :=
  res_bind (deep_get event [KStr "userIdentity"; KStr "arn"] (VStr EmptyString))
    (fun actor_arn =>
  res_bind (deep_get event [KStr "requestParameters"; KStr "userName"] VNone)
    (fun target_user =>
  if negb (truthy target_user) then Ok (VStr "MEDIUM")
  else
    res_bind (contains py_eq (traceback "severity") actor_arn target_user)
      (fun found =>
    if negb found then Ok (VStr "HIGH") else Ok (VStr "MEDIUM")))).

Definition description (event : pyval) : res pyval :=
  Ok (VStr ("An IAM access key was created. Access keys provide programmatic access "
            ++ "to AWS resources and should be carefully monitored. Verify this key creation "
            ++ "was authorized and follows your organization's security policies.")%string).

Definition alert_context (event : pyval) : res pyval :=
  res_bind (deep_get event [KStr "userIdentity"; KStr "arn"] VNone)
    (fun actor_arn =>
  res_bind (deep_get event [KStr "userIdentity"; KStr "type"] VNone)
    (fun actor_type =>
  res_bind (deep_get event [KStr "requestParameters"; KStr "userName"] VNone)
    (fun target_user =>
  res_bind (deep_get event [KStr "responseElements"; KStr "accessKey";
                            KStr "accessKeyId"] VNone)
    (fun access_key_id =>
  res_bind (get (traceback "alert_context") event "sourceIPAddress" VNone)
    (fun source_ip =>
  res_bind (get (traceback "alert_context") event "userAgent" VNone)
    (fun user_agent =>
  res_bind (get (traceback "alert_context") event "eventTime" VNone)
    (fun event_time =>
  Ok (VDict [ ("actor_arn", actor_arn);
              ("actor_type", actor_type);
              ("target_user", target_user);
              ("access_key_id", access_key_id);
              ("source_ip", source_ip);
              ("user_agent", user_agent);
              ("event_time", event_time) ])))))))).

Definition dedup (event : pyval) : res pyval :=
  res_bind (deep_get event [KStr "requestParameters"; KStr "userName"]
              (VStr "self"))
    (fun target =>
  Ok (VStr ("iam_key_created_" ++ fstr py_str target)%string)).

Definition module : RuleModule :=
  mk_module (Some rule) (Some title) (Some severity) (Some description)
    None None (Some alert_context) (Some dedup)
    (Some LOG_TYPES) (Some ENABLED) (Some TAGS).

Definition file (directory : string) : RuleFile :=
  mk_file (directory ++ "/aws_iam_access_key_created.py")%string
    "aws_iam_access_key_created.py" "aws_iam_access_key_created" true true
    (Ok module).

End Python.

End IamKey.

(** * Vocabulary of the properties *)

(** ** Field access *)

Module HelpersSpec.
Import Helpers.

(** Plain subscripting [node[key]], for stating what a path resolves to:
    the value under the key, if the node is a mapping holding it or a
    sequence with that index in range. *)
Definition subscript (node : pyval) (key : pykey) : option pyval :=
  match node, key with
  | VDict entries, KStr s => dict_find entries s
  | VList items, KInt i =>
      match list_getitem items i with
      | Ok v => Some v
      | Raise _ => None
      end
  | _, _ => None
  end.

(** The ways a key can fail on a node of the path. *)
Definition absent_key (node : pyval) (key : pykey) : Prop :=
  exists entries, node = VDict entries /\ dict_has entries key = false.

Definition not_a_container (node : pyval) : Prop :=
  is_dict node = false /\ is_list node = false.

Definition index_out_of_range (node : pyval) (key : pykey) : Prop :=
  exists items i,
    node = VList items /\ key = KInt i /\
    (i < - Z.of_nat (List.length items) \/ Z.of_nat (List.length items) <= i).

Definition resolves_to_None (node : pyval) (key : pykey) : Prop :=
  subscript node key = Some VNone.

(** The reading of C5 as it is worded: the default comes back exactly
    when the aggregate is empty. *)
Definition default_iff_empty (event : pyval) (keys : list pykey)
  (default : pyval) (return_val : string) : Prop :=
  deep_walk event keys default return_val = default <->
  _walk return_val event keys = [].

End HelpersSpec.

(** ** Schema validation *)

Module SchemasSpec.
Import Schemas.

(** What one required field and one declared field add to the errors. *)
Definition required_errors (event : list (string * pyval)) (field_name : string)
  : list string :=
  if dict_contains event field_name then [] else [missing_required field_name].

Definition field_errors (event : list (string * pyval))
  (item : string * SchemaField) : list string :=
  match dict_find event (fst item) with
  | Some value =>
      if _check_type value (type (snd item)) then []
      else [wrong_type (fst item) (type (snd item)) value]
  | None => []
  end.

(** The schema with every mention of a field taken out. *)
Definition without_field (field_name : string) (self : LogSchema) : LogSchema :=
  mk_schema (log_type self) (schema_description self)
    (filter (fun item => negb (String.eqb (fst item) field_name)) (fields self))
    (filter (fun f => negb (String.eqb f field_name)) (required_fields self))
    (timestamp_field self).

Definition cloudtrail_like : LogSchema :=
  mk_schema AWS_CLOUDTRAIL "AWS CloudTrail audit logs"
    [("eventName", mk_field "eventName" "string" true EmptyString None);
     ("awsRegion", mk_field "awsRegion" "string" false EmptyString None)]
    ["eventName"] "eventTime".

End SchemasSpec.

(** ** Rule execution and loading *)

Module EngineSpec.
Import Engine.

(** The optional extractors of a detection, in the order [run_detection]
    asks for them. *)
Definition extractors (d : Detection) : list (field * option pyfunc) :=
  [ (Title, title_func d);
    (Severity, severity_func d);
    (Description, description_func d);
    (Reference, reference_func d);
    (Runbook, runbook_func d);
    (AlertContext, alert_context_func d);
    (Dedup, dedup_func d) ].

Definition get_field (which : field) (r : DetectionResult.t) : pyval :=
  match which with
  | Title => DetectionResult.title r
  | Severity => DetectionResult.severity r
  | Description => DetectionResult.description r
  | Reference => DetectionResult.reference r
  | Runbook => DetectionResult.runbook r
  | AlertContext => DetectionResult.alert_context r
  | Dedup => DetectionResult.dedup_string r
  end.

Definition set_field (which : field) (v : pyval) (r : DetectionResult.t)
  : DetectionResult.t :=
  match which with
  | Title => DetectionResult.set_title v r
  | Severity => DetectionResult.set_severity v r
  | Description => DetectionResult.set_description v r
  | Reference => DetectionResult.set_reference v r
  | Runbook => DetectionResult.set_runbook v r
  | AlertContext => DetectionResult.set_alert_context v r
  | Dedup => DetectionResult.set_dedup_string v r
  end.

(** The key of a field in [to_dict]. *)
Definition field_key (which : field) : string :=
  match which with
  | Title => "title"
  | Severity => "severity"
  | Description => "description"
  | Reference => "reference"
  | Runbook => "runbook"
  | AlertContext => "alert_context"
  | Dedup => "dedup_string"
  end.

(** What a field holds when nothing was extracted for it. *)
Definition default_value (which : field) : pyval :=
  match which with
  | Severity => VStr "MEDIUM"
  | _ => VNone
  end.

Definition all_fields : list field :=
  [Title; Severity; Description; Reference; Runbook; AlertContext; Dedup].

Definition field_eqb (a b : field) : bool :=
  match a, b with
  | Title, Title | Severity, Severity | Description, Description
  | Reference, Reference | Runbook, Runbook | AlertContext, AlertContext
  | Dedup, Dedup => true
  | _, _ => false
  end.

Fixpoint value_of (which : field) (values : list (field * pyval)) : option pyval :=
  match values with
  | [] => None
  | (w, v) :: rest => if field_eqb w which then Some v else value_of which rest
  end.

(** Asking the extractors one after the other and stopping at the first
    fault: the values obtained, the extractors that were called, and the
    fault that stopped the sequence, if one did. *)
Record extraction : Type := mk_extraction {
  computed : list (field * pyval);
  invoked : list field;
  fault : option pyexn
}.

Fixpoint extract_until_fault (event : pyval) (xs : list (field * option pyfunc))
  : extraction :=
  match xs with
  | [] => mk_extraction [] [] None
  | (_, None) :: rest => extract_until_fault event rest
  | (which, Some f) :: rest =>
      match f event with
      | Ok v =>
          let o := extract_until_fault event rest in
          mk_extraction ((which, v) :: computed o) (which :: invoked o) (fault o)
      | Raise e => mk_extraction [] [which] (Some e)
      end
  end.

(** The first fault an evaluation meets: the one of the rule, or after a
    truthy result the one of the first extractor that raises. *)
Definition first_fault (d : Detection) (event : pyval) : option pyexn :=
  match rule_func d event with
  | Raise e => Some e
  | Ok m =>
      if truthy m then fault (extract_until_fault event (extractors d))
      else None
  end.

(** The fault the evaluation meets, if it meets one, is an instance of
    [Exception], so the handler of [run_detection] catches it. *)
Definition faults_caught (d : Detection) (event : pyval) : Prop :=
  forall e, first_fault d event = Some e -> is_Exception e = true.

(** The extractors an evaluation calls after the rule. *)
Definition extractors_called (d : Detection) (event : pyval) : list field :=
  match rule_func d event with
  | Raise _ => []
  | Ok m =>
      if truthy m then invoked (extract_until_fault event (extractors d))
      else []
  end.

(** The value a field ends with: the one extracted for it, its default
    otherwise. *)
Definition final_value (which : field) (o : extraction) : pyval :=
  match value_of which (computed o) with
  | Some v => v
  | None => default_value which
  end.

(** The one step of [run_detection_try] for an extractor, and their
    sequence. *)
Definition extract (detection : Detection) (event : pyval)
  (x : field * option pyfunc) : Exec Frame unit :=
  match snd x with
  | Some f =>
      v <- invoke detection (Extractor (fst x)) f event ;;
      assign (set_field (fst x) v)
  | None =>
      match fst x with
      | Severity =>
          assign (DetectionResult.set_severity
                    (VStr (default_severity detection)))
      | _ => ret tt
      end
  end.

Fixpoint extract_seq (detection : Detection) (event : pyval)
  (xs : list (field * option pyfunc)) : Exec Frame unit :=
  match xs with
  | [] => ret tt
  | x :: rest => extract detection event x ;;; extract_seq detection event rest
  end.

(** The state after more calls were logged. *)
Definition logged (s : State) (cs : list call) : State :=
  mk_state (detections s) (stdout s) (clock s) (calls s ++ cs).

(** How a sequence that met the fault [o] ends. *)
Definition raised (o : option pyexn) : res unit :=
  match o with
  | None => Ok tt
  | Some e => Raise e
  end.

(** Everything of a verdict that no extractor writes. *)
Definition same_header (r r' : DetectionResult.t) : Prop :=
  DetectionResult.rule_id r' = DetectionResult.rule_id r /\
  DetectionResult.rule_file r' = DetectionResult.rule_file r /\
  DetectionResult.matched r' = DetectionResult.matched r /\
  DetectionResult.event r' = DetectionResult.event r /\
  DetectionResult.error r' = DetectionResult.error r /\
  DetectionResult.execution_time_ms r' = DetectionResult.execution_time_ms r.

(** The calls a list of callables of one detection leaves in the log. *)
Definition calls_of (d : Detection) (event : pyval) (cs : list callable)
  : list call :=
  map (fun c => mk_call (rule_id d) c event) cs.

(** C2 as worded: every optional field is rendered as null, or left out. *)
Definition renders_null (r : DetectionResult.t) : Prop :=
  forall which,
    dict_find (DetectionResult.to_dict r) (field_key which) = Some VNone \/
    dict_find (DetectionResult.to_dict r) (field_key which) = None.


(** The inner loop of [run] keeps an item when no non-empty filter leaves
    it out and the detection is enabled. *)
Definition selected (rule_ids : option (list string))
  (item : string * Detection) : bool :=
  (negb (rule_ids_truthy rule_ids) || rule_id_in (fst item) rule_ids)
  && enabled (snd item).


(** Event-major, then registry order. *)
Definition evaluated_pairs (keep : string * Detection -> bool)
  (registry : list (string * Detection)) (events : list pyval)
  : list (pyval * Detection) :=
  flat_map (fun event => map (fun item => (event, snd item))
                             (filter keep registry)) events.

(** One computation per element, results in element order. *)
Fixpoint map_exec {S A B : Type} (f : A -> Exec S B) (l : list A)
  : Exec S (list B) :=
  match l with
  | [] => ret []
  | x :: rest => y <- f x ;; ys <- map_exec f rest ;; ret (y :: ys)
  end.

(** [run_detection] on a pair of an event and a detection. *)
Definition evaluate (now : nat -> Z) (elapsed_ms : Z -> Z -> Z)
  (p : pyval * Detection) : Exec State DetectionResult.t :=
  run_detection now elapsed_ms (snd p) (fst p).

(** Every fault met while evaluating the pairs is one the handler of
    [run_detection] catches. *)
Definition all_faults_caught (pairs : list (pyval * Detection)) : Prop :=
  Forall (fun p => faults_caught (snd p) (fst p)) pairs.

(** The pair a verdict is about. *)
Definition verdict_pair (r : DetectionResult.t) : pyval * string :=
  (DetectionResult.event r, DetectionResult.rule_id r).


Definition empty_state : State := mk_state [] [] 0 [].

(** What [load_rule] returns or raises on a source; the state it runs in
    has no part in that. *)
Definition load_outcome (f : RuleFile) : res Detection :=
  fst (load_rule f empty_state).



Definition register_all (registry : list (string * Detection))
  (units : list Detection) : list (string * Detection) :=
  fold_left (fun reg d => dict_set reg (rule_id d) d) units registry.


(** The state after [load_rule] stored a detection. *)
Definition registered (d : Detection) (s : State) : State :=
  set_detections (dict_set (detections s) (rule_id d) d) s.


(** The verdict of a finished evaluation. *)
Definition verdict_of (outcome : res DetectionResult.t * State)
  : DetectionResult.t :=
  match fst outcome with
  | Ok r => r
  | Raise _ => DetectionResult.init EmptyString EmptyString false VNone
  end.



(** The detections with an extractor, in the engine's order. *)
Definition populated (d : Detection) : list field :=
  map fst (filter (fun x => match snd x with Some _ => true | None => false end)
                  (extractors d)).

(** *** Sample data *)

Definition tick (n : nat) : Z := Z.of_nat n.
Definition ms_between (t0 t1 : Z) : Z := t1 - t0.

Definition console_login : pyval :=
  VDict [("eventName", VStr "ConsoleLogin");
         ("userIdentity", VDict [("type", VStr "Root")])].

Definition returns (v : pyval) : pyfunc := fun _ => Ok v.

Definition bare (rule_id : string) (rule : pyfunc) : Detection :=
  mk_detection rule_id (rule_id ++ ".py")%string rule
    None None None None None None None [] true [].

(** a rule that matches nothing, with a title and a severity *)
Definition quiet_unit : Detection :=
  mk_detection "quiet" "quiet.py" (returns (VBool false))
    (Some (returns (VStr "never"))) (Some (returns (VStr "HIGH")))
    None None None None None [] true [].



Definition two_units : State :=
  mk_state [("a", bare "a" (returns (VBool true)));
            ("b", bare "b" (returns (VBool false)))] [] 0 [].

Definition plain_module (rule : option pyfunc) : RuleModule :=
  mk_module rule None None None None None None None None None None.

Definition good_file : RuleFile :=
  mk_file "rules/good.py" "good.py" "good" true true
    (Ok (plain_module (Some (returns (VBool true))))).

Definition no_rule_file : RuleFile :=
  mk_file "rules/bad.py" "bad.py" "bad" true true (Ok (plain_module None)).

Definition sample_dir : RulesDir :=
  mk_dir "rules" true [good_file; no_rule_file].






End EngineSpec.

(** ** More on rule execution and loading *)

Module EngineMore.
Import Engine EngineSpec.

(** Did the rule return something truthy? *)
Definition rule_matches (d : Detection) (event : pyval) : bool :=
  match rule_func d event with
  | Ok m => truthy m
  | Raise _ => false
  end.

(** Every populated extractor returns on the event. *)
Definition extractors_succeed (d : Detection) (event : pyval) : Prop :=
  forall w f, In (w, Some f) (extractors d) -> exists v, f event = Ok v.

(** The registry as [load_rule] builds it: one entry per identifier, each
    detection under its own [rule_id]. *)
Definition registry_ok (registry : list (string * Detection)) : Prop :=
  NoDup (dict_keys registry) /\
  forall k d, In (k, d) registry -> rule_id d = k.


Definition same_stem_reload : RuleFile :=
  mk_file "other/good.py" "good.py" "good" true true
    (Ok (mk_module (Some (returns (VBool false))) (Some (returns (VStr "t")))
           None None None None None None None (Some false) None)).

Definition missing_file : RuleFile :=
  mk_file "rules/gone.py" "gone.py" "gone" false true (Ok (plain_module None)).


(** a detection with every extractor, none of which faults *)
Definition full_unit : Detection :=
  mk_detection "full" "full.py" (returns (VInt 1))
    (Some (returns (VStr "t"))) (Some (returns (VStr "LOW")))
    (Some (returns (VStr "d"))) (Some (returns (VStr "ref")))
    (Some (returns (VStr "rb"))) (Some (returns (VDict [("k", VInt 1)])))
    (Some (returns (VStr "key"))) ["AWS.CloudTrail"] true [].

End EngineMore.

(** ** More on schema validation *)

Module SchemasMore.
Import Schemas SchemaRegistry.

Definition all_required_present (self : LogSchema)
  (event : list (string * pyval)) : Prop :=
  forall f, In f (required_fields self) -> dict_contains event f = true.

Definition all_types_right (self : LogSchema)
  (event : list (string * pyval)) : Prop :=
  forall field_name def value,
    In (field_name, def) (fields self) ->
    dict_find event field_name = Some value ->
    _check_type value (type def) = true.

(** What [validate] reads of a schema: the required names, and the name
    and type word of each declared field. *)
Definition checks (self : LogSchema) : list string * list (string * string) :=
  (required_fields self,
   map (fun item => (fst item, type (snd item))) (fields self)).

(** The names a schema mentions. *)
Definition mentioned (self : LogSchema) (k : string) : Prop :=
  In k (required_fields self) \/ In k (dict_keys (fields self)).

(** An entry of the table is well-formed when it is filed under the log
    type of its schema, every field is filed under its own name, and every
    required name is a declared field marked required. *)
Definition entry_ok (entry : schema_key * LogSchema) : Prop :=
  fst entry = ByType (log_type (snd entry)) /\
  (forall field_name def,
      In (field_name, def) (fields (snd entry)) -> name def = field_name) /\
  (forall f, In f (required_fields (snd entry)) ->
             exists def, dict_find (fields (snd entry)) f = Some def /\
                         required def = true).

Definition flagged_schema : LogSchema :=
  mk_schema SYSMON "Windows Sysmon events"
    [("EventID", mk_field "renamed" "int" false "the event id" None)]
    ["EventID"] "UtcTime".

Definition plain_schema : LogSchema :=
  mk_schema CUSTOM_JSON EmptyString
    [("EventID", mk_field "EventID" "int" true EmptyString None)]
    ["EventID"] "timestamp".

End SchemasMore.

(** ** More on field access and the other helpers *)

Module HelpersMoreSpec.
Import Helpers HelpersMore.

(** No node that a key of the path is applied to is a sequence. *)
Definition no_list_on_path (event : pyval) (keys : list pykey) : Prop :=
  forall pre key rest node,
    keys = pre ++ key :: rest ->
    deep_get_for event pre VNone = Ok (Next node) ->
    is_list node = false.

(** What [deep_get] found, as the list [deep_walk] would give. *)
Definition found (r : res pyval) : list pyval :=
  match r with
  | Ok v => if is_None v then [] else [v]
  | Raise _ => []
  end.

Definition is_str (v : pyval) : bool :=
  match v with VStr _ => true | _ => false end.

(** The separator does not occur in the string. *)
Fixpoint free_of (sep : ascii) (s : string) : bool :=
  match s with
  | EmptyString => true
  | String c rest => negb (Ascii.eqb c sep) && free_of sep rest
  end.

(** How often the separator occurs. *)
Fixpoint occurrences (sep : ascii) (s : string) : nat :=
  match s with
  | EmptyString => 0
  | String c rest =>
      (if Ascii.eqb c sep then 1 else 0) + occurrences sep rest
  end.

(** [sep.join(parts)] *)
Fixpoint join (sep : ascii) (parts : list string) : string :=
  match parts with
  | [] => EmptyString
  | [p] => p
  | p :: rest => (p ++ String sep (join sep rest))%string
  end.

(** The ARN with these components. *)
Definition arn_of (partition service region account resource : string) : string :=
  join colon ["arn"; partition; service; region; account; resource].

Definition arn_fields (partition service region account resource : string)
  : pyval :=
  VDict [ ("partition", VStr partition);
          ("service", VStr service);
          ("region", VStr region);
          ("account", VStr account);
          ("resource", VStr resource) ].

End HelpersMoreSpec.

Module RulesSpec.
Import Helpers Engine EngineSpec Rules.

(** [event[outer][inner]] exists, through a mapping, and is [v]. *)
Definition nested (entries : list (string * pyval)) (outer inner : string)
  (v : pyval) : Prop :=
  exists inner_entries,
    dict_find entries outer = Some (VDict inner_entries) /\
    dict_find inner_entries inner = Some v.

(** The key is absent from the event, or holds [None]. *)
Definition unset (entries : list (string * pyval)) (key : string) : Prop :=
  dict_find entries key = None \/ dict_find entries key = Some VNone.

(** The value under the key, or the fallback when the key is absent. *)
Definition entry_or (entries : list (string * pyval)) (key : string)
  (fallback : pyval) : pyval :=
  match dict_find entries key with
  | Some v => v
  | None => fallback
  end.

(** A console login of the root identity. *)
Definition root_console_login (entries : list (string * pyval)) : Prop :=
  dict_find entries "eventName" = Some (VStr "ConsoleLogin") /\
  nested entries "userIdentity" "type" (VStr "Root").

(** An access key was created and the call reports no error. *)
Definition key_created (entries : list (string * pyval)) : Prop :=
  dict_find entries "eventName" = Some (VStr "CreateAccessKey") /\
  unset entries "errorCode".

(** The detections the loader makes of the two modules. *)
Definition root_login_unit (py_str : pyval -> string)
  (traceback : string -> string) (directory : string) : Detection :=
  make_detection (RootLogin.file py_str traceback directory)
    (RootLogin.module py_str traceback) (RootLogin.rule traceback).

Definition iam_key_unit (py_str : pyval -> string)
  (py_eq : pyval -> pyval -> bool) (traceback : string -> string)
  (directory : string) : Detection :=
  make_detection (IamKey.file py_str py_eq traceback directory)
    (IamKey.module py_str py_eq traceback) (IamKey.rule traceback).

(** *** Sample data *)

Definition no_str (v : pyval) : string := "?".
Definition no_eq (a b : pyval) : bool := false.
Definition no_traceback (function : string) : string := EmptyString.

Definition root_login_event : list (string * pyval) :=
  [ ("eventName", VStr "ConsoleLogin");
    ("userIdentity", VDict [("type", VStr "Root")]);
    ("sourceIPAddress", VStr "203.0.113.50");
    ("additionalEventData", VDict [("MFAUsed", VStr "Yes")]) ].

Definition key_for_other_user : list (string * pyval) :=
  [ ("eventName", VStr "CreateAccessKey");
    ("userIdentity", VDict [("arn", VStr "arn:aws:iam::123456789012:user/admin")]);
    ("requestParameters", VDict [("userName", VStr "service-account")]) ].

Definition key_for_numbered_user : list (string * pyval) :=
  [ ("eventName", VStr "CreateAccessKey");
    ("userIdentity", VDict [("arn", VStr "arn:aws:iam::123456789012:user/admin")]);
    ("requestParameters", VDict [("userName", VInt 7)]) ].

End RulesSpec.


Ltac break_if :=
  match goal with
  | |- context [if ?b then _ else _] => destruct b eqn:?
  end.

(** * Properties *)

(** ** Field access: [deep_get] *)

Module HelpersFacts.
Import Helpers HelpersSpec.

Lemma list_getitem_raise (items : list pyval) (i : Z) (e : pyexn) :
  list_getitem items i = Raise e -> e = IndexError.
Proof.
  unfold list_getitem.
  destruct ((0 <=? i) && (i <? Z.of_nat (List.length items))); [discriminate|].
  destruct ((- Z.of_nat (List.length items) <=? i) && (i <? 0)); [discriminate|].
  congruence.
Qed.

Lemma list_getitem_out_of_range (items : list pyval) (i : Z) :
  i < - Z.of_nat (List.length items) \/ Z.of_nat (List.length items) <= i ->
  list_getitem items i = Raise IndexError.
Proof.
  intros H. unfold list_getitem.
  assert (Hlen : 0 <= Z.of_nat (List.length items)) by lia.
  destruct (0 <=? i) eqn:E1, (i <? Z.of_nat (List.length items)) eqn:E2;
    destruct (- Z.of_nat (List.length items) <=? i) eqn:E3, (i <? 0) eqn:E4;
    simpl; try reflexivity; exfalso; lia.
Qed.

(** One pass of the loop body never raises. *)
Lemma deep_get_body_ok (result : pyval) (key : pykey) (default : pyval) :
  exists fl, deep_get_body result key default = Ok fl.
Proof.
  unfold deep_get_body.
  destruct result as [| b | n | f | s | items | entries]; simpl; eauto.
  - destruct key as [s | i]; simpl; eauto.
    destruct (list_getitem items i) as [v | e] eqn:E.
    + destruct (is_None v); eauto.
    + apply list_getitem_raise in E. subst e. simpl. eauto.
  - destruct (is_None (dict_get entries key)); eauto.
Qed.

(** An early exit of the body hands back the default. *)
Lemma deep_get_body_return (result : pyval) (key : pykey) (default v : pyval) :
  deep_get_body result key default = Ok (Return v) -> v = default.
Proof.
  unfold deep_get_body.
  destruct result as [| b | n | f | s | items | entries]; simpl;
    try congruence.
  - destruct key as [s | i]; simpl; try congruence.
    destruct (list_getitem items i) as [w | e] eqn:E.
    + destruct (is_None w); congruence.
    + break_if; congruence.
  - destruct (is_None (dict_get entries key)); congruence.
Qed.

(** The body falls through only with a value that is not [None]. *)
Lemma deep_get_body_next (result : pyval) (key : pykey) (default r : pyval) :
  deep_get_body result key default = Ok (Next r) -> is_None r = false.
Proof.
  unfold deep_get_body.
  destruct result as [| b | n | f | s | items | entries]; simpl;
    try congruence.
  - destruct key as [s | i]; simpl; try congruence.
    destruct (list_getitem items i) as [w | e] eqn:E.
    + destruct (is_None w) eqn:N; congruence.
    + break_if; congruence.
  - destruct (is_None (dict_get entries key)) eqn:N; congruence.
Qed.

(** Falling through does not depend on the default. *)
Lemma deep_get_body_next_default (result : pyval) (key : pykey)
  (d d' r : pyval) :
  deep_get_body result key d = Ok (Next r) ->
  deep_get_body result key d' = Ok (Next r).
Proof.
  unfold deep_get_body.
  destruct result as [| b | n | f | s | items | entries]; simpl;
    try congruence.
  - destruct key as [s | i]; simpl; try congruence.
    destruct (list_getitem items i) as [w | e] eqn:E.
    + destruct (is_None w) eqn:N; congruence.
    + break_if; congruence.
  - destruct (is_None (dict_get entries key)) eqn:N; congruence.
Qed.

Lemma deep_get_for_ok (keys : list pykey) :
  forall result default, exists fl, deep_get_for result keys default = Ok fl.
Proof.
  induction keys as [| key rest IH]; intros result default; simpl; eauto.
  destruct (deep_get_body_ok result key default) as [[r | v] E]; rewrite E; eauto.
Qed.

Lemma deep_get_for_return (keys : list pykey) :
  forall result default v,
    deep_get_for result keys default = Ok (Return v) -> v = default.
Proof.
  induction keys as [| key rest IH]; intros result default v; simpl.
  - congruence.
  - destruct (deep_get_body result key default) as [[r | w] | e] eqn:E.
    + apply IH.
    + intros H. injection H as <-. eapply deep_get_body_return; eauto.
    + discriminate.
Qed.

Lemma deep_get_for_next (keys : list pykey) :
  forall result default r,
    deep_get_for result keys default = Ok (Next r) ->
    keys = [] \/ is_None r = false.
Proof.
  induction keys as [| key rest IH]; intros result default r; simpl.
  - auto.
  - destruct (deep_get_body result key default) as [[r' | w] | e] eqn:E;
      try discriminate.
    intros H. right. destruct (IH _ _ _ H) as [-> | Hr]; auto.
    simpl in H. injection H as <-. eapply deep_get_body_next; eauto.
Qed.

Lemma deep_get_for_next_default (keys : list pykey) :
  forall result d d' r,
    deep_get_for result keys d = Ok (Next r) ->
    deep_get_for result keys d' = Ok (Next r).
Proof.
  induction keys as [| key rest IH]; intros result d d' r; simpl; auto.
  destruct (deep_get_body result key d) as [[r' | w] | e] eqn:E;
    try discriminate.
  intros H. rewrite (deep_get_body_next_default result key d d' r' E). eauto.
Qed.

(** The loop over a concatenated path is the loop over the first part
    followed, unless it left early, by the loop over the second. *)
Lemma deep_get_for_app (pre suf : list pykey) :
  forall result default,
    deep_get_for result (pre ++ suf) default =
    match deep_get_for result pre default with
    | Ok (Next r) => deep_get_for r suf default
    | other => other
    end.
Proof.
  induction pre as [| key rest IH]; intros result default; simpl; auto.
  destruct (deep_get_body result key default) as [[r | w] | e]; auto.
Qed.

(** A key that fails on a node makes the body leave with the default. *)
Lemma deep_get_body_soft (node : pyval) (key : pykey) (default : pyval) :
  absent_key node key \/ not_a_container node \/
  index_out_of_range node key \/ resolves_to_None node key ->
  deep_get_body node key default = Ok (Return default).
Proof.
  unfold deep_get_body.
  intros [(entries & -> & H) | [[Hd Hl] | [(items & i & -> & -> & H) | H]]].
  - assert (dict_get entries key = VNone) as ->; [| reflexivity].
    destruct key as [s | i]; simpl in *; auto.
    unfold dict_contains in H. destruct (dict_find entries s); [discriminate | auto].
  - destruct node; simpl in *; try discriminate; reflexivity.
  - rewrite (list_getitem_out_of_range _ _ H). reflexivity.
  - unfold resolves_to_None, subscript in H.
    destruct node as [| b | n | f | s | items | entries]; try discriminate.
    + destruct key as [s | i]; try discriminate.
      destruct (list_getitem items i) as [v | e]; try discriminate.
      injection H as ->. reflexivity.
    + destruct key as [s | i]; try discriminate. simpl. rewrite H. reflexivity.
Qed.

Lemma deep_get_None (keys : list pykey) (default : pyval) :
  deep_get VNone keys default = Ok default.
Proof. destruct keys; reflexivity. Qed.

(** C6. [deep_get] never raises: for every event, path and default it
    returns a value.  It returns the default whenever a key of the path
    meets a node that lacks it, that is neither a mapping nor a sequence,
    or that is a sequence for which the index is out of range, and
    whenever the value a key resolves to is [None]; on the event [None]
    itself it returns the default as well. *)
Theorem deep_get_never_raises_soft_default
  (event : pyval) (keys : list pykey) (default : pyval) :
  (exists v, deep_get event keys default = Ok v) /\
  (forall pre key rest node,
      keys = pre ++ key :: rest ->
      deep_get_for event pre default = Ok (Next node) ->
      absent_key node key \/ not_a_container node \/
      index_out_of_range node key \/ resolves_to_None node key ->
      deep_get event keys default = Ok default) /\
  (event = VNone -> deep_get event keys default = Ok default).
Proof.
  split; [| split].
  - unfold deep_get.
    destruct (deep_get_for_ok keys event default) as [[r | v] E]; rewrite E; eauto.
  - intros pre key rest node -> Hpre Hfail.
    unfold deep_get. rewrite deep_get_for_app, Hpre. simpl.
    rewrite (deep_get_body_soft node key default Hfail). reflexivity.
  - intros ->. apply deep_get_None.
Qed.

Lemma deep_get_never_raises_soft_default_witness :
  deep_get (VDict [("a", VList [VInt 1])]) [KStr "a"; KInt 5; KStr "b"] (VStr "d")
  = Ok (VStr "d").
Proof.
  refine (proj1 (proj2 (deep_get_never_raises_soft_default
                          (VDict [("a", VList [VInt 1])])
                          [KStr "a"; KInt 5; KStr "b"] (VStr "d")))
            [KStr "a"] (KInt 5) [KStr "b"] (VList [VInt 1]) _ _ _).
  - reflexivity.
  - reflexivity.
  - right. right. left. exists [VInt 1], 5. simpl. repeat split; lia.
Defined.

(** On a valid path, reading the prefix and then the suffix is reading
    the whole path, whatever the default. *)
Lemma compose_on_valid_path
  (event : pyval) (pre suf : list pykey) (default : pyval) :
  valid_path event (pre ++ suf) ->
  res_bind (deep_get event pre default) (fun v => deep_get v suf default)
  = deep_get event (pre ++ suf) default.
Proof.
  intros [r2 Hvalid].
  apply (deep_get_for_next_default _ _ VNone default) in Hvalid.
  rewrite deep_get_for_app in Hvalid.
  destruct (deep_get_for event pre default) as [[r1 | w] | e] eqn:Hpre;
    try discriminate.
  unfold deep_get at 1 3. rewrite deep_get_for_app, Hpre. simpl.
  destruct (is_None r1) eqn:Hnone; [| reflexivity].
  destruct (deep_get_for_next _ _ _ _ Hpre) as [-> | Hr]; [| congruence].
  simpl in Hpre. injection Hpre as ->.
  destruct r1; try discriminate.
  destruct suf as [| key rest]; [| discriminate].
  unfold deep_get. simpl. destruct (is_None default); reflexivity.
Qed.

(** With the default left at [None] the same equation holds for every
    path, valid or not. *)
Lemma compose_with_default_None (event : pyval) (pre suf : list pykey) :
  res_bind (deep_get event pre VNone) (fun v => deep_get v suf VNone)
  = deep_get event (pre ++ suf) VNone.
Proof.
  unfold deep_get at 1 3. rewrite deep_get_for_app.
  destruct (deep_get_for event pre VNone) as [[r1 | w] | e] eqn:Hpre; simpl.
  - destruct r1; reflexivity.
  - apply deep_get_for_return in Hpre. subst w. apply deep_get_None.
  - reflexivity.
Qed.

(** C7. Traversal composes over a split of a path: on a valid path,
    reading the prefix and then, from what it gave, the suffix is reading
    the whole path, for every default; with the default left at [None], as
    in a call that passes none, this holds for every path. *)
Theorem deep_get_compose (event : pyval) (pre suf : list pykey) :
  (forall default,
      valid_path event (pre ++ suf) ->
      res_bind (deep_get event pre default) (fun v => deep_get v suf default)
      = deep_get event (pre ++ suf) default) /\
  res_bind (deep_get event pre VNone) (fun v => deep_get v suf VNone)
  = deep_get event (pre ++ suf) VNone.
Proof.
  split.
  - intros default. apply compose_on_valid_path.
  - apply compose_with_default_None.
Qed.

Lemma deep_get_compose_witness :
  res_bind (deep_get (VDict [("a", VDict [("b", VInt 7)])]) [KStr "a"] (VStr "d"))
           (fun v => deep_get v [KStr "b"] (VStr "d"))
  = deep_get (VDict [("a", VDict [("b", VInt 7)])]) ([KStr "a"] ++ [KStr "b"])
             (VStr "d").
Proof.
  apply (proj1 (deep_get_compose (VDict [("a", VDict [("b", VInt 7)])])
                  [KStr "a"] [KStr "b"])).
  exists (VInt 7). reflexivity.
Defined.

(** ** Field access: [deep_walk] *)

(** The inner loops of [_walk], written with the list library. *)
Lemma _walk_list (return_val : string) (items : list pyval)
  (key : pykey) (rest : list pykey) :
  _walk return_val (VList items) (key :: rest)
  = flat_map (fun item => _walk return_val item (key :: rest)) items.
Proof.
  simpl. induction items as [| item items IH]; simpl; [reflexivity |].
  now rewrite IH.
Qed.

Lemma _walk_dict (return_val : string) (entries : list (string * pyval))
  (s : string) (rest : list pykey) :
  _walk return_val (VDict entries) (KStr s :: rest)
  = match dict_find entries s with
    | Some v => _walk return_val v rest
    | None => []
    end.
Proof.
  simpl. induction entries as [| [k v] entries IH]; simpl; [reflexivity |].
  destruct (String.eqb k s); auto.
Qed.

(** C5, as worded, fails when the caller's default is [None]: on
    [{"records": []}] the aggregate is empty and [deep_walk] hands back
    the empty list, not the default. *)
Lemma deep_walk_default_None_counterexample :
  _walk "value" (VDict [("records", VList [])]) [KStr "records"; KStr "id"] = []
  /\ deep_walk (VDict [("records", VList [])]) [KStr "records"; KStr "id"]
       VNone "value" = VList []
  /\ ~ default_iff_empty (VDict [("records", VList [])])
         [KStr "records"; KStr "id"] VNone "value".
Proof.
  split; [reflexivity | split; [reflexivity |]].
  unfold default_iff_empty. intros [_ H].
  specialize (H eq_refl). discriminate H.
Qed.

(** C5 (amended). A sequence met with keys still to apply fans out: the
    remaining path is applied to every item and the results are
    concatenated in item order.  [deep_walk] returns the aggregate when it
    is not empty; when it is empty it returns the caller's default if that
    is not [None] and the empty list otherwise.  On
    [{"records": [{"id": 1}, {"id": 2}]}] it gives [[1, 2]]; on
    [{"records": []}] it gives the default, or [[]] for a [None]
    default. *)
Theorem deep_walk_fan_out_and_default
  (event : pyval) (keys : list pykey) (default : pyval) (return_val : string) :
  (forall items key rest,
      _walk return_val (VList items) (key :: rest)
      = flat_map (fun item => _walk return_val item (key :: rest)) items) /\
  (_walk return_val event keys <> [] ->
   deep_walk event keys default return_val
   = VList (_walk return_val event keys)) /\
  (_walk return_val event keys = [] ->
   deep_walk event keys default return_val
   = if is_None default then VList [] else default) /\
  deep_walk (VDict [("records", VList [VDict [("id", VInt 1)];
                                        VDict [("id", VInt 2)]])])
    [KStr "records"; KStr "id"] default "value" = VList [VInt 1; VInt 2] /\
  deep_walk (VDict [("records", VList [])])
    [KStr "records"; KStr "id"] default "value"
  = if is_None default then VList [] else default.
Proof.
  split; [| split; [| split; [| split]]].
  - intros. apply _walk_list.
  - unfold deep_walk. destruct (_walk return_val event keys); congruence.
  - unfold deep_walk. intros ->. reflexivity.
  - reflexivity.
  - reflexivity.
Qed.

Lemma deep_walk_fan_out_and_default_witness :
  deep_walk (VDict [("a", VList [VDict [("b", VNone)]; VInt 3])])
    [KStr "a"; KStr "b"] (VStr "none") "value" = VStr "none".
Proof.
  refine (proj1 (proj2 (proj2 (deep_walk_fan_out_and_default
            (VDict [("a", VList [VDict [("b", VNone)]; VInt 3])])
            [KStr "a"; KStr "b"] (VStr "none") "value"))) _).
  reflexivity.
Defined.

End HelpersFacts.

(** ** Schema validation *)

Module SchemasFacts.
Import Schemas SchemasSpec.

Lemma fold_check_required (event : list (string * pyval)) (l : list string) :
  forall errors,
    fold_left (check_required event) l errors
    = errors ++ flat_map (required_errors event) l.
Proof.
  induction l as [| f l IH]; intros errors; simpl.
  - now rewrite app_nil_r.
  - rewrite IH. unfold check_required, required_errors.
    destruct (dict_contains event f); simpl; [reflexivity |].
    now rewrite <- app_assoc.
Qed.

Lemma fold_check_field (event : list (string * pyval))
  (l : list (string * SchemaField)) :
  forall errors,
    fold_left (check_field event) l errors
    = errors ++ flat_map (field_errors event) l.
Proof.
  induction l as [| [f def] l IH]; intros errors; simpl.
  - now rewrite app_nil_r.
  - rewrite IH. unfold field_errors. simpl.
    destruct (dict_find event f) as [value |]; [| reflexivity].
    destruct (_check_type value (type def)); simpl; [reflexivity |].
    now rewrite <- app_assoc.
Qed.

(** [validate] lists the missing required fields, then the fields of a
    wrong type. *)
Lemma validate_errors (self : LogSchema) (event : list (string * pyval)) :
  validate self event
  = flat_map (required_errors event) (required_fields self)
    ++ flat_map (field_errors event) (fields self).
Proof.
  unfold validate. now rewrite fold_check_field, fold_check_required.
Qed.

Lemma flat_map_filter_silent {A B : Type} (g : A -> list B) (p : A -> bool)
  (l : list A) :
  (forall x, p x = false -> g x = []) ->
  flat_map g (filter p l) = flat_map g l.
Proof.
  intros H. induction l as [| x l IH]; simpl; [reflexivity |].
  destruct (p x) eqn:E; simpl.
  - now rewrite IH.
  - now rewrite (H x E).
Qed.

Lemma missing_required_inj (f g : string) :
  missing_required f = missing_required g -> f = g.
Proof. unfold missing_required. simpl. congruence. Qed.

Lemma wrong_type_not_missing (f t : string) (v : pyval) (g : string) :
  wrong_type f t v <> missing_required g.
Proof. unfold wrong_type, missing_required. simpl. congruence. Qed.

(** C10. A [None] value passes the check of every declared type.  A
    required field is reported missing exactly when its key is not in the
    event.  So a field that is present with the value [None] adds nothing
    to the errors: validation gives what it gives for the schema without
    that field, and in particular no "missing" report for it. *)
Theorem validate_None_value
  (self : LogSchema) (event : list (string * pyval)) (field_name : string) :
  (forall expected_type, _check_type VNone expected_type = true) /\
  (In (missing_required field_name) (validate self event) <->
   In field_name (required_fields self) /\
   dict_contains event field_name = false) /\
  (dict_find event field_name = Some VNone ->
   validate self event = validate (without_field field_name self) event /\
   ~ In (missing_required field_name) (validate self event)).
Proof.
  assert (Hmissing :
    In (missing_required field_name) (validate self event) <->
    In field_name (required_fields self) /\
    dict_contains event field_name = false).
  { rewrite validate_errors, in_app_iff, !in_flat_map. split.
    - intros [(g & Hg & Hin) | ((g & def) & Hg & Hin)].
      + unfold required_errors in Hin.
        destruct (dict_contains event g) eqn:E; simpl in Hin; [tauto |].
        destruct Hin as [Hin | []]. apply missing_required_inj in Hin.
        subst g. auto.
      + unfold field_errors in Hin. simpl in Hin.
        destruct (dict_find event g) as [value |]; [| contradiction].
        destruct (_check_type value (type def)); simpl in Hin; [tauto |].
        destruct Hin as [Hin | []].
        exfalso. exact (wrong_type_not_missing _ _ _ _ Hin).
    - intros [Hreq Habs]. left. exists field_name. split; [assumption |].
      unfold required_errors. rewrite Habs. now left. }
  split; [reflexivity | split; [exact Hmissing |]].
  intros Hnone. split.
  - rewrite !validate_errors. unfold without_field. simpl.
    f_equal; symmetry; apply flat_map_filter_silent.
    + intros g Hg. apply negb_false_iff, String.eqb_eq in Hg. subst g.
      unfold required_errors, dict_contains. now rewrite Hnone.
    + intros [g def] Hg. simpl in Hg.
      apply negb_false_iff, String.eqb_eq in Hg. subst g.
      unfold field_errors. simpl. now rewrite Hnone.
  - rewrite Hmissing. intros [_ Habs].
    unfold dict_contains in Habs. rewrite Hnone in Habs. discriminate.
Qed.

Lemma validate_None_value_witness :
  validate cloudtrail_like [("eventName", VNone); ("awsRegion", VInt 1)]
  = validate (without_field "eventName" cloudtrail_like)
      [("eventName", VNone); ("awsRegion", VInt 1)]
  /\ ~ In (missing_required "eventName")
         (validate cloudtrail_like [("eventName", VNone); ("awsRegion", VInt 1)]).
Proof.
  apply (validate_None_value cloudtrail_like
           [("eventName", VNone); ("awsRegion", VInt 1)] "eventName").
  reflexivity.
Defined.

End SchemasFacts.

(** ** Rule execution: one detection on one event *)

Module EngineFacts.
Import Engine EngineSpec.

(** *** Computations *)

Lemma bind_ext {S A B : Type} (c : Exec S A) (k k' : A -> Exec S B) (s : S) :
  (forall a s', k a s' = k' a s') -> bind c k s = bind c k' s.
Proof.
  intros H. unfold bind. destruct (c s) as [[a | e] s']; auto.
Qed.

Lemma bind_ret_tt {S : Type} (c : Exec S unit) (s : S) :
  bind c (fun _ => ret tt) s = c s.
Proof.
  unfold bind, ret. destruct (c s) as [[[] | e] s']; reflexivity.
Qed.

(** *** Fields of a verdict *)

Lemma field_eqb_eq (a b : field) : field_eqb a b = true <-> a = b.
Proof. destruct a, b; simpl; split; congruence. Qed.

Lemma get_set_same (w : field) (v : pyval) (r : DetectionResult.t) :
  get_field w (set_field w v r) = v.
Proof. destruct w; reflexivity. Qed.

Lemma get_set_other (w w' : field) (v : pyval) (r : DetectionResult.t) :
  w <> w' -> get_field w' (set_field w v r) = get_field w' r.
Proof. destruct w, w'; intros H; try reflexivity; congruence. Qed.

Lemma set_field_header (w : field) (v : pyval) (r : DetectionResult.t) :
  same_header r (set_field w v r).
Proof. destruct w; repeat split. Qed.

Lemma same_header_refl (r : DetectionResult.t) : same_header r r.
Proof. repeat split. Qed.

Lemma same_header_trans (r1 r2 r3 : DetectionResult.t) :
  same_header r1 r2 -> same_header r2 r3 -> same_header r1 r3.
Proof.
  unfold same_header. intros (A1 & A2 & A3 & A4 & A5 & A6) (B1 & B2 & B3 & B4 & B5 & B6).
  repeat split; congruence.
Qed.

(** Writing the default severity over itself changes nothing one can read. *)
Lemma set_default_severity (r : DetectionResult.t) (w : field) :
  DetectionResult.severity r = VStr "MEDIUM" ->
  get_field w (DetectionResult.set_severity (VStr "MEDIUM") r) = get_field w r.
Proof. destruct w; simpl; congruence. Qed.

(** *** The extractor sequence *)

Lemma value_of_computed (event : pyval) (xs : list (field * option pyfunc))
  (w : field) (v : pyval) :
  value_of w (computed (extract_until_fault event xs)) = Some v ->
  exists f, In (w, Some f) xs.
Proof.
  induction xs as [| [w' [f |]] rest IH]; simpl.
  - discriminate.
  - destruct (f event) as [v' | e]; simpl; [| discriminate].
    destruct (field_eqb w' w) eqn:E.
    + apply field_eqb_eq in E. subst w'. eauto.
    + intros H. destruct (IH H) as [g Hg]. eauto.
  - intros H. destruct (IH H) as [g Hg]. eauto.
Qed.

Lemma value_of_not_listed (event : pyval) (xs : list (field * option pyfunc))
  (w : field) :
  ~ In w (map fst xs) ->
  value_of w (computed (extract_until_fault event xs)) = None.
Proof.
  intros Hnot.
  destruct (value_of w (computed (extract_until_fault event xs))) as [v |] eqn:E;
    [| reflexivity].
  destruct (value_of_computed _ _ _ _ E) as [f Hf].
  exfalso. apply Hnot. apply (in_map fst) in Hf. exact Hf.
Qed.

(** Running the extractor steps from a verdict [r]: the calls made, the
    fault raised, and the fields of the verdict afterwards are those of
    [extract_until_fault]. *)
Lemma extract_seq_spec (d : Detection) (event : pyval)
  (xs : list (field * option pyfunc)) :
  forall (r : DetectionResult.t) (s : State),
    NoDup (map fst xs) ->
    (In Severity (map fst xs) -> DetectionResult.severity r = VStr "MEDIUM") ->
    let o := extract_until_fault event xs in
    exists r',
      extract_seq d event xs (r, s)
      = (raised (fault o),
         (r', logged s (calls_of d event (map Extractor (invoked o))))) /\
      same_header r r' /\
      forall w, get_field w r'
                = match value_of w (computed o) with
                  | Some v => v
                  | None => get_field w r
                  end.
Proof.
  induction xs as [| [w fo] rest IH]; intros r s Hnodup Hsev; simpl.
  - exists r. unfold ret, logged. simpl. rewrite app_nil_r.
    destruct s; repeat split.
  - simpl in Hnodup. inversion Hnodup as [| ? ? Hw Hrest]; subst.
    destruct fo as [f |].
    + unfold bind at 1. unfold extract at 1. simpl.
      unfold bind at 1. unfold invoke at 1. simpl.
      destruct (f event) as [v | e] eqn:Hf.
      * unfold assign at 1. simpl.
        destruct (IH (set_field w v r)
                     (log_call (mk_call (rule_id d) (Extractor w) event) s)
                     Hrest) as (r' & Hrun & Hhead & Hfields).
        { intros Hin. destruct (field_eqb w Severity) eqn:E.
          - apply field_eqb_eq in E. subst w. contradiction.
          - change (get_field Severity (set_field w v r) = VStr "MEDIUM").
            rewrite get_set_other.
            + apply Hsev. right. exact Hin.
            + intros ->. simpl in E. discriminate. }
        exists r'. rewrite Hrun. simpl. split; [| split].
        -- unfold logged, log_call. simpl. now rewrite <- app_assoc.
        -- eapply same_header_trans; [apply set_field_header | exact Hhead].
        -- intros w'. rewrite Hfields.
           destruct (field_eqb w w') eqn:E.
           ++ apply field_eqb_eq in E. subst w'.
              rewrite (value_of_not_listed event rest w Hw).
              apply get_set_same.
           ++ destruct (value_of w' _); [reflexivity |].
              apply get_set_other. intros ->.
              rewrite (proj2 (field_eqb_eq w' w') eq_refl) in E. discriminate.
      * simpl. exists r. split; [| split].
        -- reflexivity.
        -- apply same_header_refl.
        -- intros w'. reflexivity.
    + assert (Hkeep : In Severity (map fst rest) ->
                      DetectionResult.severity r = VStr "MEDIUM")
        by (intros Hin; apply Hsev; right; exact Hin).
      unfold bind at 1. unfold extract at 1. simpl.
      destruct w; try exact (IH r s Hrest Hkeep).
      unfold assign at 1. simpl.
      destruct (IH (DetectionResult.set_severity (VStr "MEDIUM") r) s Hrest)
        as (r' & Hrun & Hhead & Hfields).
      { intros Hin. contradiction. }
      exists r'. split; [exact Hrun | split].
      * eapply same_header_trans;
          [apply (set_field_header Severity) | exact Hhead].
      * intros w'. rewrite Hfields.
        destruct (value_of w' _); [reflexivity |].
        apply set_default_severity. apply Hsev. now left.
Qed.

Lemma extractors_nodup (d : Detection) : NoDup (map fst (extractors d)).
Proof.
  simpl. repeat constructor; simpl; intuition discriminate.
Qed.

(** The extractors called are the first of the populated ones, and all of
    them when none faults. *)
Lemma invoked_prefix_of (event : pyval) (xs : list (field * option pyfunc)) :
  exists skipped,
    map fst (filter (fun x => match snd x with Some _ => true | None => false end)
                    xs)
    = invoked (extract_until_fault event xs) ++ skipped /\
    (fault (extract_until_fault event xs) = None -> skipped = []).
Proof.
  induction xs as [| [w [f |]] rest IH]; simpl.
  - exists []. auto.
  - destruct (f event) as [v | e]; simpl.
    + destruct IH as (skipped & Heq & Hnone).
      exists skipped. rewrite Heq. auto.
    + eexists. split; [reflexivity | discriminate].
  - exact IH.
Qed.

Lemma invoked_prefix (d : Detection) (event : pyval) :
  exists skipped,
    populated d = invoked (extract_until_fault event (extractors d)) ++ skipped /\
    (fault (extract_until_fault event (extractors d)) = None -> skipped = []).
Proof. apply invoked_prefix_of. Qed.

(** A computed value is what the extractor of that field returned. *)
Lemma computed_sound (event : pyval) (xs : list (field * option pyfunc))
  (w : field) (v : pyval) :
  value_of w (computed (extract_until_fault event xs)) = Some v ->
  exists f, In (w, Some f) xs /\ f event = Ok v.
Proof.
  induction xs as [| [w' [f |]] rest IH]; simpl.
  - discriminate.
  - destruct (f event) as [v' | e] eqn:Hf; simpl; [| discriminate].
    destruct (field_eqb w' w) eqn:E.
    + apply field_eqb_eq in E. subst w'. intros H. injection H as ->. eauto.
    + intros H. destruct (IH H) as (g & Hg & Hv). eauto.
  - intros H. destruct (IH H) as (g & Hg & Hv). eauto.
Qed.

(** The statements under [try:] are the call of the rule followed, on a
    match, by the extractor steps in their order. *)
Lemma run_detection_try_steps (d : Detection) (event : pyval) (fr : Frame) :
  run_detection_try d event fr
  = (matched <- invoke d RuleFunc (rule_func d) event ;;
     assign (DetectionResult.set_matched (truthy matched)) ;;;
     result <- read_result ;;
     if DetectionResult.matched result
     then extract_seq d event (extractors d)
     else ret tt) fr.
Proof.
  unfold run_detection_try.
  apply bind_ext; intros m fr1.
  apply bind_ext; intros _ fr2.
  apply bind_ext; intros result fr3.
  destruct (DetectionResult.matched result); [| reflexivity].
  simpl extract_seq.
  repeat (apply bind_ext; intros _ ?).
  symmetry. apply bind_ret_tt.
Qed.

(** On a match the statements under [try:] come down to the extractor
    steps, run on the verdict marked as matched. *)
Lemma run_detection_try_match (d : Detection) (event m : pyval) :
  rule_func d event = Ok m -> truthy m = true ->
  forall (r : DetectionResult.t) (s : State),
    run_detection_try d event (r, s)
    = extract_seq d event (extractors d)
        (DetectionResult.set_matched true r,
         log_call (mk_call (rule_id d) RuleFunc event) s).
Proof.
  intros Hrule Htrue r s. rewrite run_detection_try_steps.
  unfold bind at 1. unfold invoke at 1. rewrite Hrule. cbn [fst snd].
  unfold bind at 1. unfold assign at 1. cbn [fst snd].
  unfold bind at 1. unfold read_result at 1. cbn [fst snd].
  rewrite Htrue. reflexivity.
Qed.

Section Clock.
Variable now : nat -> Z.
Variable elapsed_ms : Z -> Z -> Z.

(** The verdict and the state when the rule itself raises an instance of
    [Exception]. *)
Lemma run_detection_rule_raises (d : Detection) (event : pyval) (s : State)
  (e : pyexn) :
  rule_func d event = Raise e -> is_Exception e = true ->
  Engine.run_detection now elapsed_ms d event s
  = (Ok (DetectionResult.set_execution_time_ms
           (elapsed_ms (now (clock s)) (now (S (clock s))))
           (DetectionResult.set_error (Some (format_error e))
              (DetectionResult.init (rule_id d) (file_path d) false event))),
     mk_state (detections s) (stdout s) (S (S (clock s)))
       (calls s ++ calls_of d event [RuleFunc])).
Proof.
  intros Hrule Hexc. unfold Engine.run_detection.
  unfold bind at 1. unfold datetime_now at 1.
  unfold bind at 1. unfold with_result, try_except.
  rewrite run_detection_try_steps.
  unfold bind at 1. unfold invoke at 1. rewrite Hrule. cbn [fst snd].
  rewrite Hexc. reflexivity.
Qed.

(** What the rule raises outside [Exception] leaves [run_detection] as it
    was raised, after one reading of the clock. *)
Lemma run_detection_rule_escapes (d : Detection) (event : pyval) (s : State)
  (e : pyexn) :
  rule_func d event = Raise e -> is_Exception e = false ->
  Engine.run_detection now elapsed_ms d event s
  = (Raise e,
     mk_state (detections s) (stdout s) (S (clock s))
       (calls s ++ calls_of d event [RuleFunc])).
Proof.
  intros Hrule Hexc. unfold Engine.run_detection.
  unfold bind at 1. unfold datetime_now at 1.
  unfold bind at 1. unfold with_result, try_except.
  rewrite run_detection_try_steps.
  unfold bind at 1. unfold invoke at 1. rewrite Hrule. cbn [fst snd].
  rewrite Hexc. reflexivity.
Qed.

(** The verdict and the state when the rule returns something falsy. *)
Lemma run_detection_no_match (d : Detection) (event : pyval) (s : State)
  (m : pyval) :
  rule_func d event = Ok m -> truthy m = false ->
  Engine.run_detection now elapsed_ms d event s
  = (Ok (DetectionResult.set_execution_time_ms
           (elapsed_ms (now (clock s)) (now (S (clock s))))
           (DetectionResult.set_matched false
              (DetectionResult.init (rule_id d) (file_path d) false event))),
     mk_state (detections s) (stdout s) (S (S (clock s)))
       (calls s ++ calls_of d event [RuleFunc])).
Proof.
  intros Hrule Hfalse. unfold Engine.run_detection.
  unfold bind at 1. unfold datetime_now at 1.
  unfold bind at 1. unfold with_result, try_except.
  rewrite run_detection_try_steps.
  unfold bind at 1. unfold invoke at 1. rewrite Hrule. simpl.
  unfold bind at 1. unfold assign at 1. simpl.
  unfold bind at 1. unfold read_result at 1. simpl.
  rewrite Hfalse. reflexivity.
Qed.

Lemma get_field_init (w : field) (rid rf : string) (b : bool) (event : pyval) :
  get_field w (DetectionResult.set_matched b
                 (DetectionResult.init rid rf false event))
  = default_value w.
Proof. destruct w; reflexivity. Qed.

Lemma get_field_set_error (w : field) (msg : option string)
  (r : DetectionResult.t) :
  get_field w (DetectionResult.set_error msg r) = get_field w r.
Proof. destruct w; reflexivity. Qed.

Lemma get_field_set_time (w : field) (ms : Z) (r : DetectionResult.t) :
  get_field w (DetectionResult.set_execution_time_ms ms r) = get_field w r.
Proof. destruct w; reflexivity. Qed.

(** The verdict and the state when the rule matches: the extractors are
    asked in order up to the first fault, which the handler catches when
    it is an instance of [Exception]. *)
Lemma run_detection_match (d : Detection) (event : pyval) (s : State)
  (m : pyval) :
  rule_func d event = Ok m -> truthy m = true ->
  let o := extract_until_fault event (extractors d) in
  (forall e, fault o = Some e -> is_Exception e = true) ->
  exists r s',
    Engine.run_detection now elapsed_ms d event s = (Ok r, s') /\
    DetectionResult.matched r = true /\
    DetectionResult.rule_id r = rule_id d /\
    DetectionResult.event r = event /\
    DetectionResult.error r = option_map format_error (fault o) /\
    (forall w, get_field w r = final_value w o) /\
    s' = mk_state (detections s) (stdout s) (S (S (clock s)))
           (calls s ++ calls_of d event (RuleFunc :: map Extractor (invoked o))).
Proof.
  intros Hrule Htrue o Hcaught. unfold Engine.run_detection.
  unfold bind at 1. unfold datetime_now at 1.
  unfold bind at 1. unfold with_result, try_except.
  rewrite (run_detection_try_match d event m Hrule Htrue).
  match goal with
  | |- context [extract_seq d event (extractors d) (?r0, ?s0)] =>
      destruct (extract_seq_spec d event (extractors d) r0 s0
                  (extractors_nodup d) (fun _ => eq_refl))
        as (r' & Hrun & Hhead & Hfields)
  end.
  rewrite Hrun. fold o in Hfields |- *.
  destruct Hhead as (H1 & H2 & H3 & H4 & H5 & H6). simpl in H1, H2, H3, H4, H5, H6.
  assert (Hfinal : forall w, get_field w r' = final_value w o).
  { intros w. rewrite Hfields. unfold final_value.
    destruct (value_of w (computed o)); [reflexivity |].
    apply get_field_init. }
  destruct (fault o) as [e |]; cbn [raised].
  - rewrite (Hcaught e eq_refl).
    eexists _, _. split; [reflexivity |]. simpl.
    split; [assumption |]. split; [assumption |]. split; [assumption |].
    split; [reflexivity |]. split.
    + intros w. rewrite get_field_set_time, get_field_set_error. apply Hfinal.
    + now rewrite <- app_assoc.
  - eexists _, _. split; [reflexivity |]. simpl.
    split; [assumption |]. split; [assumption |]. split; [assumption |].
    split; [assumption |]. split.
    + intros w. rewrite get_field_set_time. apply Hfinal.
    + now rewrite <- app_assoc.
Qed.

(** What an extractor raises outside [Exception] leaves [run_detection]
    as it was raised, after one reading of the clock. *)
Lemma run_detection_match_escapes (d : Detection) (event : pyval) (s : State)
  (m : pyval) (e : pyexn) :
  rule_func d event = Ok m -> truthy m = true ->
  let o := extract_until_fault event (extractors d) in
  fault o = Some e -> is_Exception e = false ->
  Engine.run_detection now elapsed_ms d event s
  = (Raise e,
     mk_state (detections s) (stdout s) (S (clock s))
       (calls s ++ calls_of d event (RuleFunc :: map Extractor (invoked o)))).
Proof.
  intros Hrule Htrue o Hfault Hexc. unfold Engine.run_detection.
  unfold bind at 1. unfold datetime_now at 1.
  unfold bind at 1. unfold with_result, try_except.
  rewrite (run_detection_try_match d event m Hrule Htrue).
  match goal with
  | |- context [extract_seq d event (extractors d) (?r0, ?s0)] =>
      destruct (extract_seq_spec d event (extractors d) r0 s0
                  (extractors_nodup d) (fun _ => eq_refl))
        as (r' & Hrun & _)
  end.
  rewrite Hrun. fold o. rewrite Hfault. cbn [raised]. rewrite Hexc.
  cbn [fst snd]. unfold logged, log_call. cbn [detections stdout clock calls].
  now rewrite <- app_assoc.
Qed.

Lemma to_dict_field (w : field) (r : DetectionResult.t) :
  dict_find (DetectionResult.to_dict r) (field_key w) = Some (get_field w r).
Proof. destruct w; reflexivity. Qed.

(** *** Every evaluation *)

Lemma faults_caught_or_escape (d : Detection) (event : pyval) :
  faults_caught d event \/
  exists e, first_fault d event = Some e /\ is_Exception e = false.
Proof.
  unfold faults_caught. destruct (first_fault d event) as [e |].
  - destruct (is_Exception e) eqn:E.
    + left. intros e' H. injection H as <-. exact E.
    + right. eauto.
  - left. discriminate.
Qed.

(** A fault outside [Exception] leaves [run_detection] as it was raised:
    there is no verdict, and the clock was read once. *)
Lemma run_detection_escapes (d : Detection) (event : pyval) (s : State)
  (e : pyexn) :
  first_fault d event = Some e -> is_Exception e = false ->
  Engine.run_detection now elapsed_ms d event s
  = (Raise e,
     mk_state (detections s) (stdout s) (S (clock s))
       (calls s ++ calls_of d event
                     (RuleFunc :: map Extractor (extractors_called d event)))).
Proof.
  unfold first_fault, extractors_called.
  destruct (rule_func d event) as [m | e0] eqn:Hrule.
  - destruct (truthy m) eqn:Hm; [| discriminate].
    intros Hfault Hexc.
    apply (run_detection_match_escapes d event s m e Hrule Hm Hfault Hexc).
  - intros H Hexc. injection H as ->.
    apply (run_detection_rule_escapes d event s e Hrule Hexc).
Qed.

(** When every fault is caught there is a verdict: it is about the
    detection and the event, its flag says whether the rule returned
    something truthy, its error is the first fault, and its fields are
    those the extractors gave before it. *)
Lemma run_detection_returns (d : Detection) (event : pyval) (s : State) :
  faults_caught d event ->
  exists r,
    Engine.run_detection now elapsed_ms d event s
    = (Ok r,
       mk_state (detections s) (stdout s) (S (S (clock s)))
         (calls s ++ calls_of d event
                       (RuleFunc :: map Extractor (extractors_called d event)))) /\
    DetectionResult.rule_id r = rule_id d /\
    DetectionResult.event r = event /\
    DetectionResult.matched r = EngineMore.rule_matches d event /\
    DetectionResult.error r = option_map format_error (first_fault d event) /\
    (forall w,
        get_field w r
        = if EngineMore.rule_matches d event
          then final_value w (extract_until_fault event (extractors d))
          else default_value w).
Proof.
  unfold faults_caught, first_fault, extractors_called, EngineMore.rule_matches.
  destruct (rule_func d event) as [m | e] eqn:Hrule.
  - destruct (truthy m) eqn:Hm; intros Hcaught.
    + destruct (run_detection_match d event s m Hrule Hm Hcaught)
        as (r & s' & Hrun & Hmatched & Hid & Hev & Herr & Hfields & Hs').
      subst s'. exists r. auto 10.
    + rewrite (run_detection_no_match d event s m Hrule Hm).
      eexists. split; [reflexivity |].
      do 4 (split; [reflexivity |]). intros w. destruct w; reflexivity.
  - intros Hcaught.
    rewrite (run_detection_rule_raises d event s e Hrule (Hcaught e eq_refl)).
    eexists. split; [reflexivity |].
    do 4 (split; [reflexivity |]). intros w. destruct w; reflexivity.
Qed.

(** So [run_detection] returns exactly when every fault is caught. *)
Lemma run_detection_ok_inv (d : Detection) (event : pyval) (s s' : State)
  (r : DetectionResult.t) :
  Engine.run_detection now elapsed_ms d event s = (Ok r, s') ->
  faults_caught d event.
Proof.
  intros Hrun.
  destruct (faults_caught_or_escape d event) as [H | (e & Hfault & Hexc)];
    [exact H |].
  rewrite (run_detection_escapes d event s e Hfault Hexc) in Hrun.
  discriminate.
Qed.

(** The registry and standard output are the same after an evaluation,
    whether it returned or not. *)
Lemma run_detection_keeps (d : Detection) (event : pyval) (s : State) :
  detections (snd (Engine.run_detection now elapsed_ms d event s))
  = detections s /\
  stdout (snd (Engine.run_detection now elapsed_ms d event s)) = stdout s.
Proof.
  destruct (faults_caught_or_escape d event) as [H | (e & Hfault & Hexc)].
  - destruct (run_detection_returns d event s H) as (r & Hrun & _).
    rewrite Hrun. split; reflexivity.
  - rewrite (run_detection_escapes d event s e Hfault Hexc).
    split; reflexivity.
Qed.



(** C2 (amended). A verdict with [matched] false has every optional field
    at its default: title, description, reference, runbook, alert context
    and dedup string unset, severity "MEDIUM".  Its dictionary form renders
    the six unset fields as null and severity as "MEDIUM". *)
Theorem unmatched_fields_default (d : Detection) (event : pyval)
  (s s' : State) (r : DetectionResult.t) :
  Engine.run_detection now elapsed_ms d event s = (Ok r, s') ->
  DetectionResult.matched r = false ->
  (forall w, get_field w r = default_value w) /\
  (forall w, w <> Severity ->
             dict_find (DetectionResult.to_dict r) (field_key w) = Some VNone) /\
  DetectionResult.severity r = VStr "MEDIUM" /\
  dict_find (DetectionResult.to_dict r) "severity" = Some (VStr "MEDIUM").
Proof.
  intros Hrun Hunmatched.
  assert (Hdefault : forall w, get_field w r = default_value w).
  { destruct (run_detection_returns d event s
                (run_detection_ok_inv d event s s' r Hrun))
      as (r1 & Hrun1 & _ & _ & Hmatched & _ & Hfields).
    rewrite Hrun in Hrun1. injection Hrun1 as <- _.
    rewrite Hunmatched in Hmatched. rewrite <- Hmatched in Hfields.
    exact Hfields. }
  split; [exact Hdefault | split; [| split]].
  - intros w Hw. rewrite to_dict_field, Hdefault.
    destruct w; try reflexivity. congruence.
  - exact (Hdefault Severity).
  - rewrite (to_dict_field Severity). now rewrite Hdefault.
Qed.


(** *** Running the registry over events *)

Lemma bind_ret_app_nil {S B : Type} (c : Exec S (list B)) (s : S) :
  bind c (fun ys => ret ([] ++ ys)) s = c s.
Proof.
  unfold bind, ret. destruct (c s) as [[ys | e] s']; reflexivity.
Qed.

Lemma map_exec_app {S A B : Type} (f : A -> Exec S B) (l1 l2 : list A) :
  forall s,
    map_exec f (l1 ++ l2) s
    = (ys1 <- map_exec f l1 ;; ys2 <- map_exec f l2 ;; ret (ys1 ++ ys2)) s.
Proof.
  induction l1 as [| x l1 IH]; intros s; simpl; unfold bind, ret in *.
  - destruct (map_exec f l2 s) as [[ys | e] s']; reflexivity.
  - destruct (f x s) as [[y | e] s1]; [| reflexivity].
    rewrite IH.
    destruct (map_exec f l1 s1) as [[ys1 | e] s2]; [| reflexivity].
    destruct (map_exec f l2 s2) as [[ys2 | e] s3]; reflexivity.
Qed.

(** Evaluating a list of pairs leaves the registry alone, whether all of
    them return or not. *)
Lemma map_exec_evaluate_keeps (pairs : list (pyval * Detection)) :
  forall s,
    detections (snd (map_exec (evaluate now elapsed_ms) pairs s))
    = detections s.
Proof.
  induction pairs as [| [event d] pairs IH]; intros s; simpl.
  - reflexivity.
  - unfold bind, ret, EngineSpec.evaluate at 1. cbn [fst snd].
    pose proof (proj1 (run_detection_keeps d event s)) as Hkeep.
    destruct (Engine.run_detection now elapsed_ms d event s)
      as [[r | e] s1]; cbn [snd] in *; [| exact Hkeep].
    pose proof (IH s1) as Hrest.
    destruct (map_exec (evaluate now elapsed_ms) pairs s1)
      as [[rs | e] s2]; cbn [snd] in *; congruence.
Qed.

(** Evaluating a list of pairs whose faults are all caught gives one
    verdict per pair, in order. *)
Lemma map_exec_evaluate (pairs : list (pyval * Detection)) :
  all_faults_caught pairs ->
  forall s,
    exists results s',
      map_exec (evaluate now elapsed_ms) pairs s = (Ok results, s') /\
      map verdict_pair results = map (fun p => (fst p, rule_id (snd p))) pairs /\
      detections s' = detections s.
Proof.
  induction pairs as [| [event d] pairs IH]; intros Hall s; simpl.
  - exists [], s. auto.
  - inversion Hall as [| ? ? Hhead Hrest]; subst. cbn [fst snd] in Hhead.
    destruct (run_detection_returns d event s Hhead)
      as (r & Hrun & Hid & Hev & _).
    match type of Hrun with _ = (_, ?s1) =>
      destruct (IH Hrest s1) as (rs & s2 & Hmore & Hpairs & Hdet2)
    end.
    exists (r :: rs), s2. split; [| split].
    + unfold bind, ret, EngineSpec.evaluate in *. cbn [fst snd].
      rewrite Hrun, Hmore. reflexivity.
    + simpl. unfold verdict_pair at 1. now rewrite Hid, Hev, Hpairs.
    + rewrite Hdet2. reflexivity.
Qed.

(** A list of pairs that was evaluated to the end met no fault outside
    [Exception]. *)
Lemma map_exec_evaluate_ok_inv (pairs : list (pyval * Detection)) :
  forall s results s',
    map_exec (evaluate now elapsed_ms) pairs s = (Ok results, s') ->
    all_faults_caught pairs.
Proof.
  induction pairs as [| [event d] pairs IH]; intros s results s' Hrun.
  - constructor.
  - simpl in Hrun. unfold bind, ret, EngineSpec.evaluate at 1 in Hrun.
    cbn [fst snd] in Hrun.
    destruct (Engine.run_detection now elapsed_ms d event s)
      as [[r | e] s1] eqn:Hone; [| discriminate].
    destruct (map_exec (evaluate now elapsed_ms) pairs s1)
      as [[rs | e] s2] eqn:Hmore; [| discriminate].
    constructor.
    + exact (run_detection_ok_inv d event s s1 r Hone).
    + exact (IH s1 rs s2 Hmore).
Qed.

(** The inner loop of [run]: the kept detections, in registry order. *)
Lemma run_inner (rule_ids : option (list string)) (event : pyval)
  (items : list (string * Detection)) :
  forall results s,
    for_each (run_body now elapsed_ms rule_ids event) items results s
    = (ys <- map_exec (evaluate now elapsed_ms)
               (map (fun item => (event, snd item))
                    (filter (selected rule_ids) items)) ;;
       ret (results ++ ys)) s.
Proof.
  induction items as [| [id d] items IH]; intros results s;
    cbn [for_each filter map map_exec]; unfold bind, ret in *.
  - now rewrite app_nil_r.
  - unfold run_body at 1, selected at 1. cbn [fst snd].
    destruct (rule_ids_truthy rule_ids && negb (rule_id_in id rule_ids)) eqn:Hskip.
    + assert ((negb (rule_ids_truthy rule_ids) || rule_id_in id rule_ids) = false)
        as ->.
      { destruct (rule_ids_truthy rule_ids), (rule_id_in id rule_ids);
          simpl in *; congruence. }
      cbn [andb]. unfold ret. apply IH.
    + assert ((negb (rule_ids_truthy rule_ids) || rule_id_in id rule_ids) = true)
        as ->.
      { destruct (rule_ids_truthy rule_ids), (rule_id_in id rule_ids);
          simpl in *; congruence. }
      destruct (enabled d); cbn [negb andb map map_exec]; unfold bind, ret.
      * unfold EngineSpec.evaluate at 1. cbn [fst snd].
        destruct (Engine.run_detection now elapsed_ms d event s)
          as [[r | e] s1]; [| reflexivity].
        rewrite IH.
        destruct (map_exec (evaluate now elapsed_ms) _ s1) as [[ys | e] s2]; [| reflexivity].
        now rewrite <- app_assoc.
      * apply IH.
Qed.

(** The two loops of [run]: event-major, then registry order. *)
Lemma run_outer (rule_ids : option (list string)) (events : list pyval) :
  forall results s,
    for_each
      (fun results event =>
         items <- get_detections ;;
         for_each (run_body now elapsed_ms rule_ids event) items results)
      events results s
    = (ys <- map_exec (evaluate now elapsed_ms)
               (evaluated_pairs (selected rule_ids) (detections s) events) ;;
       ret (results ++ ys)) s.
Proof.
  induction events as [| event events IH]; intros results s;
    cbn [for_each]; unfold bind, ret in *.
  - simpl. now rewrite app_nil_r.
  - unfold get_detections at 1. rewrite run_inner.
    unfold evaluated_pairs. cbn [flat_map].
    fold (evaluated_pairs (selected rule_ids) (detections s) events).
    rewrite map_exec_app. unfold bind, ret.
    pose proof (map_exec_evaluate_keeps
                  (map (fun item => (event, snd item))
                       (filter (selected rule_ids) (detections s))) s) as Hdet.
    destruct (map_exec (evaluate now elapsed_ms)
                (map (fun item => (event, snd item))
                     (filter (selected rule_ids) (detections s))) s)
      as [[rs1 | e] s1]; cbn [snd] in Hdet; [| reflexivity].
    rewrite IH, Hdet.
    destruct (map_exec (evaluate now elapsed_ms)
                (evaluated_pairs (selected rule_ids) (detections s) events) s1)
      as [[ys | e] s2]; [| reflexivity].
    now rewrite <- app_assoc.
Qed.

Lemma run_as_map_exec (rule_ids : option (list string)) (events : list pyval)
  (s : State) :
  Engine.run now elapsed_ms (EventList events) rule_ids s
  = map_exec (evaluate now elapsed_ms)
      (evaluated_pairs (selected rule_ids) (detections s) events) s.
Proof.
  unfold Engine.run. rewrite run_outer. apply bind_ret_app_nil.
Qed.


(** C9. An empty [rule_ids] list filters nothing: [run] does what it
    does without a filter, that is, it evaluates every enabled detection
    of the registry on every event. *)
Theorem run_empty_filter_is_no_filter (events : list pyval) (s : State) :
  Engine.run now elapsed_ms (EventList events) (Some []) s
  = Engine.run now elapsed_ms (EventList events) None s /\
  Engine.run now elapsed_ms (EventList events) (Some []) s
  = map_exec (evaluate now elapsed_ms)
      (evaluated_pairs (fun item => enabled (snd item)) (detections s) events) s /\
  (forall event,
      Engine.run now elapsed_ms (OneEvent event) (Some []) s
      = Engine.run now elapsed_ms (OneEvent event) None s).
Proof.
  split; [| split].
  - now rewrite !run_as_map_exec.
  - now rewrite run_as_map_exec.
  - intros event.
    change (Engine.run now elapsed_ms (EventList [event]) (Some []) s
            = Engine.run now elapsed_ms (EventList [event]) None s).
    now rewrite !run_as_map_exec.
Qed.

End Clock.

(** *** Witnesses and counterexamples for rule execution *)



(** C2, as worded, fails on any verdict without a match: its dictionary
    form carries severity "MEDIUM", not null. *)
Lemma unmatched_severity_counterexample :
  let outcome :=
    Engine.run_detection tick ms_between quiet_unit console_login empty_state in
  fst outcome = Ok (verdict_of outcome) /\
  DetectionResult.matched (verdict_of outcome) = false /\
  dict_find (DetectionResult.to_dict (verdict_of outcome)) "severity"
  = Some (VStr "MEDIUM") /\
  ~ renders_null (verdict_of outcome).
Proof.
  split; [reflexivity | split; [reflexivity | split; [reflexivity |]]].
  intros H. destruct (H Severity) as [H1 | H1]; vm_compute in H1; discriminate.
Qed.

Lemma unmatched_fields_default_witness :
  let outcome :=
    Engine.run_detection tick ms_between quiet_unit console_login empty_state in
  (forall w, get_field w (verdict_of outcome) = default_value w) /\
  (forall w, w <> Severity ->
             dict_find (DetectionResult.to_dict (verdict_of outcome))
               (field_key w) = Some VNone) /\
  DetectionResult.severity (verdict_of outcome) = VStr "MEDIUM" /\
  dict_find (DetectionResult.to_dict (verdict_of outcome)) "severity"
  = Some (VStr "MEDIUM").
Proof.
  intros outcome.
  apply (unmatched_fields_default tick ms_between quiet_unit console_login
           empty_state (snd outcome) (verdict_of outcome)).
  - reflexivity.
  - reflexivity.
Defined.





(** ** Loading *)

(** [load_rule] either returns a detection and stores it under its
    identifier, or raises and leaves the state as it was. *)
Lemma load_rule_spec (f : RuleFile) (s : State) :
  load_rule f s
  = match load_outcome f with
    | Ok d => (Ok d, registered d s)
    | Raise e => (Raise e, s)
    end.
Proof.
  unfold load_outcome, load_rule.
  destruct (file_exists f); simpl; [| reflexivity].
  destruct (has_spec_loader f); simpl; [| reflexivity].
  unfold bind, try_except, raise, ret, register.
  destruct (exec_module f) as [m | e]; cbn [fst snd].
  - destruct (attr_rule m) as [rule |]; reflexivity.
  - destruct (is_Exception e); reflexivity.
Qed.

Lemma load_outcome_rule_id (f : RuleFile) (d : Detection) :
  load_outcome f = Ok d -> rule_id d = stem f.
Proof.
  unfold load_outcome, load_rule.
  destruct (file_exists f); simpl; [| discriminate].
  destruct (has_spec_loader f); simpl; [| discriminate].
  unfold bind, try_except, raise, ret, register.
  destruct (exec_module f) as [m | e]; cbn [fst snd].
  - destruct (attr_rule m) as [rule |]; simpl; [| discriminate].
    intros H. injection H as <-. reflexivity.
  - destruct (is_Exception e); discriminate.
Qed.









End EngineFacts.

(** * Further properties *)

(** ** Dictionaries *)

Module DictFacts.

Section Dict.
Context {V : Type}.

Lemma find_set_same (entries : list (string * V)) (key : string) (v : V) :
  dict_find (dict_set entries key v) key = Some v.
Proof.
  induction entries as [| [k old] rest IH]; simpl.
  - now rewrite String.eqb_refl.
  - destruct (String.eqb k key) eqn:E; simpl; rewrite E; auto.
Qed.


Lemma keys_set (entries : list (string * V)) (key : string) (v : V) :
  dict_keys (dict_set entries key v)
  = if dict_contains entries key then dict_keys entries
    else dict_keys entries ++ [key].
Proof.
  unfold dict_contains.
  induction entries as [| [k old] rest IH]; simpl; [reflexivity |].
  destruct (String.eqb k key) eqn:E; simpl; [reflexivity |].
  rewrite IH. destruct (dict_find rest key); reflexivity.
Qed.

Lemma find_in_keys (entries : list (string * V)) (key : string) :
  dict_find entries key = None <-> ~ In key (dict_keys entries).
Proof.
  induction entries as [| [k v] rest IH]; simpl.
  - tauto.
  - destruct (String.eqb k key) eqn:E.
    + apply String.eqb_eq in E. split; [discriminate | intros H; tauto].
    + apply String.eqb_neq in E. rewrite IH. tauto.
Qed.

Lemma in_set (entries : list (string * V)) (key : string) (v : V)
  (k : string) (x : V) :
  In (k, x) (dict_set entries key v) ->
  (k = key /\ x = v) \/ In (k, x) entries.
Proof.
  induction entries as [| [k0 old] rest IH]; simpl.
  - intros [H | []]. injection H as <- <-. auto.
  - destruct (String.eqb k0 key) eqn:E; simpl.
    + apply String.eqb_eq in E. subst k0.
      intros [H | H]; [injection H as <- <-; auto | auto].
    + intros [H | H]; [auto |]. destruct (IH H); auto.
Qed.

Lemma nodup_keys_set (entries : list (string * V)) (key : string) (v : V) :
  NoDup (dict_keys entries) -> NoDup (dict_keys (dict_set entries key v)).
Proof.
  intros Hnodup. rewrite keys_set. unfold dict_contains.
  destruct (dict_find entries key) eqn:E; [exact Hnodup |].
  apply find_in_keys in E.
  apply NoDup_rev in Hnodup. rewrite <- (rev_involutive (_ ++ [key])).
  apply NoDup_rev. rewrite rev_app_distr. simpl.
  constructor; [| exact Hnodup]. rewrite <- in_rev. exact E.
Qed.

End Dict.

End DictFacts.

(** ** More on one detection on one event *)

Module EngineMoreFacts.
Import Engine EngineSpec EngineFacts EngineMore DictFacts.

Lemma fault_none_iff (event : pyval) (xs : list (field * option pyfunc)) :
  fault (extract_until_fault event xs) = None <->
  (forall w f, In (w, Some f) xs -> exists v, f event = Ok v).
Proof.
  induction xs as [| [w [f |]] rest IH]; simpl.
  - split; [intros _ w f [] | reflexivity].
  - destruct (f event) as [v | e] eqn:Hf; simpl.
    + rewrite IH. split.
      * intros H w' f' [Heq | Hin]; [| eauto].
        injection Heq as <- <-. eauto.
      * intros H w' f' Hin. apply (H w' f'). now right.
    + split; [discriminate |].
      intros H. destruct (H w f) as [v Hv]; [now left | congruence].
  - rewrite IH. split.
    + intros H w' f' [Heq | Hin]; [discriminate | eauto].
    + intros H w' f' Hin. apply (H w' f'). now right.
Qed.

(** Without a fault, each populated extractor's value is the computed one. *)
Lemma computed_complete (event : pyval) (xs : list (field * option pyfunc)) :
  NoDup (map fst xs) ->
  fault (extract_until_fault event xs) = None ->
  forall w f v,
    In (w, Some f) xs -> f event = Ok v ->
    value_of w (computed (extract_until_fault event xs)) = Some v.
Proof.
  induction xs as [| [w0 [f0 |]] rest IH]; simpl; intros Hnodup Hfault w f v Hin Hv.
  - contradiction.
  - inversion Hnodup as [| ? ? Hw0 Hrest]; subst.
    destruct (f0 event) as [v0 | e] eqn:Hf0; simpl in *; [| discriminate].
    destruct Hin as [Heq | Hin].
    + injection Heq as -> ->.
      rewrite (proj2 (field_eqb_eq w w) eq_refl). congruence.
    + destruct (field_eqb w0 w) eqn:E.
      * apply field_eqb_eq in E. subst w0. exfalso. apply Hw0.
        apply (in_map fst) in Hin. exact Hin.
      * eapply IH; eauto.
  - inversion Hnodup as [| ? ? Hw0 Hrest]; subst.
    destruct Hin as [Heq | Hin]; [discriminate |]. eapply IH; eauto.
Qed.

Lemma unpopulated_not_computed (event : pyval)
  (xs : list (field * option pyfunc)) (w : field) :
  NoDup (map fst xs) -> In (w, None) xs ->
  value_of w (computed (extract_until_fault event xs)) = None.
Proof.
  intros Hnodup Hin.
  destruct (value_of w (computed (extract_until_fault event xs))) as [v |] eqn:E;
    [| reflexivity].
  destruct (computed_sound event xs w v E) as (f & Hf & _).
  exfalso. clear E. induction xs as [| [w0 fo] rest IH]; [contradiction |].
  simpl in Hnodup. inversion Hnodup as [| ? ? Hw0 Hrest]; subst.
  destruct Hin as [Hin | Hin], Hf as [Hf | Hf].
  - congruence.
  - injection Hin as -> _. apply Hw0. apply (in_map fst) in Hf. exact Hf.
  - injection Hf as -> _. apply Hw0. apply (in_map fst) in Hin. exact Hin.
  - auto.
Qed.

Lemma first_fault_none_iff (d : Detection) (event : pyval) :
  first_fault d event = None <->
  exists m, rule_func d event = Ok m /\
            (truthy m = false \/ extractors_succeed d event).
Proof.
  unfold first_fault.
  pose proof (fault_none_iff event (extractors d)) as Hiff.
  fold (extractors_succeed d event) in Hiff.
  destruct (rule_func d event) as [m | e].
  - destruct (truthy m) eqn:Hm.
    + rewrite Hiff. split.
      * intros H. exists m. auto.
      * intros (m' & Hm' & [H | H]); [| exact H].
        injection Hm' as <-. congruence.
    + split; [| reflexivity]. intros _. exists m. auto.
  - split; [discriminate |]. intros (m & Hm & _). discriminate.
Qed.

Section Clock.
Variable now : nat -> Z.
Variable elapsed_ms : Z -> Z -> Z.

(** A verdict carries no error exactly when the rule returned and, if
    it matched, every populated extractor returned as well. *)
Theorem error_free_iff (d : Detection) (event : pyval) (s s' : State)
  (r : DetectionResult.t) :
  Engine.run_detection now elapsed_ms d event s = (Ok r, s') ->
  (DetectionResult.error r = None <->
   exists m, rule_func d event = Ok m /\
             (truthy m = false \/ extractors_succeed d event)).
Proof.
  intros Hrun.
  destruct (run_detection_returns now elapsed_ms d event s
              (run_detection_ok_inv now elapsed_ms d event s s' r Hrun))
    as (r1 & Hrun1 & _ & _ & _ & Herr & _).
  rewrite Hrun in Hrun1. injection Hrun1 as <- _.
  rewrite Herr, <- first_fault_none_iff.
  destruct (first_fault d event); simpl; split; congruence.
Qed.

Lemma extraction_complete (d : Detection) (event : pyval) (s : State) (m : pyval) :
  rule_func d event = Ok m -> truthy m = true ->
  extractors_succeed d event ->
  exists r s',
    Engine.run_detection now elapsed_ms d event s = (Ok r, s') /\
    DetectionResult.error r = None /\
    (forall w f, In (w, Some f) (extractors d) -> f event = Ok (get_field w r)) /\
    (forall w, In (w, None) (extractors d) -> get_field w r = default_value w) /\
    calls s' = calls s
               ++ calls_of d event (RuleFunc :: map Extractor (populated d)).
Proof.
  intros Hrule Hm Hall.
  pose proof (proj2 (fault_none_iff event (extractors d)) Hall) as Hfault.
  destruct (run_detection_match now elapsed_ms d event s m Hrule Hm)
    as (r & s' & Hrun & _ & _ & _ & Herr & Hfields & Hs').
  { intros e He. rewrite Hfault in He. discriminate He. }
  exists r, s'. split; [exact Hrun |]. split; [| split; [| split]].
  - now rewrite Herr, Hfault.
  - intros w f Hin. destruct (Hall w f Hin) as [v Hv].
    rewrite Hfields. unfold final_value.
    rewrite (computed_complete event (extractors d) (extractors_nodup d)
               Hfault w f v Hin Hv).
    exact Hv.
  - intros w Hin. rewrite Hfields. unfold final_value.
    now rewrite (unpopulated_not_computed event (extractors d) w
                   (extractors_nodup d) Hin).
  - subst s'. simpl.
    destruct (invoked_prefix d event) as (skipped & Heq & Hnone).
    rewrite Heq, (Hnone Hfault), app_nil_r. reflexivity.
Qed.

(** When the rule matches and no extractor faults, every extractor that
    the detection defines was called, in the engine's order, and its
    field holds what it returned; the fields without an extractor hold
    their defaults and there is no error. *)
Theorem full_extraction (d : Detection) (event : pyval) (s : State) (m : pyval) :
  rule_func d event = Ok m -> truthy m = true ->
  extractors_succeed d event ->
  exists r s',
    Engine.run_detection now elapsed_ms d event s = (Ok r, s') /\
    DetectionResult.error r = None /\
    (forall w f, In (w, Some f) (extractors d) -> f event = Ok (get_field w r)) /\
    (forall w, In (w, None) (extractors d) -> get_field w r = default_value w) /\
    calls s' = calls s
               ++ calls_of d event (RuleFunc :: map Extractor (populated d)).
Proof. exact (extraction_complete d event s m). Qed.

End Clock.

Lemma error_free_iff_witness :
  let outcome :=
    Engine.run_detection tick ms_between full_unit console_login empty_state in
  DetectionResult.error (verdict_of outcome) = None.
Proof.
  intros outcome.
  apply (proj2 (error_free_iff tick ms_between full_unit console_login
                  empty_state (snd outcome) (verdict_of outcome) eq_refl)).
  exists (VInt 1). split; [reflexivity |]. right.
  intros w f Hin. simpl in Hin.
  repeat (destruct Hin as [Hin | Hin];
          [injection Hin as <- <-; eexists; reflexivity |]).
  contradiction.
Defined.

Lemma full_extraction_witness :
  exists r s',
    Engine.run_detection tick ms_between full_unit console_login empty_state
    = (Ok r, s') /\
    DetectionResult.error r = None /\
    DetectionResult.severity r = VStr "LOW" /\
    List.length (calls s') = 8%nat.
Proof.
  destruct (full_extraction tick ms_between full_unit console_login empty_state
              (VInt 1) eq_refl eq_refl)
    as (r & s' & Hrun & Herr & Hfields & _ & Hcalls).
  - intros w f Hin. simpl in Hin.
    repeat (destruct Hin as [Hin | Hin];
            [injection Hin as <- <-; eexists; reflexivity |]).
    contradiction.
  - exists r, s'. split; [exact Hrun |]. split; [exact Herr |]. split.
    + assert (H : returns (VStr "LOW") console_login
                  = Ok (get_field Severity r)).
      { apply Hfields. simpl. right. left. reflexivity. }
      unfold returns in H. injection H as H. symmetry. exact H.
    + rewrite Hcalls. reflexivity.
Defined.

Section Clock.
Variable now : nat -> Z.
Variable elapsed_ms : Z -> Z -> Z.









(** On a registry as the loader builds it, a non-empty [rule_ids] is
    honoured in the verdicts: each one [run] returns is for a listed
    rule. *)
Theorem run_filter_honoured (events : list pyval) (ids : list string)
  (s s' : State) (results : list DetectionResult.t) :
  registry_ok (detections s) -> ids <> [] ->
  Engine.run now elapsed_ms (EventList events) (Some ids) s = (Ok results, s') ->
  Forall (fun r => In (DetectionResult.rule_id r) ids) results.
Proof.
  intros [_ Hkeys] Hne Hreturned. rewrite run_as_map_exec in Hreturned.
  destruct (map_exec_evaluate
              now elapsed_ms
              (evaluated_pairs (selected (Some ids)) (detections s) events)
              (map_exec_evaluate_ok_inv now elapsed_ms _ s results s' Hreturned)
              s)
    as (results1 & s1 & Hrun & Hpairs & _).
  rewrite Hreturned in Hrun. injection Hrun as <- _.
  apply Forall_forall. intros r Hr.
  apply (in_map verdict_pair) in Hr. rewrite Hpairs in Hr.
  apply in_map_iff in Hr. destruct Hr as ([event d] & Heq & Hin).
  unfold verdict_pair in Heq. simpl in Heq. injection Heq as _ Hid.
  unfold evaluated_pairs in Hin. apply in_flat_map in Hin.
  destruct Hin as (ev & _ & Hin). apply in_map_iff in Hin.
  destruct Hin as ([k d'] & Heq & Hin). simpl in Heq. injection Heq as _ ->.
  apply filter_In in Hin. destruct Hin as [Hin Hsel].
  rewrite <- Hid, (Hkeys k d Hin).
  unfold selected in Hsel. simpl in Hsel.
  destruct ids as [| i ids]; [congruence |]. cbn [rule_ids_truthy negb orb] in Hsel.
  apply andb_prop in Hsel. destruct Hsel as [Hsel _].
  unfold rule_id_in in Hsel. apply existsb_exists in Hsel.
  destruct Hsel as (x & Hx & Heq). apply String.eqb_eq in Heq. now subst x.
Qed.

End Clock.





Lemma run_filter_honoured_witness :
  let outcome :=
    Engine.run tick ms_between (EventList [console_login]) (Some ["b"])
      two_units in
  exists results,
    fst outcome = Ok results /\
    Forall (fun r => In (DetectionResult.rule_id r) ["b"]) results.
Proof.
  intros outcome. eexists. split; [reflexivity |].
  apply (run_filter_honoured tick ms_between [console_login] ["b"] two_units
           (snd outcome)).
  - split.
    + simpl. repeat constructor; simpl; intuition discriminate.
    + intros k d Hin. simpl in Hin.
      destruct Hin as [Hin | [Hin | []]]; injection Hin as <- <-; reflexivity.
  - discriminate.
  - reflexivity.
Defined.

End EngineMoreFacts.

(** ** More on loading *)

Module LoadingFacts.
Import Engine EngineSpec EngineFacts EngineMore DictFacts.




Lemma registry_ok_set (registry : list (string * Detection)) (d : Detection) :
  registry_ok registry -> registry_ok (dict_set registry (rule_id d) d).
Proof.
  intros [Hnodup Hkeys]. split.
  - now apply nodup_keys_set.
  - intros k x Hin. apply in_set in Hin. destruct Hin as [[-> ->] | Hin]; auto.
Qed.

Lemma registry_ok_register_all (units : list Detection) :
  forall registry,
    registry_ok registry -> registry_ok (register_all registry units).
Proof.
  unfold register_all.
  induction units as [| d units IH]; intros registry Hok; simpl; auto.
  apply IH. now apply registry_ok_set.
Qed.

(** The loop of [load_rules] keeps the registry well-formed, wherever it
    ends. *)
Lemma load_rules_loop_keeps_ok (files : list RuleFile) :
  forall loaded s,
    registry_ok (detections s) ->
    registry_ok (detections (snd (for_each load_rules_body files loaded s))).
Proof.
  induction files as [| f files IH]; intros loaded s Hok; cbn [for_each].
  - exact Hok.
  - unfold bind at 1. unfold load_rules_body at 1.
    destruct (String.prefix "_" (name f)).
    + unfold ret at 1. now apply IH.
    + unfold try_except, bind. rewrite load_rule_spec.
      destruct (load_outcome f) as [d | e].
      * unfold ret at 1. apply IH. unfold registered. simpl.
        now apply registry_ok_set.
      * destruct (is_Exception e); [| exact Hok].
        unfold print, ret. apply IH. exact Hok.
Qed.

(** Loading keeps the registry well-formed: identifiers stay unique and
    every detection stays filed under its own [rule_id], after one
    [load_rule] and after a whole [load_rules], failed or not. *)
Theorem loading_keeps_registry_ok (s : State) :
  registry_ok (detections s) ->
  (forall f, registry_ok (detections (snd (load_rule f s)))) /\
  (forall rules_dir, registry_ok (detections (snd (load_rules rules_dir s)))).
Proof.
  intros Hok. split.
  - intros f. rewrite load_rule_spec.
    destruct (load_outcome f) as [d | e]; simpl; [| exact Hok].
    now apply registry_ok_set.
  - intros rules_dir. unfold load_rules.
    destruct (dir_exists rules_dir); cbn [negb].
    + now apply load_rules_loop_keeps_ok.
    + exact Hok.
Qed.

Lemma loading_keeps_registry_ok_witness :
  registry_ok (detections (snd (load_rules sample_dir empty_state))).
Proof.
  refine (proj2 (loading_keeps_registry_ok empty_state _) sample_dir).
  split; [constructor | intros k d []].
Defined.

(** Loading a second source with the stem of one already loaded replaces
    the detection: a lookup gives the later one, and the registry keeps
    its identifiers, in the same order, without a second entry. *)
Theorem last_loaded_wins (f1 f2 : RuleFile) (d1 d2 : Detection) (s : State) :
  load_outcome f1 = Ok d1 -> load_outcome f2 = Ok d2 -> stem f1 = stem f2 ->
  let s1 := snd (load_rule f1 s) in
  let s2 := snd (load_rule f2 s1) in
  dict_find (detections s1) (stem f1) = Some d1 /\
  dict_find (detections s2) (stem f1) = Some d2 /\
  dict_keys (detections s2) = dict_keys (detections s1).
Proof.
  intros H1 H2 Hstem s1 s2. subst s1 s2.
  rewrite (load_rule_spec f1 s), H1. cbn [snd].
  rewrite (load_rule_spec f2 (registered d1 s)), H2. cbn [snd].
  unfold registered. simpl.
  rewrite (load_outcome_rule_id f1 d1 H1), (load_outcome_rule_id f2 d2 H2).
  rewrite <- Hstem. split; [apply find_set_same |].
  split; [apply find_set_same |].
  rewrite (keys_set (dict_set (detections s) (stem f1) d1)).
  unfold dict_contains. now rewrite find_set_same.
Qed.

Lemma last_loaded_wins_witness :
  dict_keys (detections
               (snd (load_rule same_stem_reload
                       (snd (load_rule good_file two_units)))))
  = dict_keys (detections (snd (load_rule good_file two_units))).
Proof.
  apply (last_loaded_wins good_file same_stem_reload
           (make_detection good_file
              (plain_module (Some (returns (VBool true))))
              (returns (VBool true)))
           (make_detection same_stem_reload
              (mk_module (Some (returns (VBool false)))
                 (Some (returns (VStr "t")))
                 None None None None None None None (Some false) None)
              (returns (VBool false)))
           two_units); reflexivity.
Defined.



End LoadingFacts.

(** ** The module-level functions and the dictionary form *)

Module ApiFacts.
Import Engine EngineSpec EngineFacts EngineMore EngineMoreFacts.


Section Clock.
Variable now : nat -> Z.
Variable elapsed_ms : Z -> Z -> Z.



End Clock.



(** The dictionary form of a verdict loses nothing: two verdicts with the
    same dictionary are the same verdict, and the dictionary has the same
    thirteen keys, each once, whatever the verdict. *)
Theorem to_dict_faithful (r1 r2 : DetectionResult.t) :
  (DetectionResult.to_dict r1 = DetectionResult.to_dict r2 <-> r1 = r2) /\
  dict_keys (DetectionResult.to_dict r1)
  = dict_keys (DetectionResult.to_dict r2) /\
  NoDup (dict_keys (DetectionResult.to_dict r1)).
Proof.
  split; [| split].
  - split; [| now intros ->].
    destruct r1 as [a1 b1 c1 d1 e1 f1 g1 h1 i1 j1 k1 l1 m1].
    destruct r2 as [a2 b2 c2 d2 e2 f2 g2 h2 i2 j2 k2 l2 m2].
    unfold DetectionResult.to_dict. simpl. intros H.
    injection H as Ha Hb Hc He Hf Hg Hh Hi Hj Hk Hl Hm Hd.
    subst. f_equal.
    destruct l1, l2; simpl in Hl; congruence.
  - reflexivity.
  - simpl. repeat constructor; simpl; intuition discriminate.
Qed.

Lemma to_dict_faithful_witness :
  DetectionResult.init "a" "a.py" false VNone
  = DetectionResult.set_error None (DetectionResult.init "a" "a.py" false VNone).
Proof.
  apply (proj1 (to_dict_faithful _ _)). reflexivity.
Defined.

End ApiFacts.

(** ** More on schema validation *)

Module SchemasMoreFacts.
Import Schemas SchemasSpec SchemasFacts SchemaRegistry SchemasMore.

Lemma flat_map_nil_iff {A B : Type} (g : A -> list B) (l : list A) :
  flat_map g l = [] <-> forall x, In x l -> g x = [].
Proof.
  induction l as [| x l IH]; simpl.
  - split; [intros _ y [] | reflexivity].
  - split.
    + intros H. apply app_eq_nil in H. destruct H as [Hx Hl].
      intros y [<- | Hy]; [exact Hx | now apply IH].
    + intros H. rewrite (H x (or_introl eq_refl)). apply IH.
      intros y Hy. apply H. now right.
Qed.

(** An event is valid for a schema, that is [validate] returns no error,
    exactly when every required field is a key of the event and every
    declared field that is a key holds [None] or a value of its declared
    type. *)
Theorem validate_empty_iff (self : LogSchema) (event : list (string * pyval)) :
  validate self event = [] <->
  all_required_present self event /\ all_types_right self event.
Proof.
  rewrite validate_errors. split.
  - intros H. apply app_eq_nil in H. destruct H as [Hreq Hty].
    rewrite flat_map_nil_iff in Hreq. rewrite flat_map_nil_iff in Hty. split.
    + intros f Hf. specialize (Hreq f Hf). unfold required_errors in Hreq.
      destruct (dict_contains event f); [reflexivity | discriminate].
    + intros field_name def value Hin Hfind.
      specialize (Hty (field_name, def) Hin). unfold field_errors in Hty.
      simpl in Hty. rewrite Hfind in Hty.
      destruct (_check_type value (type def)); [reflexivity | discriminate].
  - intros [Hreq Hty].
    assert (H1 : flat_map (required_errors event) (required_fields self) = []).
    { apply flat_map_nil_iff. intros f Hf. unfold required_errors.
      now rewrite (Hreq f Hf). }
    assert (H2 : flat_map (field_errors event) (fields self) = []).
    { apply flat_map_nil_iff. intros [field_name def] Hin.
      unfold field_errors. simpl.
      destruct (dict_find event field_name) as [value |] eqn:E; [| reflexivity].
      now rewrite (Hty field_name def value Hin E). }
    now rewrite H1, H2.
Qed.

(** [validate] reads of a schema only the set of required names and the
    type word of each declared field: the [required] flag, the
    description and the nested schema of a [SchemaField], and its [name]
    attribute, change nothing. *)
Theorem validate_reads_only_checks (s1 s2 : LogSchema)
  (event : list (string * pyval)) :
  checks s1 = checks s2 -> validate s1 event = validate s2 event.
Proof.
  unfold checks. intros H. injection H as Hreq Hfields.
  rewrite !validate_errors, Hreq. f_equal.
  assert (Hgen : forall l : list (string * SchemaField),
             flat_map (field_errors event) l
             = flat_map
                 (fun p : string * string =>
                    match dict_find event (fst p) with
                    | Some value =>
                        if _check_type value (snd p) then []
                        else [wrong_type (fst p) (snd p) value]
                    | None => []
                    end)
                 (map (fun item => (fst item, type (snd item))) l)).
  { induction l as [| item l IH]; simpl; [reflexivity |].
    now rewrite IH. }
  now rewrite !Hgen, Hfields.
Qed.

Lemma validate_reads_only_checks_witness :
  validate flagged_schema [("EventID", VStr "1")]
  = validate plain_schema [("EventID", VStr "1")].
Proof. apply validate_reads_only_checks. reflexivity. Defined.

Lemma flat_map_agree {A B : Type} (g h : A -> list B) (l : list A) :
  (forall x, In x l -> g x = h x) -> flat_map g l = flat_map h l.
Proof.
  induction l as [| x l IH]; intros H; simpl; [reflexivity |].
  rewrite (H x (or_introl eq_refl)), IH; [reflexivity |].
  intros y Hy. apply H. now right.
Qed.

Lemma dict_find_app {V : Type} (a b : list (string * V)) (k : string) :
  dict_find (a ++ b) k
  = match dict_find a k with
    | Some v => Some v
    | None => dict_find b k
    end.
Proof.
  induction a as [| [k0 v0] a IH]; simpl; [reflexivity |].
  destruct (String.eqb k0 k); auto.
Qed.

(** [validate] looks only at the keys the schema mentions: two events
    that agree on them get the same errors.  So keys the schema does not
    mention are ignored, whatever they hold. *)
Theorem validate_ignores_unmentioned (self : LogSchema)
  (event other extra : list (string * pyval)) :
  ((forall k, mentioned self k -> dict_find event k = dict_find other k) ->
   validate self event = validate self other) /\
  ((forall k, In k (dict_keys extra) -> ~ mentioned self k) ->
   validate self (event ++ extra) = validate self event).
Proof.
  assert (Hagree : forall e1 e2,
             (forall k, mentioned self k -> dict_find e1 k = dict_find e2 k) ->
             validate self e1 = validate self e2).
  { intros e1 e2 H. rewrite !validate_errors. f_equal.
    - apply flat_map_agree. intros f Hf.
      unfold required_errors, dict_contains.
      rewrite (H f); [reflexivity | now left].
    - apply flat_map_agree. intros [field_name def] Hin.
      unfold field_errors. simpl.
      rewrite (H field_name); [reflexivity |].
      right. apply (in_map fst) in Hin. exact Hin. }
  split; [apply Hagree |].
  intros Hextra. apply Hagree. intros k Hk. rewrite dict_find_app.
  destruct (dict_find event k); [reflexivity |].
  apply DictFacts.find_in_keys. intros Hin. exact (Hextra k Hin Hk).
Qed.

Lemma validate_ignores_unmentioned_witness :
  validate cloudtrail_like ([("eventName", VInt 3)] ++ [("extra", VList [])])
  = validate cloudtrail_like [("eventName", VInt 3)].
Proof.
  apply (proj2 (validate_ignores_unmentioned cloudtrail_like
                  [("eventName", VInt 3)] [] [("extra", VList [])])).
  intros k [<- | []] [H | H]; simpl in H; intuition discriminate.
Defined.

(** The type words nest: what passes as "bool" passes as "int", what
    passes as "int" passes as "float", and "timestamp" accepts what
    "string" accepts; a word outside the seven known ones accepts every
    value. *)
Theorem check_type_nesting (value : pyval) :
  (_check_type value "bool" = true -> _check_type value "int" = true) /\
  (_check_type value "int" = true -> _check_type value "float" = true) /\
  _check_type value "timestamp" = _check_type value "string" /\
  (forall word, type_map_get word = None -> _check_type value word = true).
Proof.
  split; [| split; [| split]].
  - destruct value; simpl; auto.
  - destruct value; simpl; auto.
  - destruct value; reflexivity.
  - intros word H. unfold _check_type. rewrite H.
    destruct (is_None value); reflexivity.
Qed.

Lemma check_type_nesting_witness :
  _check_type (VBool true) "float" = true.
Proof.
  apply (proj1 (proj2 (check_type_nesting (VBool true)))).
  apply (proj1 (check_type_nesting (VBool true))).
  reflexivity.
Defined.

(** ** The schema table *)

Lemma log_type_eqb_eq (a b : LogType) : log_type_eqb a b = true <-> a = b.
Proof.
  split; [| intros ->; destruct b; reflexivity].
  destruct a, b; vm_compute; congruence.
Qed.

Lemma schema_key_eqb_eq (a b : schema_key) : schema_key_eqb a b = true <-> a = b.
Proof.
  destruct a as [x | x], b as [y | y]; simpl.
  - rewrite log_type_eqb_eq. split; congruence.
  - split; discriminate.
  - split; discriminate.
  - rewrite String.eqb_eq. split; congruence.
Qed.

Lemma schemas_get_set_same (table : list (schema_key * LogSchema))
  (key : schema_key) (schema : LogSchema) :
  schemas_get (schemas_set table key schema) key = Some schema.
Proof.
  induction table as [| [k old] rest IH]; simpl.
  - now rewrite (proj2 (schema_key_eqb_eq key key) eq_refl).
  - destruct (schema_key_eqb k key) eqn:E; simpl; rewrite E; auto.
Qed.

Lemma schemas_get_set_other (table : list (schema_key * LogSchema))
  (key other : schema_key) (schema : LogSchema) :
  other <> key ->
  schemas_get (schemas_set table key schema) other = schemas_get table other.
Proof.
  intros Hneq. induction table as [| [k old] rest IH]; simpl.
  - destruct (schema_key_eqb key other) eqn:E; [| reflexivity].
    apply schema_key_eqb_eq in E. congruence.
  - destruct (schema_key_eqb k key) eqn:E; simpl.
    + apply schema_key_eqb_eq in E. subst k.
      destruct (schema_key_eqb key other) eqn:E2; [| reflexivity].
      apply schema_key_eqb_eq in E2. congruence.
    + destruct (schema_key_eqb k other); auto.
Qed.

(** [add_custom_schema] files the new schema under the name given, where
    a lookup by that name finds it, and returns [LogType.CUSTOM_JSON].
    No lookup by a [LogType] member is changed by it, so [validate_event]
    with the returned log type does not apply the custom schema: against
    the built-in table it still accepts every event. *)
Theorem custom_schema_filed_by_name (table : list (schema_key * LogSchema))
  (log_type_name description : string) (fields : list (string * field_def))
  (required_fields : option (list string)) (timestamp_field : string) :
  let result := add_custom_schema table log_type_name description fields
                  required_fields timestamp_field in
  snd result = CUSTOM_JSON /\
  (exists schema,
      get_schema (fst result) (ByName log_type_name) = Some schema /\
      log_type schema = CUSTOM_JSON /\
      (forall f, In f (Schemas.required_fields schema) <->
                 exists l, required_fields = Some l /\ In f l)) /\
  (forall t event,
      validate_event (fst result) event (ByType t)
      = validate_event table event (ByType t)) /\
  (forall event,
      validate_event
        (fst (add_custom_schema SCHEMAS log_type_name description fields
                required_fields timestamp_field))
        event (ByType CUSTOM_JSON) = []).
Proof.
  intros result. subst result. unfold add_custom_schema. cbn [fst snd].
  split; [reflexivity |]. split; [| split].
  - eexists. unfold get_schema. rewrite schemas_get_set_same.
    split; [reflexivity |]. split; [reflexivity |]. simpl.
    intros f. unfold required_set. destruct required_fields as [l |].
    + rewrite nodup_In. split; [eauto |].
      intros (l' & Hl & Hin). now injection Hl as <-.
    + split; [intros [] | intros (l & Hl & _); discriminate].
  - intros t event. unfold validate_event, get_schema.
    rewrite schemas_get_set_other; [reflexivity | discriminate].
  - intros event. unfold validate_event, get_schema.
    rewrite schemas_get_set_other; [reflexivity | discriminate].
Qed.

(** The table the module starts with holds six schemas, each filed under
    its own log type, with every field filed under its own name and every
    required name declared and marked required.  The other six log types
    have no schema, and [validate_event] accepts every event for them. *)
Theorem builtin_schemas (event : list (string * pyval)) :
  Forall entry_ok SCHEMAS /\
  map fst SCHEMAS
  = map ByType [AWS_CLOUDTRAIL; AWS_GUARDDUTY; OKTA_SYSTEM_LOG; GITHUB_AUDIT;
                SYSMON; OSQUERY] /\
  (forall t,
      In t [AWS_S3_SERVER_ACCESS; AWS_VPC_FLOW; AWS_ALB; GCP_AUDIT; AUDITD;
            CUSTOM_JSON] ->
      get_schema SCHEMAS (ByType t) = None /\
      validate_event SCHEMAS event (ByType t) = []).
Proof.
  split; [| split].
  - repeat constructor; simpl;
      try (intros field_name def Hin;
           repeat (destruct Hin as [Hin | Hin];
                   [injection Hin as <- <-; reflexivity |]);
           contradiction);
      try (intros f Hin;
           repeat (destruct Hin as [<- | Hin];
                   [eexists; split; reflexivity |]);
           contradiction).
  - reflexivity.
  - intros t Hin. simpl in Hin.
    repeat (destruct Hin as [<- | Hin]; [split; reflexivity |]).
    contradiction.
Qed.

Lemma builtin_schemas_witness :
  get_schema SCHEMAS (ByType GCP_AUDIT) = None /\
  validate_event SCHEMAS [("anything", VInt 1)] (ByType GCP_AUDIT) = [].
Proof.
  apply (proj2 (proj2 (builtin_schemas [("anything", VInt 1)]))).
  simpl. auto.
Defined.

End SchemasMoreFacts.

(** ** More on field access *)

Module HelpersMoreFacts.
Import Helpers HelpersSpec HelpersFacts HelpersMore HelpersMoreSpec.

(** Induction on a value with the hypothesis available for every item of
    a sequence and every value of a mapping. *)
Lemma pyval_nested_ind (P : pyval -> Prop) :
  P VNone ->
  (forall b, P (VBool b)) ->
  (forall n, P (VInt n)) ->
  (forall bits, P (VFloat bits)) ->
  (forall s, P (VStr s)) ->
  (forall items, Forall P items -> P (VList items)) ->
  (forall entries, Forall (fun kv => P (snd kv)) entries -> P (VDict entries)) ->
  forall v, P v.
Proof.
  intros HNone HBool HInt HFloat HStr HList HDict.
  fix IH 1. intros v. destruct v as [| b | n | bits | s | items | entries].
  - exact HNone.
  - apply HBool.
  - apply HInt.
  - apply HFloat.
  - apply HStr.
  - apply HList. induction items as [| item items IHitems]; constructor.
    + apply IH.
    + exact IHitems.
  - apply HDict. induction entries as [| [k v] entries IHentries]; constructor.
    + apply IH.
    + exact IHentries.
Qed.

(** With a default that is not [None], [deep_get] never returns [None]:
    a [None] in the event reads as the default. *)
Theorem deep_get_not_None (event : pyval) (keys : list pykey) (default : pyval) :
  is_None default = false ->
  exists v, deep_get event keys default = Ok v /\ is_None v = false.
Proof.
  intros Hd. unfold deep_get.
  destruct (deep_get_for event keys default) as [[r | v] | e] eqn:E.
  - destruct (is_None r) eqn:Hr; eauto.
  - apply deep_get_for_return in E. subst v. eauto.
  - destruct (deep_get_for_ok keys event default) as [fl Hfl]. congruence.
Qed.

Lemma deep_get_not_None_witness :
  exists v,
    deep_get (VDict [("a", VNone)]) [KStr "a"] (VStr "n/a") = Ok v /\
    is_None v = false.
Proof. apply deep_get_not_None. reflexivity. Defined.

Lemma _walk_None (return_val : string) (keys : list pykey) :
  _walk return_val VNone keys = [].
Proof.
  destruct keys; simpl; [| reflexivity].
  destruct (String.eqb return_val "key"); reflexivity.
Qed.

(** The elements [_walk] collects are never [None]. *)
Lemma _walk_not_None (return_val : string) (obj : pyval) :
  forall keys,
    Forall (fun v => is_None v = false) (_walk return_val obj keys).
Proof.
  induction obj as [| b | n | bits | s | items IH | entries IH]
    using pyval_nested_ind; intros keys.
  1-5: destruct keys; simpl; [| constructor];
       destruct (String.eqb return_val "key"); repeat constructor.
  - destruct keys as [| key rest].
    + simpl. destruct (String.eqb return_val "key"); repeat constructor.
    + rewrite _walk_list. induction IH as [| item items Hitem _ IHitems]; simpl.
      * constructor.
      * apply Forall_app. split; [apply Hitem | exact IHitems].
  - destruct keys as [| key rest].
    + simpl. destruct (String.eqb return_val "key"); [| repeat constructor].
      apply Forall_forall. intros v Hv. apply in_map_iff in Hv.
      destruct Hv as (k & <- & _). reflexivity.
    + destruct key as [s | i]; [| constructor].
      rewrite _walk_dict.
      destruct (dict_find entries s) as [v |] eqn:E; [| constructor].
      rewrite Forall_forall in IH.
      assert (Hin : exists k, In (k, v) entries).
      { clear IH. induction entries as [| [k0 v0] entries IHe];
          [discriminate |]. simpl in E.
        destruct (String.eqb k0 s).
        - injection E as ->. exists k0. now left.
        - destruct (IHe E) as [k Hk]. exists k. now right. }
      destruct Hin as [k Hk]. exact (IH (k, v) Hk rest).
Qed.

(** [deep_walk] never returns [None].  With the default left at [None]
    it always returns a list, and no element of it is [None]; in key mode
    every element is a string. *)
Theorem deep_walk_never_None (event : pyval) (keys : list pykey)
  (default : pyval) (return_val : string) :
  is_None (deep_walk event keys default return_val) = false /\
  (is_None default = true ->
   deep_walk event keys default return_val
   = VList (_walk return_val event keys)) /\
  Forall (fun v => is_None v = false) (_walk return_val event keys) /\
  (return_val = "key" ->
   Forall (fun v => is_str v = true) (_walk return_val event keys)).
Proof.
  split; [| split; [| split]].
  - unfold deep_walk. destruct (_walk return_val event keys); [| reflexivity].
    destruct (is_None default) eqn:E; [reflexivity | exact E].
  - intros Hd. unfold deep_walk.
    destruct (_walk return_val event keys); [| reflexivity].
    now rewrite Hd.
  - apply _walk_not_None.
  - intros ->. revert keys.
    induction event as [| b | n | bits | s | items IH | entries IH]
      using pyval_nested_ind; intros keys.
    1-5: destruct keys; simpl; constructor.
    + destruct keys as [| key rest]; [simpl; constructor |].
      rewrite _walk_list. induction IH as [| item items Hitem _ IHitems]; simpl.
      * constructor.
      * apply Forall_app. split; [apply Hitem | exact IHitems].
    + destruct keys as [| key rest].
      * simpl. apply Forall_forall. intros v Hv. apply in_map_iff in Hv.
        destruct Hv as (k & <- & _). reflexivity.
      * destruct key as [s | i]; [| constructor].
        rewrite _walk_dict.
        destruct (dict_find entries s) as [v |] eqn:E; [| constructor].
        rewrite Forall_forall in IH.
        assert (Hin : exists k, In (k, v) entries).
        { clear IH. induction entries as [| [k0 v0] entries IHe];
            [discriminate |]. simpl in E.
          destruct (String.eqb k0 s).
          - injection E as ->. exists k0. now left.
          - destruct (IHe E) as [k Hk]. exists k. now right. }
        destruct Hin as [k Hk]. exact (IH (k, v) Hk rest).
Qed.

Lemma deep_walk_never_None_witness :
  deep_walk (VDict [("a", VList [VNone; VInt 1])]) [KStr "a"] VNone "value"
  = VList (_walk "value" (VDict [("a", VList [VNone; VInt 1])]) [KStr "a"]).
Proof.
  apply (proj1 (proj2 (deep_walk_never_None _ _ _ _))). reflexivity.
Defined.

(** Nesting and concatenation of sequences do not show in what a path
    collects: walking a concatenation gives the concatenation of the
    walks, and a sequence inside a sequence is walked like its items. *)
Theorem walk_flattens (return_val : string) (key : pykey) (rest : list pykey)
  (items more : list pyval) :
  _walk return_val (VList (items ++ more)) (key :: rest)
  = _walk return_val (VList items) (key :: rest)
    ++ _walk return_val (VList more) (key :: rest) /\
  _walk return_val (VList (VList items :: more)) (key :: rest)
  = _walk return_val (VList (items ++ more)) (key :: rest).
Proof.
  split.
  - rewrite !_walk_list. apply flat_map_app.
  - rewrite (_walk_list return_val (VList items :: more)). cbn [flat_map].
    rewrite (_walk_list return_val items), (_walk_list return_val (items ++ more)).
    now rewrite flat_map_app.
Qed.

Lemma no_list_on_path_step (event : pyval) (key : pykey) (rest : list pykey)
  (v : pyval) :
  no_list_on_path event (key :: rest) ->
  deep_get_body event key VNone = Ok (Next v) ->
  no_list_on_path v rest.
Proof.
  intros H Hbody pre k rest' node Hsplit Hpre.
  apply (H (key :: pre) k rest' node).
  - simpl. now rewrite Hsplit.
  - simpl. now rewrite Hbody.
Qed.

Lemma deep_get_body_dict (entries : list (string * pyval)) (s : string)
  (default : pyval) :
  deep_get_body (VDict entries) (KStr s) default
  = match dict_find entries s with
    | Some v => if is_None v then Ok (Return default) else Ok (Next v)
    | None => Ok (Return default)
    end.
Proof.
  unfold deep_get_body. simpl. destruct (dict_find entries s); reflexivity.
Qed.

Lemma walk_agrees_on_path (return_val : string) (keys : list pykey) :
  String.eqb return_val "key" = false ->
  forall event,
    no_list_on_path event keys ->
    _walk return_val event keys = found (deep_get event keys VNone).
Proof.
  intros Hmode. induction keys as [| key rest IH]; intros event Hpath.
  - destruct event; simpl; rewrite Hmode; reflexivity.
  - assert (Hlist : is_list event = false).
    { apply (Hpath [] key rest event); reflexivity. }
    destruct event as [| b | n | bits | s | items | entries];
      try reflexivity; [discriminate |].
    destruct key as [s | i]; [| reflexivity].
    rewrite _walk_dict.
    pose proof (deep_get_body_dict entries s VNone) as Hbody.
    destruct (dict_find entries s) as [v |] eqn:E.
    + destruct (is_None v) eqn:Hv.
      * destruct v; try discriminate. rewrite _walk_None.
        unfold deep_get. cbn [deep_get_for]. rewrite Hbody. reflexivity.
      * rewrite (IH v (no_list_on_path_step _ _ _ _ Hpath Hbody)).
        unfold deep_get. cbn [deep_get_for]. rewrite Hbody. reflexivity.
    + unfold deep_get. cbn [deep_get_for]. rewrite Hbody. reflexivity.
Qed.

(** As long as no sequence lies on the path, [deep_walk] in value mode
    finds what [deep_get] finds: the one value, in a list, or nothing. *)
Theorem walk_agrees_with_get (event : pyval) (keys : list pykey)
  (return_val : string) :
  String.eqb return_val "key" = false ->
  no_list_on_path event keys ->
  deep_walk event keys VNone return_val
  = VList (found (deep_get event keys VNone)).
Proof.
  intros Hmode Hpath.
  assert (Hlist : deep_walk event keys VNone return_val
                  = VList (_walk return_val event keys)).
  { unfold deep_walk. destruct (_walk return_val event keys); reflexivity. }
  rewrite Hlist.
  now rewrite (walk_agrees_on_path return_val keys Hmode event Hpath).
Qed.

Lemma walk_agrees_with_get_witness :
  deep_walk (VDict [("userIdentity", VDict [("type", VStr "Root")])])
    [KStr "userIdentity"; KStr "type"] VNone "value"
  = VList (found (deep_get
                    (VDict [("userIdentity", VDict [("type", VStr "Root")])])
                    [KStr "userIdentity"; KStr "type"] VNone)).
Proof.
  apply walk_agrees_with_get; [reflexivity |].
  intros pre key rest node Hsplit Hpre.
  destruct pre as [| k1 [| k2 [| k3 pre]]]; simpl in Hsplit.
  - injection Hpre as <-. reflexivity.
  - injection Hsplit as <- _ _. simpl in Hpre. injection Hpre as <-. reflexivity.
  - discriminate Hsplit.
  - discriminate Hsplit.
Defined.

(** ** GuardDuty context *)

Lemma deep_get_total (event : pyval) (keys : list pykey) (default : pyval) :
  exists v, deep_get event keys default = Ok v.
Proof.
  unfold deep_get.
  destruct (deep_get_for_ok keys event default) as [[r | v] E]; rewrite E; eauto.
Qed.

Lemma deep_get_under_detail (detail : pyval) (suffix : list pykey) :
  deep_get (VDict [("detail", detail)]) (KStr "detail" :: suffix) VNone
  = deep_get detail suffix VNone.
Proof.
  unfold deep_get. cbn [deep_get_for]. rewrite deep_get_body_dict. simpl.
  destruct (is_None detail) eqn:E; [| reflexivity].
  destruct detail; try discriminate.
  destruct suffix; reflexivity.
Qed.

Lemma deep_get_via_detail (event detail : pyval) (suffix : list pykey) :
  deep_get event [KStr "detail"] VNone = Ok detail ->
  deep_get event (KStr "detail" :: suffix) VNone = deep_get detail suffix VNone.
Proof.
  intros H.
  change (KStr "detail" :: suffix) with ([KStr "detail"] ++ suffix).
  rewrite <- compose_with_default_None, H. reflexivity.
Qed.

(** [aws_guardduty_context] never raises and always returns the same five
    keys.  It depends on the event only through its "detail" entry, and
    an event whose "detail" is missing or is not a mapping gives [None]
    for all five. *)
Theorem guardduty_context_reads_detail (event : pyval) :
  exists detail finding_type severity account_id region resource_type,
    deep_get event [KStr "detail"] VNone = Ok detail /\
    aws_guardduty_context event
    = Ok (VDict [ ("finding_type", finding_type); ("severity", severity);
                  ("account_id", account_id); ("region", region);
                  ("resource_type", resource_type) ]) /\
    aws_guardduty_context (VDict [("detail", detail)])
    = aws_guardduty_context event /\
    (is_dict detail = false ->
     finding_type = VNone /\ severity = VNone /\ account_id = VNone /\
     region = VNone /\ resource_type = VNone).
Proof.
  destruct (deep_get_total event [KStr "detail"] VNone) as [detail Hdetail].
  destruct (deep_get_total detail [KStr "type"] VNone) as [v1 H1].
  destruct (deep_get_total detail [KStr "severity"] VNone) as [v2 H2].
  destruct (deep_get_total detail [KStr "accountId"] VNone) as [v3 H3].
  destruct (deep_get_total detail [KStr "region"] VNone) as [v4 H4].
  destruct (deep_get_total detail [KStr "resource"; KStr "resourceType"] VNone)
    as [v5 H5].
  exists detail, v1, v2, v3, v4, v5.
  unfold aws_guardduty_context.
  rewrite (deep_get_via_detail event detail [KStr "type"] Hdetail).
  rewrite (deep_get_via_detail event detail [KStr "severity"] Hdetail).
  rewrite (deep_get_via_detail event detail [KStr "accountId"] Hdetail).
  rewrite (deep_get_via_detail event detail [KStr "region"] Hdetail).
  rewrite (deep_get_via_detail event detail
             [KStr "resource"; KStr "resourceType"] Hdetail).
  rewrite !deep_get_under_detail.
  rewrite H1, H2, H3, H4, H5. simpl.
  split; [exact Hdetail |]. split; [reflexivity |]. split; [reflexivity |].
  intros Hnd.
  destruct detail; try discriminate;
    unfold deep_get in H1, H2, H3, H4, H5; simpl in H1, H2, H3, H4, H5;
    injection H1 as <-; injection H2 as <-; injection H3 as <-;
    injection H4 as <-; injection H5 as <-; repeat split.
Qed.

Lemma guardduty_context_reads_detail_witness :
  aws_guardduty_context (VDict [("source", VStr "aws.guardduty")])
  = Ok (VDict [ ("finding_type", VNone); ("severity", VNone);
                ("account_id", VNone); ("region", VNone);
                ("resource_type", VNone) ]).
Proof.
  destruct (guardduty_context_reads_detail
              (VDict [("source", VStr "aws.guardduty")]))
    as (detail & v1 & v2 & v3 & v4 & v5 & Hd & Hctx & _ & Hnone).
  rewrite Hctx. injection Hd as <-.
  destruct (Hnone eq_refl) as (-> & -> & -> & -> & ->). reflexivity.
Defined.

(** ** ARN parsing *)

Lemma split_nonempty (sep : ascii) (s : string) (n : nat) :
  split sep s n <> [].
Proof.
  destruct s as [| c rest]; simpl; [discriminate |].
  destruct n; [discriminate |].
  destruct (Ascii.eqb c sep); [discriminate |].
  destruct (split sep rest (S n)); discriminate.
Qed.

Lemma split_zero (sep : ascii) (s : string) : split sep s 0 = [s].
Proof. destruct s; reflexivity. Qed.

Lemma join_cons (sep : ascii) (p : string) (rest : list string) :
  rest <> [] ->
  join sep (p :: rest) = (p ++ String sep (join sep rest))%string.
Proof. destruct rest; [congruence | reflexivity]. Qed.

Lemma join_cons_char (sep c : ascii) (head : string) (tail : list string) :
  join sep (String c head :: tail) = String c (join sep (head :: tail)).
Proof. destruct tail; reflexivity. Qed.

(** Joining the parts of a split gives the string back. *)
Lemma join_split (sep : ascii) (s : string) :
  forall n, join sep (split sep s n) = s.
Proof.
  induction s as [| c rest IH]; intros n; simpl; [reflexivity |].
  destruct n as [| fewer]; [reflexivity |].
  destruct (Ascii.eqb c sep) eqn:E.
  - apply Ascii.eqb_eq in E. subst c.
    rewrite join_cons by apply split_nonempty. simpl. now rewrite IH.
  - specialize (IH (S fewer)).
    destruct (split sep rest (S fewer)) as [| head tail] eqn:Hs.
    + exfalso. exact (split_nonempty sep rest (S fewer) Hs).
    + rewrite join_cons_char. now rewrite IH.
Qed.

(** A split makes one part more than it makes cuts: as many cuts as
    there are separators, up to [maxsplit]. *)
Lemma split_length (sep : ascii) (s : string) :
  forall n, List.length (split sep s n) = S (Nat.min n (occurrences sep s)).
Proof.
  induction s as [| c rest IH]; intros n; simpl.
  - now rewrite Nat.min_0_r.
  - destruct n as [| fewer]; [reflexivity |].
    destruct (Ascii.eqb c sep) eqn:E; simpl.
    + now rewrite IH.
    + specialize (IH (S fewer)).
      destruct (split sep rest (S fewer)) as [| head tail] eqn:Hs.
      * exfalso. exact (split_nonempty sep rest (S fewer) Hs).
      * simpl in *. exact IH.
Qed.

(** The parts before the last possible cut hold no separator. *)
Lemma split_parts_free (sep : ascii) (s : string) :
  forall n, Forall (fun p => free_of sep p = true) (firstn n (split sep s n)).
Proof.
  induction s as [| c rest IH]; intros n; simpl.
  - destruct n; simpl; [constructor | rewrite firstn_nil; repeat constructor].
  - destruct n as [| fewer]; [constructor |].
    destruct (Ascii.eqb c sep) eqn:E.
    + simpl. constructor; [reflexivity | apply IH].
    + specialize (IH (S fewer)).
      destruct (split sep rest (S fewer)) as [| head tail] eqn:Hs.
      * exfalso. exact (split_nonempty sep rest (S fewer) Hs).
      * simpl in *. inversion IH as [| ? ? Hhead Htail]; subst.
        constructor; [| exact Htail]. simpl. now rewrite E, Hhead.
Qed.

(** A separator-free string followed by a separator is cut off whole. *)
Lemma split_free_prefix (sep : ascii) (a b : string) (n : nat) :
  free_of sep a = true ->
  split sep (a ++ String sep b) (S n) = a :: split sep b n.
Proof.
  induction a as [| c a IH]; simpl; intros Hfree.
  - now rewrite Ascii.eqb_refl.
  - apply andb_prop in Hfree. destruct Hfree as [Hc Ha].
    apply negb_true_iff in Hc. rewrite Hc, (IH Ha). reflexivity.
Qed.

Lemma prefix_app (p s : string) :
  String.prefix p s = true -> exists t, s = (p ++ t)%string.
Proof.
  revert s. induction p as [| c p IH]; intros s H.
  - exists s. reflexivity.
  - destruct s as [| c' s]; simpl in H; [discriminate |].
    destruct (ascii_dec c c') as [<- | Hneq]; [| discriminate].
    destruct (IH s H) as [t ->]. exists t. reflexivity.
Qed.

Lemma arn_split (t : string) :
  split colon ("arn:" ++ t) 5 = "arn" :: split colon t 4.
Proof. reflexivity. Qed.

(** What [aws_arn_parse] returns is the ARN taken apart: putting the five
    fields back behind "arn", with colons between, gives the string
    parsed, and partition, service, region and account hold no colon
    (the resource may). *)
Theorem arn_parse_then_join (s : string) (fields : list (string * pyval)) :
  aws_arn_parse (VStr s) = Ok (VDict fields) ->
  exists partition service region account resource,
    VDict fields = arn_fields partition service region account resource /\
    s = arn_of partition service region account resource /\
    free_of colon partition = true /\ free_of colon service = true /\
    free_of colon region = true /\ free_of colon account = true.
Proof.
  unfold aws_arn_parse.
  destruct (negb (truthy (VStr s))); [discriminate |].
  destruct (String.prefix "arn:" s) eqn:Hprefix; [| discriminate].
  cbn [negb].
  destruct (prefix_app _ _ Hprefix) as [t ->].
  rewrite arn_split.
  assert (Hlen : (List.length (split colon t 4) <= 5)%nat)
    by (rewrite split_length; lia).
  pose proof (join_split colon t 4) as Hjoin.
  pose proof (split_parts_free colon t 4) as Hfree.
  destruct (split colon t 4) as [| p [| sv [| r [| a [| rs [| extra more]]]]]];
    simpl in Hlen; simpl; try (intros H; discriminate H); try (exfalso; lia).
  intros H. injection H as <-.
  exists p, sv, r, a, rs. split; [reflexivity |].
  simpl in Hfree.
  inversion Hfree as [| ? ? Hp H1]; subst.
  inversion H1 as [| ? ? Hsv H2]; subst.
  inversion H2 as [| ? ? Hr H3]; subst.
  inversion H3 as [| ? ? Ha _]; subst.
  split; [| auto].
  reflexivity.
Qed.

Lemma arn_parse_then_join_witness :
  exists partition service region account resource,
    VDict [ ("partition", VStr "aws"); ("service", VStr "iam");
            ("region", VStr EmptyString); ("account", VStr "123456789012");
            ("resource", VStr "user/admin") ]
    = arn_fields partition service region account resource /\
    "arn:aws:iam::123456789012:user/admin"
    = arn_of partition service region account resource /\
    free_of colon partition = true /\ free_of colon service = true /\
    free_of colon region = true /\ free_of colon account = true.
Proof.
  apply (arn_parse_then_join "arn:aws:iam::123456789012:user/admin").
  reflexivity.
Defined.

(** An ARN put together from colon-free partition, service, region and
    account and any resource, which may hold colons, parses back into
    exactly those five fields. *)
Theorem arn_join_then_parse (partition service region account resource : string) :
  free_of colon partition = true -> free_of colon service = true ->
  free_of colon region = true -> free_of colon account = true ->
  aws_arn_parse (VStr (arn_of partition service region account resource))
  = Ok (arn_fields partition service region account resource).
Proof.
  intros Hp Hsv Hr Ha. unfold arn_of.
  set (tail := (partition ++ String colon
                  (service ++ String colon
                     (region ++ String colon
                        (account ++ String colon resource))))%string).
  change (join colon ["arn"; partition; service; region; account; resource])
    with ("arn:" ++ tail)%string.
  unfold aws_arn_parse.
  change (negb (truthy (VStr ("arn:" ++ tail)))) with false. cbv iota.
  assert (Hprefix : String.prefix "arn:" ("arn:" ++ tail) = true)
    by (simpl; destruct tail; reflexivity).
  rewrite Hprefix. cbn [negb]. rewrite arn_split. unfold tail.
  rewrite (split_free_prefix colon partition _ 3 Hp).
  rewrite (split_free_prefix colon service _ 2 Hsv).
  rewrite (split_free_prefix colon region _ 1 Hr).
  rewrite (split_free_prefix colon account _ 0 Ha).
  rewrite split_zero. reflexivity.
Qed.

Lemma arn_join_then_parse_witness :
  aws_arn_parse (VStr (arn_of "aws" "s3" EmptyString EmptyString "bucket:with:colons"))
  = Ok (arn_fields "aws" "s3" EmptyString EmptyString "bucket:with:colons").
Proof. apply arn_join_then_parse; reflexivity. Defined.

(** On a string [aws_arn_parse] never raises, and it returns [None]
    exactly when the string does not start with "arn:" or holds fewer
    than five colons.  [None] itself parses to [None]. *)
Theorem arn_parse_None_iff (s : string) :
  aws_arn_parse VNone = Ok VNone /\
  exists r,
    aws_arn_parse (VStr s) = Ok r /\
    (r = VNone <->
     String.prefix "arn:" s = false \/ (occurrences colon s < 5)%nat).
Proof.
  split; [reflexivity |].
  unfold aws_arn_parse.
  destruct (truthy (VStr s)) eqn:Htruthy; cbn [negb].
  - destruct (String.prefix "arn:" s) eqn:Hprefix; cbn [negb].
    + pose proof (split_length colon s 5) as Hlen.
      destruct (List.length (split colon s 5) <? 6)%nat eqn:Hlt.
      * exists VNone. split; [reflexivity |]. split; [| reflexivity].
        intros _. right. apply Nat.ltb_lt in Hlt. lia.
      * eexists. split; [reflexivity |]. split; [discriminate |].
        intros [H | H]; [discriminate |].
        apply Nat.ltb_ge in Hlt. lia.
    + exists VNone. split; [reflexivity |]. split; auto.
  - exists VNone. split; [reflexivity |]. split; [| reflexivity].
    intros _. left. simpl in Htruthy. apply negb_false_iff in Htruthy.
    apply String.eqb_eq in Htruthy. subst s. reflexivity.
Qed.

(** ** Networks and patterns *)

Section Networks.
Variable address : Type.
Variable network : Type.
Variable ip_address : pyval -> res address.
Variable ip_network : string -> res network.
Variable contains : network -> address -> bool.

(** Every address [is_dmz_ip] accepts, [is_internal_ip] accepts too, and
    where the first raises so does the second, with the same exception.
    An address the library rejects with ValueError is in neither. *)
Theorem dmz_is_internal (ip : pyval) :
  (is_dmz_ip address network ip_address ip_network contains ip = Ok true ->
   is_internal_ip address network ip_address ip_network contains ip = Ok true) /\
  (forall e,
      is_dmz_ip address network ip_address ip_network contains ip = Raise e ->
      is_internal_ip address network ip_address ip_network contains ip
      = Raise e) /\
  (forall e,
      ip_address ip = Raise e -> exc_type e = "ValueError" ->
      is_dmz_ip address network ip_address ip_network contains ip = Ok false /\
      is_internal_ip address network ip_address ip_network contains ip
      = Ok false).
Proof.
  unfold is_dmz_ip, is_internal_ip, dmz_ranges, private_ranges.
  split; [| split].
  - simpl.
    destruct (is_ip_in_network address network ip_address ip_network contains
                ip "10.0.0.0/8") as [[|] | e1]; try discriminate; auto.
    destruct (is_ip_in_network address network ip_address ip_network contains
                ip "172.16.0.0/12") as [[|] | e2]; try discriminate; auto.
    destruct (is_ip_in_network address network ip_address ip_network contains
                ip "192.168.0.0/16") as [[|] | e3]; try discriminate; auto.
  - intros e. simpl.
    destruct (is_ip_in_network address network ip_address ip_network contains
                ip "10.0.0.0/8") as [[|] | e1]; try discriminate; auto.
    destruct (is_ip_in_network address network ip_address ip_network contains
                ip "172.16.0.0/12") as [[|] | e2]; try discriminate; auto.
    destruct (is_ip_in_network address network ip_address ip_network contains
                ip "192.168.0.0/16") as [[|] | e3]; try discriminate; auto.
  - intros e He Hty.
    assert (Hnet : forall net,
               is_ip_in_network address network ip_address ip_network contains
                 ip net = Ok false).
    { intros net. unfold is_ip_in_network. rewrite He. simpl.
      unfold exn_is_one_of. simpl. rewrite Hty. reflexivity. }
    simpl. rewrite !Hnet. auto.
Qed.

End Networks.

Lemma dmz_is_internal_witness :
  is_internal_ip unit unit (fun _ => Ok tt) (fun _ => Ok tt) (fun _ _ => true)
    (VStr "10.1.2.3") = Ok true.
Proof.
  apply (proj1 (dmz_is_internal unit unit (fun _ => Ok tt) (fun _ => Ok tt)
                  (fun _ _ => true) (VStr "10.1.2.3"))).
  reflexivity.
Defined.

Section Patterns.
Variable fnmatch : string -> string -> bool.
Variable py_str : pyval -> string.

(** [pattern_match_list] is true exactly when the value is not [None]
    and at least one of the patterns matches it; [None] matches no
    pattern and no list of patterns, and an empty list matches nothing. *)
Theorem pattern_match_list_iff (value : pyval) (patterns : list string) :
  (pattern_match_list fnmatch py_str value patterns = true <->
   is_None value = false /\
   exists p, In p patterns /\ pattern_match fnmatch py_str value p = true) /\
  pattern_match_list fnmatch py_str VNone patterns = false /\
  pattern_match_list fnmatch py_str value [] = false /\
  (forall p, pattern_match fnmatch py_str VNone p = false).
Proof.
  split; [| split; [| split]].
  - unfold pattern_match_list. destruct (is_None value) eqn:E.
    + split; [discriminate | intros [H _]; discriminate].
    + rewrite existsb_exists. split; [auto | tauto].
  - reflexivity.
  - unfold pattern_match_list. destruct (is_None value); reflexivity.
  - reflexivity.
Qed.

End Patterns.

End HelpersMoreFacts.

(** ** The rule modules *)

Module RulesFacts.
Import Helpers Engine EngineSpec EngineMore HelpersMoreSpec Rules RulesSpec.

(** *** Two keys deep *)

Lemma deep_get_pair (entries : list (string * pyval)) (outer inner : string)
  (default : pyval) :
  deep_get (VDict entries) [KStr outer; KStr inner] default
  = Ok (match dict_find entries outer with
        | Some (VDict inner_entries) =>
            match dict_find inner_entries inner with
            | Some v => if is_None v then default else v
            | None => default
            end
        | _ => default
        end).
Proof.
  unfold deep_get. cbn [deep_get_for].
  rewrite HelpersMoreFacts.deep_get_body_dict.
  destruct (dict_find entries outer) as [x |]; [| reflexivity].
  destruct x as [| b | n | bits | s | items | inner_entries]; try reflexivity.
  cbn [is_None]. rewrite HelpersMoreFacts.deep_get_body_dict.
  destruct (dict_find inner_entries inner) as [v |]; [| reflexivity].
  destruct (is_None v) eqn:E; [reflexivity |]. cbn [deep_get_for]. now rewrite E.
Qed.

Lemma deep_get_pair_nested (entries : list (string * pyval))
  (outer inner : string) (default v : pyval) :
  nested entries outer inner v ->
  deep_get (VDict entries) [KStr outer; KStr inner] default
  = Ok (if is_None v then default else v).
Proof.
  intros (inner_entries & Houter & Hinner).
  now rewrite deep_get_pair, Houter, Hinner.
Qed.

Lemma deep_get_pair_missing (entries : list (string * pyval))
  (outer inner : string) (default : pyval) :
  (forall v, nested entries outer inner v -> v = VNone) ->
  deep_get (VDict entries) [KStr outer; KStr inner] default = Ok default.
Proof.
  intros Hnone. rewrite deep_get_pair. f_equal.
  destruct (dict_find entries outer) as [x |] eqn:Houter; [| reflexivity].
  destruct x as [| b | n | bits | s | items | inner_entries]; try reflexivity.
  destruct (dict_find inner_entries inner) as [v |] eqn:Hinner; [| reflexivity].
  rewrite (Hnone v); [reflexivity |]. exists inner_entries. auto.
Qed.

Lemma equals_str_iff (v : pyval) (s : string) :
  equals_str v s = true <-> v = VStr s.
Proof.
  destruct v; simpl; try (split; discriminate).
  rewrite String.eqb_eq. split; congruence.
Qed.

Lemma deep_get_pair_str (entries : list (string * pyval))
  (outer inner s : string) :
  exists v,
    deep_get (VDict entries) [KStr outer; KStr inner] VNone = Ok v /\
    (equals_str v s = true <-> nested entries outer inner (VStr s)).
Proof.
  rewrite deep_get_pair. eexists. split; [reflexivity |].
  rewrite equals_str_iff. unfold nested.
  destruct (dict_find entries outer) as [x |].
  - destruct x as [| b | n | bits | t | items | inner_entries];
      try (split; [discriminate | intros (m & H & _); discriminate]).
    destruct (dict_find inner_entries inner) as [v |] eqn:Hinner.
    + split.
      * intros H. exists inner_entries. split; [reflexivity |].
        rewrite Hinner.
        destruct v; simpl in H; try discriminate; now rewrite H.
      * intros (m & Hm & Hv). injection Hm as <-.
        rewrite Hinner in Hv. injection Hv as Hv.
        rewrite Hv. reflexivity.
    + split; [discriminate |].
      intros (m & Hm & Hv). injection Hm as <-.
      rewrite Hinner in Hv. discriminate.
  - split; [discriminate | intros (m & H & _); discriminate].
Qed.

(** *** aws_root_login.py *)

Lemma root_rule_dict (tb : string -> string) (entries : list (string * pyval)) :
  exists b,
    RootLogin.rule tb (VDict entries) = Ok (VBool b) /\
    (b = true <-> root_console_login entries).
Proof.
  unfold RootLogin.rule, get. cbn [res_bind].
  destruct (deep_get_pair_str entries "userIdentity" "type" "Root")
    as (v & Hv & Hiff).
  rewrite Hv. cbn [res_bind]. unfold root_console_login.
  destruct (dict_find entries "eventName") as [x |].
  - destruct (equals_str x "ConsoleLogin") eqn:Hx.
    + exists (equals_str v "Root"). split; [reflexivity |].
      apply equals_str_iff in Hx. subst x. rewrite Hiff. tauto.
    + exists false. split; [reflexivity |].
      split; [discriminate |]. intros [H _]. injection H as ->.
      discriminate Hx.
  - exists false. split; [reflexivity |].
    split; [discriminate |]. intros [H _]. discriminate.
Qed.

(** The rule of aws_root_login.py returns a boolean on every mapping, and
    [True] exactly for a console login of the root identity: "eventName"
    is "ConsoleLogin" and "userIdentity" is a mapping whose "type" is
    "Root".  On an event that is not a mapping it raises AttributeError. *)
Theorem root_login_rule (tb : string -> string) (event : pyval) :
  (forall entries,
      event = VDict entries ->
      exists b,
        RootLogin.rule tb event = Ok (VBool b) /\
        (b = true <-> root_console_login entries)) /\
  (is_dict event = false ->
   exists e, RootLogin.rule tb event = Raise e /\
             exc_type e = "AttributeError").
Proof.
  split.
  - intros entries ->. apply root_rule_dict.
  - intros H. destruct event; try discriminate; eexists; split; reflexivity.
Qed.

Lemma root_login_rule_witness :
  RootLogin.rule no_traceback (VDict root_login_event) = Ok (VBool true) /\
  exists e, RootLogin.rule no_traceback (VStr "ConsoleLogin") = Raise e /\
            exc_type e = "AttributeError".
Proof.
  destruct (root_login_rule no_traceback (VDict root_login_event)) as [H _].
  destruct (H root_login_event eq_refl) as (b & Hrule & Hiff).
  split.
  - rewrite Hrule. do 2 f_equal. apply Hiff.
    split; [reflexivity |]. eexists. split; reflexivity.
  - apply (proj2 (root_login_rule no_traceback (VStr "ConsoleLogin"))).
    reflexivity.
Defined.

Lemma root_severity (entries : list (string * pyval)) :
  exists level,
    RootLogin.severity (VDict entries) = Ok (VStr level) /\
    (nested entries "additionalEventData" "MFAUsed" (VStr "Yes") ->
     level = "MEDIUM") /\
    (~ nested entries "additionalEventData" "MFAUsed" (VStr "Yes") ->
     level = "HIGH").
Proof.
  unfold RootLogin.severity.
  destruct (deep_get_pair_str entries "additionalEventData" "MFAUsed" "Yes")
    as (v & Hv & Hiff).
  rewrite Hv. cbn [res_bind].
  destruct (equals_str v "Yes"); eexists; (split; [reflexivity |]); simpl.
  - split; [reflexivity |]. intros H. exfalso. apply H, Hiff. reflexivity.
  - split; [| reflexivity]. intros H. apply Hiff in H. discriminate.
Qed.

Lemma root_extractors_succeed (py_str : pyval -> string)
  (tb : string -> string) (directory : string)
  (entries : list (string * pyval)) :
  extractors_succeed (root_login_unit py_str tb directory) (VDict entries).
Proof.
  intros w f Hin. simpl in Hin.
  destruct Hin as [Hin | Hin]; [injection Hin as <- <-; eexists; reflexivity |].
  destruct Hin as [Hin | Hin].
  { injection Hin as <- <-. destruct (root_severity entries) as (l & H & _).
    eauto. }
  destruct Hin as [Hin | Hin]; [injection Hin as <- <-; eexists; reflexivity |].
  destruct Hin as [Hin | Hin]; [injection Hin as <- <-; eexists; reflexivity |].
  destruct Hin as [Hin | Hin]; [injection Hin as <- <-; eexists; reflexivity |].
  destruct Hin as [Hin | Hin].
  { injection Hin as <- <-. unfold RootLogin.alert_context, get.
    cbn [res_bind].
    rewrite !deep_get_pair. cbn [res_bind]. eexists. reflexivity. }
  destruct Hin as [Hin | Hin]; [injection Hin as <- <-; eexists; reflexivity |].
  contradiction.
Qed.

Section Clock.
Variable now : nat -> Z.
Variable elapsed_ms : Z -> Z -> Z.
Variable py_str : pyval -> string.
Variable tb : string -> string.

(** Loading aws_root_login.py and evaluating it on a console login of
    the root identity gives a matched verdict without error under the
    identifier "aws_root_login".  The title and the deduplication key end
    with the source address, or with "unknown" when the event has none;
    the severity is "MEDIUM" when additionalEventData.MFAUsed is "Yes" and
    "HIGH" in every other case; the rule and all seven extractors were
    called, in the engine's order. *)
Theorem root_login_alert (directory : string) (entries : list (string * pyval))
  (s : State) :
  root_console_login entries ->
  let source := entry_or entries "sourceIPAddress" (VStr "unknown") in
  exists d s1 r s2,
    load_rule (RootLogin.file py_str tb directory) s = (Ok d, s1) /\
    Engine.run_detection now elapsed_ms d (VDict entries) s1 = (Ok r, s2) /\
    DetectionResult.rule_id r = "aws_root_login" /\
    DetectionResult.matched r = true /\
    DetectionResult.error r = None /\
    DetectionResult.title r
    = VStr ("AWS Root Console Login from " ++ fstr py_str source)%string /\
    DetectionResult.dedup_string r
    = VStr ("root_login_" ++ fstr py_str source)%string /\
    (nested entries "additionalEventData" "MFAUsed" (VStr "Yes") ->
     DetectionResult.severity r = VStr "MEDIUM") /\
    (~ nested entries "additionalEventData" "MFAUsed" (VStr "Yes") ->
     DetectionResult.severity r = VStr "HIGH") /\
    calls s2 = calls s
               ++ calls_of d (VDict entries)
                    (RuleFunc :: map Extractor all_fields).
Proof.
  intros Hlogin source.
  set (d := root_login_unit py_str tb directory).
  assert (Hrule : rule_func d (VDict entries) = Ok (VBool true)).
  { destruct (root_rule_dict tb entries) as (b & Hb & Hiff).
    change (rule_func d (VDict entries)) with (RootLogin.rule tb (VDict entries)).
    rewrite Hb. do 2 f_equal. now apply Hiff. }
  exists d, (registered d s).
  pose proof (root_extractors_succeed py_str tb directory entries) as Hall.
  destruct (EngineFacts.run_detection_match now elapsed_ms d (VDict entries)
              (registered d s) (VBool true) Hrule eq_refl)
    as (r & s2 & Hrun & Hmatched & Hid & _).
  { intros e He.
    rewrite (proj2 (EngineMoreFacts.fault_none_iff (VDict entries)
                      (extractors d)) Hall) in He.
    discriminate He. }
  destruct (EngineMoreFacts.extraction_complete now elapsed_ms d (VDict entries)
              (registered d s) (VBool true) Hrule eq_refl
              (root_extractors_succeed py_str tb directory entries))
    as (r' & s2' & Hrun' & Herr & Hfields & _ & Hcalls).
  rewrite Hrun in Hrun'. injection Hrun' as <- <-.
  exists r, s2.
  split; [now rewrite EngineFacts.load_rule_spec |].
  split; [exact Hrun |]. split; [exact Hid |]. split; [exact Hmatched |].
  split; [exact Herr |].
  assert (Htitle : RootLogin.title py_str tb (VDict entries)
                   = Ok (get_field Title r)).
  { apply Hfields. simpl. auto. }
  assert (Hdedup : RootLogin.dedup py_str tb (VDict entries)
                   = Ok (get_field Dedup r)).
  { apply Hfields. simpl. auto 10. }
  assert (Hsev : RootLogin.severity (VDict entries)
                 = Ok (get_field Severity r)).
  { apply Hfields. simpl. auto. }
  destruct (root_severity entries) as (level & Hlevel & Hyes & Hno).
  rewrite Hlevel in Hsev. injection Hsev as Hsev.
  cbn [get_field] in Htitle, Hdedup, Hsev.
  split; [injection Htitle as <-; reflexivity |].
  split; [injection Hdedup as <-; reflexivity |].
  split; [intros H; rewrite <- Hsev; f_equal; auto |].
  split; [intros H; rewrite <- Hsev; f_equal; auto |].
  exact Hcalls.
Qed.

End Clock.

Lemma root_login_alert_witness :
  exists d s1 r s2,
    load_rule (RootLogin.file no_str no_traceback "rules") empty_state
    = (Ok d, s1) /\
    Engine.run_detection tick ms_between d (VDict root_login_event) s1
    = (Ok r, s2) /\
    DetectionResult.title r = VStr "AWS Root Console Login from 203.0.113.50" /\
    DetectionResult.severity r = VStr "MEDIUM".
Proof.
  assert (Hlogin : root_console_login root_login_event).
  { split; [reflexivity |]. eexists. split; reflexivity. }
  destruct (root_login_alert tick ms_between no_str no_traceback "rules"
              root_login_event empty_state Hlogin)
    as (d & s1 & r & s2 & Hload & Hrun & _ & _ & _ & Htitle & _ & Hyes & _).
  exists d, s1, r, s2. split; [exact Hload |]. split; [exact Hrun |].
  split; [exact Htitle |]. apply Hyes. eexists. split; reflexivity.
Defined.

(** *** aws_iam_access_key_created.py *)

Lemma key_rule_dict (tb : string -> string) (entries : list (string * pyval)) :
  exists b,
    IamKey.rule tb (VDict entries) = Ok (VBool b) /\
    (b = true <-> key_created entries).
Proof.
  unfold IamKey.rule, get. cbn [res_bind]. unfold key_created, unset.
  destruct (dict_find entries "eventName") as [x |].
  - destruct (equals_str x "CreateAccessKey") eqn:Hx.
    + eexists. split; [reflexivity |].
      apply equals_str_iff in Hx. subst x.
      destruct (dict_find entries "errorCode") as [c |].
      * destruct c; simpl;
          try (split; [discriminate | intros [_ [H | H]]; discriminate]).
        split; auto.
      * simpl. split; auto.
    + exists false. split; [reflexivity |].
      split; [discriminate |]. intros [H _]. injection H as ->.
      discriminate Hx.
  - exists false. split; [reflexivity |].
    split; [discriminate |]. intros [H _]. discriminate.
Qed.

(** The rule of aws_iam_access_key_created.py returns a boolean on every
    mapping, and [True] exactly when "eventName" is "CreateAccessKey" and
    "errorCode" is absent or [None]; an error code of any other value,
    the empty string included, keeps the rule from matching.  On an event
    that is not a mapping it raises AttributeError. *)
Theorem iam_key_rule (tb : string -> string) (event : pyval) :
  (forall entries,
      event = VDict entries ->
      exists b,
        IamKey.rule tb event = Ok (VBool b) /\
        (b = true <-> key_created entries)) /\
  (forall entries code,
      event = VDict entries ->
      dict_find entries "errorCode" = Some code -> is_None code = false ->
      IamKey.rule tb event = Ok (VBool false)) /\
  (is_dict event = false ->
   exists e, IamKey.rule tb event = Raise e /\ exc_type e = "AttributeError").
Proof.
  split; [| split].
  - intros entries ->. apply key_rule_dict.
  - intros entries code -> Hcode Hnone.
    destruct (key_rule_dict tb entries) as (b & Hb & Hiff).
    rewrite Hb. destruct b; [| reflexivity].
    destruct (proj1 Hiff eq_refl) as [_ [H | H]]; rewrite H in Hcode.
    + discriminate.
    + injection Hcode as <-. discriminate.
  - intros H. destruct event; try discriminate; eexists; split; reflexivity.
Qed.

Lemma iam_key_rule_witness :
  IamKey.rule no_traceback
    (VDict (("errorCode", VStr EmptyString) :: key_for_other_user))
  = Ok (VBool false).
Proof.
  apply (proj1 (proj2 (iam_key_rule no_traceback
                         (VDict (("errorCode", VStr EmptyString)
                                 :: key_for_other_user))))
           (("errorCode", VStr EmptyString) :: key_for_other_user)
           (VStr EmptyString));
    reflexivity.
Defined.

Lemma truthy_not_None (v : pyval) : truthy v = true -> is_None v = false.
Proof. destruct v; [discriminate | reflexivity ..]. Qed.

Lemma key_severity_raises (py_eq : pyval -> pyval -> bool)
  (tb : string -> string) (entries : list (string * pyval)) (a : string)
  (v : pyval) :
  nested entries "userIdentity" "arn" (VStr a) ->
  nested entries "requestParameters" "userName" v ->
  truthy v = true -> is_str v = false ->
  IamKey.severity py_eq tb (VDict entries)
  = Raise (TypeError
             ("'in <string>' requires string as left operand, not "
              ++ type_name v)%string (tb "severity")).
Proof.
  intros Harn Huser Htrue Hstr. unfold IamKey.severity.
  rewrite (deep_get_pair_nested entries _ _ _ _ Harn).
  rewrite (deep_get_pair_nested entries _ _ _ _ Huser).
  rewrite (truthy_not_None v Htrue). cbn [is_None res_bind].
  rewrite Htrue. cbn [negb].
  destruct v; try discriminate; reflexivity.
Qed.

(** The severity of an access-key creation.  It is "MEDIUM" when
    requestParameters.userName is missing or falsy.  With a user name
    that is a non-empty string it is "MEDIUM" when the name occurs in the
    string userIdentity.arn and "HIGH" when it does not, so "HIGH" for
    every such name when the event has no ARN.  A truthy user name that
    is not a string makes the test against a string ARN raise
    TypeError. *)
Theorem iam_key_severity (py_eq : pyval -> pyval -> bool)
  (tb : string -> string) (entries : list (string * pyval)) :
  ((forall v, nested entries "requestParameters" "userName" v ->
              truthy v = false) ->
   IamKey.severity py_eq tb (VDict entries) = Ok (VStr "MEDIUM")) /\
  (forall a u,
      nested entries "userIdentity" "arn" (VStr a) ->
      nested entries "requestParameters" "userName" (VStr u) ->
      u <> EmptyString ->
      IamKey.severity py_eq tb (VDict entries)
      = Ok (VStr (if substring_of u a then "MEDIUM" else "HIGH"))) /\
  (forall u,
      (forall v, nested entries "userIdentity" "arn" v -> v = VNone) ->
      nested entries "requestParameters" "userName" (VStr u) ->
      u <> EmptyString ->
      IamKey.severity py_eq tb (VDict entries) = Ok (VStr "HIGH")) /\
  (forall a v,
      nested entries "userIdentity" "arn" (VStr a) ->
      nested entries "requestParameters" "userName" v ->
      truthy v = true -> is_str v = false ->
      exists e, IamKey.severity py_eq tb (VDict entries) = Raise e /\
                exc_type e = "TypeError").
Proof.
  assert (Hne : forall u, u <> EmptyString -> truthy (VStr u) = true).
  { intros u Hu. simpl. destruct (String.eqb_spec u EmptyString);
      [contradiction | reflexivity]. }
  split; [| split; [| split]].
  - intros Hfalsy. unfold IamKey.severity.
    rewrite (deep_get_pair entries "userIdentity" "arn" (VStr EmptyString)).
    rewrite (deep_get_pair entries "requestParameters" "userName" VNone).
    cbn [res_bind].
    destruct (dict_find entries "requestParameters") as [x |] eqn:Hx;
      [| reflexivity].
    destruct x as [| b | n | bits | t | items | inner]; try reflexivity.
    destruct (dict_find inner "userName") as [v |] eqn:Hv; [| reflexivity].
    assert (Hf : truthy v = false).
    { apply Hfalsy. exists inner. auto. }
    destruct (is_None v); [reflexivity |]. now rewrite Hf.
  - intros a u Harn Huser Hu. unfold IamKey.severity.
    rewrite (deep_get_pair_nested entries _ _ _ _ Harn).
    rewrite (deep_get_pair_nested entries _ _ _ _ Huser).
    cbn [is_None res_bind]. rewrite (Hne u Hu). cbn [negb contains res_bind].
    destruct (substring_of u a); reflexivity.
  - intros u Harn Huser Hu. unfold IamKey.severity.
    rewrite (deep_get_pair_missing entries _ _ _ Harn).
    rewrite (deep_get_pair_nested entries _ _ _ _ Huser).
    cbn [is_None res_bind]. rewrite (Hne u Hu). cbn [negb contains res_bind].
    destruct u as [| c u]; [contradiction |]. reflexivity.
  - intros a v Harn Huser Htrue Hstr.
    rewrite (key_severity_raises py_eq tb entries a v Harn Huser Htrue Hstr).
    eexists. split; reflexivity.
Qed.

Lemma iam_key_severity_witness :
  IamKey.severity no_eq no_traceback (VDict key_for_other_user)
  = Ok (VStr "HIGH") /\
  exists e,
    IamKey.severity no_eq no_traceback (VDict key_for_numbered_user) = Raise e /\
    exc_type e = "TypeError".
Proof.
  split.
  - apply (proj1 (proj2 (iam_key_severity no_eq no_traceback key_for_other_user))
             "arn:aws:iam::123456789012:user/admin" "service-account").
    + eexists. split; reflexivity.
    + eexists. split; reflexivity.
    + discriminate.
  - apply (proj2 (proj2 (proj2 (iam_key_severity no_eq no_traceback
                                  key_for_numbered_user)))
             "arn:aws:iam::123456789012:user/admin" (VInt 7)).
    + eexists. split; reflexivity.
    + eexists. split; reflexivity.
    + reflexivity.
    + reflexivity.
Defined.

Section Clock.
Variable now : nat -> Z.
Variable elapsed_ms : Z -> Z -> Z.
Variable py_str : pyval -> string.
Variable py_eq : pyval -> pyval -> bool.
Variable tb : string -> string.

(** A successful access-key creation whose user name is truthy but not a
    string, with a string ARN: the engine loads the module, the rule
    matches and the title is built, then the severity extractor raises
    TypeError.  The verdict stays matched and records the error; its
    severity is the default "MEDIUM", and description, alert context and
    deduplication key are never computed. *)
Theorem iam_key_bad_user_name (directory : string)
  (entries : list (string * pyval)) (a : string) (v : pyval) (s : State) :
  key_created entries ->
  nested entries "userIdentity" "arn" (VStr a) ->
  nested entries "requestParameters" "userName" v ->
  truthy v = true -> is_str v = false ->
  exists d s1 r s2,
    load_rule (IamKey.file py_str py_eq tb directory) s = (Ok d, s1) /\
    Engine.run_detection now elapsed_ms d (VDict entries) s1 = (Ok r, s2) /\
    DetectionResult.matched r = true /\
    (exists e, DetectionResult.error r = Some (format_error e) /\
               exc_type e = "TypeError") /\
    DetectionResult.title r
    = VStr ("IAM Access Key Created for " ++ fstr py_str v ++ " by " ++ a)%string /\
    DetectionResult.severity r = VStr "MEDIUM" /\
    DetectionResult.description r = VNone /\
    DetectionResult.alert_context r = VNone /\
    DetectionResult.dedup_string r = VNone /\
    calls s2 = calls s
               ++ calls_of d (VDict entries)
                    [RuleFunc; Extractor Title; Extractor Severity].
Proof.
  intros Hcreated Harn Huser Htrue Hstr.
  set (d := iam_key_unit py_str py_eq tb directory).
  assert (Hrule : rule_func d (VDict entries) = Ok (VBool true)).
  { destruct (key_rule_dict tb entries) as (b & Hb & Hiff).
    change (rule_func d (VDict entries)) with (IamKey.rule tb (VDict entries)).
    rewrite Hb. do 2 f_equal. now apply Hiff. }
  assert (Htitle : IamKey.title py_str (VDict entries)
                   = Ok (VStr ("IAM Access Key Created for " ++ fstr py_str v
                               ++ " by " ++ a)%string)).
  { unfold IamKey.title.
    rewrite (deep_get_pair_nested entries _ _ _ _ Harn).
    rewrite (deep_get_pair_nested entries _ _ _ _ Huser).
    rewrite (truthy_not_None v Htrue). reflexivity. }
  pose proof (key_severity_raises py_eq tb entries a v Harn Huser Htrue Hstr)
    as Hsev.
  exists d, (registered d s).
  assert (Ho : extract_until_fault (VDict entries) (extractors d)
               = mk_extraction
                   [(Title,
                     VStr ("IAM Access Key Created for " ++ fstr py_str v
                           ++ " by " ++ a)%string)]
                   [Title; Severity]
                   (Some (TypeError
                            ("'in <string>' requires string as left operand, not "
                             ++ type_name v)%string (tb "severity")))).
  { unfold d, iam_key_unit, make_detection, IamKey.module, extractors.
    cbn [title_func severity_func description_func reference_func runbook_func
         alert_context_func dedup_func attr_title attr_severity attr_description
         attr_reference attr_runbook attr_alert_context attr_dedup].
    cbn [extract_until_fault]. rewrite Htitle, Hsev. reflexivity. }
  destruct (EngineFacts.run_detection_match now elapsed_ms d (VDict entries)
              (registered d s) (VBool true) Hrule eq_refl)
    as (r & s2 & Hrun & Hmatched & _ & _ & Herr & Hfields & Hs2).
  { rewrite Ho. intros e He. injection He as <-. reflexivity. }
  exists r, s2.
  split; [now rewrite EngineFacts.load_rule_spec |].
  split; [exact Hrun |]. split; [exact Hmatched |].
  rewrite Ho in Herr, Hfields, Hs2.
  split; [eexists; split; [exact Herr | reflexivity] |].
  split; [exact (Hfields Title) |].
  split; [exact (Hfields Severity) |].
  split; [exact (Hfields Description) |].
  split; [exact (Hfields AlertContext) |].
  split; [exact (Hfields Dedup) |].
  subst s2. reflexivity.
Qed.

End Clock.

Lemma iam_key_bad_user_name_witness :
  exists d s1 r s2,
    load_rule (IamKey.file no_str no_eq no_traceback "rules") empty_state
    = (Ok d, s1) /\
    Engine.run_detection tick ms_between d (VDict key_for_numbered_user) s1
    = (Ok r, s2) /\
    DetectionResult.matched r = true /\
    DetectionResult.severity r = VStr "MEDIUM" /\
    DetectionResult.dedup_string r = VNone.
Proof.
  destruct (iam_key_bad_user_name tick ms_between no_str no_eq no_traceback
              "rules" key_for_numbered_user
              "arn:aws:iam::123456789012:user/admin" (VInt 7) empty_state)
    as (d & s1 & r & s2 & Hload & Hrun & Hm & _ & _ & Hsev & _ & _ & Hd & _).
  - split; [reflexivity | left; reflexivity].
  - eexists. split; reflexivity.
  - eexists. split; reflexivity.
  - reflexivity.
  - reflexivity.
  - exists d, s1, r, s2. auto.
Defined.

End RulesFacts.
